(** * Lakehouse scripts: a shallow embedding and its checked properties

    The repository is a collection of Python scripts that move data from a
    document store and from HDF5 files to object storage and from there
    into Iceberg tables.  This development embeds the parts of

      - [scripts/ravendb_sync.py]    (flatten, partition, landing write),
      - [scripts/ingest_hdf5.py]     (null filling of metadata records),
      - [scripts/bridge_ravendb.py]  (MERGE INTO the orders table),
      - [scripts/bridge_hdf5.py]     (MERGE INTO the HDF5 catalog),
      - [scripts/inventory_files.py] (write-audit-publish on a branch)

    that the specification talks about, and proves or refutes what the
    specification says about them.

    Python values are a tagged union, a [dict] is a [gmap] over strings,
    exceptions are an error result, the system clock and the interpreter
    heap are threaded through a small state-and-error monad.  Binary
    floating point, the ISO-8601 parser of [datetime], the Parquet
    encoder and the constructor of a pandas frame are taken as
    parameters of the development. *)

From Stdlib Require Import ZArith QArith Ascii.
From stdpp Require Import gmap strings list fin_maps pretty.

Set Warnings "-register-all".
#[local] Open Scope Z_scope.

(* ===================================================================== *)
(** * Python values, exceptions and the interpreter state                 *)
(* ===================================================================== *)

Module Py.

(** The exceptions the embedded code can raise.  [SparkError] carries the
    message of an exception coming back from a Spark SQL call. *)
Inductive exn :=
| TypeError
| AttributeError
| KeyError
| ValueError
| OverflowError
| MemoryError
| SparkError (msg : string).

Inductive result (A : Type) :=
| Ok (a : A)
| Raise (e : exn).
Arguments Ok {A} a.
Arguments Raise {A} e.

Definition is_ok {A} (r : result A) : bool :=
  match r with Ok _ => true | Raise _ => false end.

#[export] Instance result_ret : MRet result := λ A a, Ok a.
#[export] Instance result_bind : MBind result :=
  λ A B k r, match r with Ok a => k a | Raise e => Raise e end.

(** [datetime.datetime]: the wall-clock fields and the UTC offset of an
    aware value, in seconds ([None] for a naive value). *)
Record datetime := mk_datetime {
  year : Z; month : Z; day : Z;
  hour : Z; minute : Z; second : Z; microsecond : Z;
  utcoffset : option Z
}.

(** The ranges [datetime] enforces on the date fields. *)
Definition valid_date (d : datetime) : Prop :=
  1 ≤ year d ≤ 9999 ∧ 1 ≤ month d ≤ 12 ∧ 1 ≤ day d ≤ 31.

(** Numbers as Python sees them: [bool] is a subclass of [int]. *)
Inductive number (float : Type) := NInt (z : Z) | NFloat (f : float).
Arguments NInt {float} z.
Arguments NFloat {float} f.

(** What depends on the platform is a parameter: binary floating point,
    as the operations Python applies to [float] in the embedded code,
    and the limits of the allocator.

    - [f_of_int n] is [float(n)], [None] where Python raises
      [OverflowError] (int too large to convert to float);
    - [f_sum items] is the float [sum] returns for items of which one at
      least is a float, when no conversion of an int fails: additions
      from left to right up to Python 3.11, with a compensation term
      for the floats from 3.12 on;
    - [repeat_error len n] is the exception of [seq * n] for a sequence
      of length [len] that cannot be built ([OverflowError],
      [MemoryError]), [None] when it is built. *)
Class Platform (float : Type) := {
  f_of_int : Z → option float;
  f_mul : float → float → float;                  (* x * y *)
  f_sum : list (number float) → float;
  f_round2 : float → float;                       (* round(x, 2) *)
  f_is_zero : float → bool;                       (* x == 0.0 *)
  repeat_error : nat → Z → option exn
}.

Section Values.
Context {float : Type} `{Platform float}.

Inductive pyval :=
| VNone
| VBool (b : bool)
| VInt (z : Z)
| VFloat (f : float)
| VStr (s : string)
| VDatetime (d : datetime)
| VList (l : list pyval)
| VDict (d : gmap string pyval).

(** [bool(v)] *)
Definition truthy (v : pyval) : bool :=
  match v with
  | VNone => false
  | VBool b => b
  | VInt z => negb (z =? 0)
  | VFloat f => negb (f_is_zero f)
  | VStr s => negb (bool_decide (s = ""))
  | VDatetime _ => true
  | VList l => negb (bool_decide (length l = 0%nat))
  | VDict d => negb (bool_decide (size d = 0%nat))
  end.

Definition Z_of_bool (b : bool) : Z := if b then 1 else 0.

(** The number a value is, if it is one. *)
Definition as_number (v : pyval) : option (number float) :=
  match v with
  | VBool b => Some (NInt (Z_of_bool b))
  | VInt z => Some (NInt z)
  | VFloat f => Some (NFloat f)
  | _ => None
  end.

Definition of_number (n : number float) : pyval :=
  match n with NInt z => VInt z | NFloat f => VFloat f end.

(** [float(n)] for an int [n]. *)
Definition to_float (z : Z) : result float :=
  match f_of_int z with
  | Some f => Ok f
  | None => Raise OverflowError
  end.

(** [a * b] on numbers: exact on ints; an int that meets a float is
    converted first, which fails for an int beyond the range of
    [float]. *)
Definition num_mul (a b : number float) : result (number float) :=
  match a, b with
  | NInt x, NInt y => Ok (NInt (x * y))
  | NInt x, NFloat y => fx ← to_float x; mret (NFloat (f_mul fx y))
  | NFloat x, NInt y => fy ← to_float y; mret (NFloat (f_mul x fy))
  | NFloat x, NFloat y => Ok (NFloat (f_mul x y))
  end.

Definition is_int (a : number float) : bool :=
  match a with NInt _ => true | NFloat _ => false end.

Definition int_part (a : number float) : Z :=
  match a with NInt x => x | NFloat _ => 0 end.

(** ** [sum(f(x) for x in xs)]

    The generator is consumed item by item: [f x] is evaluated, then
    added to the running total, before the next item is looked at, so
    the first exception in that order is the one that leaves [sum].
    The total starts as the int [0] and stays an exact int as long as
    the items are ints.  The first float turns it into a float, and from
    then on every int item is converted; either conversion fails for an
    int beyond the range of [float]. *)
Section Sum.
Context {A : Type} (f : A → result (number float)).

(** One addition.  [acc] is the exact total while no float has come,
    [None] from the first float on. *)
Definition sum_step (acc : option Z) (n : number float) : result (option Z) :=
  match acc, n with
  | Some a, NInt z => Ok (Some (a + z))
  | Some a, NFloat _ => _ ← to_float a; mret None
  | None, NInt z => _ ← to_float z; mret None
  | None, NFloat _ => Ok None
  end.

(** The items [sum] has added when no exception ended it. *)
Fixpoint sum_run (acc : option Z) (xs : list A) : result (list (number float)) :=
  match xs with
  | [] => Ok []
  | x :: xs' =>
      n ← f x;
      acc' ← sum_step acc n;
      rest ← sum_run acc' xs';
      mret (n :: rest)
  end.

(** The value of the total for the items added. *)
Definition sum_value (items : list (number float)) : number float :=
  if forallb is_int items then NInt (foldl Z.add 0 (int_part <$> items))
  else NFloat (f_sum items).

Definition py_sum (xs : list A) : result (number float) :=
  items ← sum_run (Some 0) xs;
  mret (sum_value items).
End Sum.

(** The length of a sequence, and the int an index can be. *)
Definition seq_len (v : pyval) : option nat :=
  match v with
  | VStr s => Some (String.length s)
  | VList l => Some (length l)
  | _ => None
  end.

Definition as_index (v : pyval) : option Z :=
  match v with
  | VBool b => Some (Z_of_bool b)
  | VInt z => Some z
  | _ => None
  end.

(** [a * b] as it is used under [sum].  The product of two numbers is a
    number.  A sequence times an int is a sequence when it can be built,
    and the addition inside [sum] rejects a sequence with [TypeError];
    when it cannot be built the exception is that of the repetition.
    Every other pair of operands has no product: [TypeError]. *)
Definition py_mul (a b : pyval) : result (number float) :=
  match as_number a, as_number b with
  | Some x, Some y => num_mul x y
  | _, _ =>
      match seq_len a, as_index b, as_index a, seq_len b with
      | Some len, Some n, _, _ | _, _, Some n, Some len =>
          Raise (default TypeError (repeat_error len n))
      | _, _, _, _ => Raise TypeError
      end
  end.

(** [round(v, 2)]: an int is returned as it is, a float is rounded, any
    other value has no [__round__]. *)
Definition py_round2 (v : pyval) : result pyval :=
  match as_number v with
  | Some (NInt z) => Ok (VInt z)
  | Some (NFloat f) => Ok (VFloat (f_round2 f))
  | None => Raise TypeError
  end.

(** [d.get(k, default)] on a dict. *)
Definition dict_get (d : gmap string pyval) (k : string) (dflt : pyval) : pyval :=
  default dflt (d !! k).

(** [v.get(k, default)] on an arbitrary value: only a dict has [get]. *)
Definition py_get (v : pyval) (k : string) (dflt : pyval) : result pyval :=
  match v with
  | VDict d => Ok (dict_get d k dflt)
  | _ => Raise AttributeError
  end.

Fixpoint chars (s : string) : list string :=
  match s with
  | EmptyString => []
  | String c s' => String c EmptyString :: chars s'
  end.

(** [iter(v)]: the items a [for] loop over [v] visits. *)
Definition py_iter (v : pyval) : result (list pyval) :=
  match v with
  | VList l => Ok l
  | VStr s => Ok (VStr <$> chars s)
  | VDict d => Ok (VStr <$> (map_to_list d).*1)
  | _ => Raise TypeError
  end.

(** [len(v)] *)
Definition py_len (v : pyval) : result pyval :=
  match v with
  | VList l => Ok (VInt (Z.of_nat (length l)))
  | VStr s => Ok (VInt (Z.of_nat (String.length s)))
  | VDict d => Ok (VInt (Z.of_nat (size d)))
  | _ => Raise TypeError
  end.

(** [s.replace("Z", "+00:00")] *)
Fixpoint replace_Z (s : string) : string :=
  match s with
  | EmptyString => EmptyString
  | String c s' =>
      if bool_decide (c = "Z"%char) then "+00:00" +:+ replace_Z s'
      else String c (replace_Z s')
  end.
End Values.
Arguments pyval float : clear implicits.

(** A Python [dict] with string keys. *)
Abbreviation dict float := (gmap string (pyval float)).

(** ** Interpreter state: the heap of dict objects and the clock

    A dict that the code receives by reference lives in the heap under a
    location; [ticks] counts the readings of the system clock taken so
    far, the [n]-th reading being [clock n] for the clock of the run. *)
Record world (float : Type) := mk_world {
  heap : gmap nat (dict float);
  ticks : nat
}.
Arguments mk_world {float} heap ticks.
Arguments heap {float} w.
Arguments ticks {float} w.

Definition M (float : Type) (A : Type) : Type :=
  world float → result A * world float.

Definition ret {float A} (a : A) : M float A := λ w, (Ok a, w).
Definition raise {float A} (e : exn) : M float A := λ w, (Raise e, w).
Definition bind {float A B} (m : M float A) (k : A → M float B) : M float B :=
  λ w, match m w with
       | (Ok a, w') => k a w'
       | (Raise e, w') => (Raise e, w')
       end.
Definition lift {float A} (r : result A) : M float A := λ w, (r, w).

#[export] Instance M_ret {float} : MRet (M float) := λ A a, ret a.
#[export] Instance M_bind {float} : MBind (M float) := λ A B k m, bind m k.

(** Reading the dict object behind a reference.  A reference always
    points to an object; the error case is there to keep [load] total. *)
Definition load {float} (l : nat) : M float (dict float) :=
  λ w, match heap w !! l with
       | Some d => (Ok d, w)
       | None => (Raise KeyError, w)
       end.

(** [obj[k] = v] on the dict object behind a reference: the object is
    changed in place, every holder of the reference sees the change. *)
Definition store_item {float} (l : nat) (k : string) (v : pyval float) : M float () :=
  λ w, (Ok (), mk_world (alter (<[k := v]>) l (heap w)) (ticks w)).

(** [for x in xs: f(x)] *)
Fixpoint for_each {float A} (f : A → M float ()) (xs : list A) : M float () :=
  match xs with
  | [] => mret ()
  | x :: xs' => _ ← f x; for_each f xs'
  end.

(** [[f(x) for x in xs]] in the state monad. *)
Fixpoint map_M {float A B} (f : A → M float B) (xs : list A) : M float (list B) :=
  match xs with
  | [] => mret []
  | x :: xs' => y ← f x; ys ← map_M f xs'; mret (y :: ys)
  end.

End Py.

(* ===================================================================== *)
(** * Concrete parameters for the worked examples                         *)
(* ===================================================================== *)

Module Examples.
Import Py.

(** Exact rational arithmetic in the place of binary floating point:
    [round(x, 2)] rounds half to even on the hundredths. *)
Definition q_round2 (q : Q) : Q :=
  let n := Qnum q * 100 in
  let d := Zpos (Qden q) in
  let fl := n / d in
  let r := n mod d in
  let up := if 2 * r <? d then fl
            else if d <? 2 * r then fl + 1
            else if Z.even fl then fl else fl + 1 in
  Qred (up # 100).

Definition q_of_number (n : number Q) : Q :=
  match n with NInt z => inject_Z z | NFloat q => q end.

(** Every int has its rational, sums are exact, and every sequence can
    be built. *)
#[global] Instance exact_ops : Platform Q := {|
  f_of_int := λ z, Some (inject_Z z);
  f_mul := λ x y, Qred (x * y);
  f_sum := λ items, Qred (foldl (λ a n, a + q_of_number n)%Q 0%Q items);
  f_round2 := q_round2;
  f_is_zero := λ x, Qeq_bool x 0;
  repeat_error := λ _ _, None
|}.

(** A clock that advances by one second per reading, from midnight of
    2024-01-01. *)
Definition clock (n : nat) : datetime :=
  mk_datetime 2024 1 1 0 0 (Z.of_nat n) 0 None.

(** A parser that knows two timestamps and refuses every other string. *)
Definition fromisoformat (s : string) : option datetime :=
  if bool_decide (s = "2024-01-01T10:30:00") then Some (mk_datetime 2024 1 1 10 30 0 0 None)
  else if bool_decide (s = "2024-01-02T08:00:00+00:00") then Some (mk_datetime 2024 1 2 8 0 0 0 (Some 0))
  else None.

Definition isoformat (d : datetime) : string := "2024-01-01T10:30:00".

(** An order whose stored total is [0], whose date is not a timestamp,
    and which has no [Status]. *)
Definition order_doc : dict Q :=
  <["CustomerId" := VStr "customers/7"]>
  (<["OrderDate" := VStr "yesterday"]>
  (<["TotalAmount" := VInt 0]>
  (<["Lines" := VList [VDict (<["Price" := VInt 5]> (<["Quantity" := VInt 2]> ∅));
                       VDict (<["Price" := VInt 3]> ∅)]]>
  (<["ShipTo" := VDict (<["City" := VStr "Oslo"]> ∅)]> ∅)))).

(** A flattened order reduced to its identifier and its date. *)
Definition order_at (id : string) (y m d : Z) : dict Q :=
  <["OrderId" := VStr id]> (<["OrderDate" := VDatetime (mk_datetime y m d 9 0 0 0 None)]> ∅).

(** Three orders on two days. *)
Definition three_orders : list (dict Q) :=
  [order_at "orders/1" 2024 1 1; order_at "orders/2" 2024 1 1; order_at "orders/3" 2024 1 2].

(** An encoder that always succeeds: one byte per row. *)
Definition to_parquet (rows : list (dict Q)) : result (list Byte.byte) :=
  Ok (replicate (length rows) Byte.x00).

(** An order with a stored total of [0] and a price with decimals:
    [1.125 * 3 + 3 * 0 = 3.375], which rounds to [3.38].  An order whose
    stored total [19.999] has three decimals.  An order with a date that
    is not a timestamp and a JSON null for [ShipTo]. *)
Definition priced_doc : dict Q :=
  <["TotalAmount" := VInt 0]>
  (<["Lines" := VList [VDict (<["Price" := VFloat (9 # 8)]> (<["Quantity" := VInt 3]> ∅));
                       VDict (<["Price" := VInt 3]> ∅)]]> ∅).
Definition stored_amount_doc : dict Q := <["TotalAmount" := VFloat (19999 # 1000)]> ∅.
Definition undated_null_ship_doc : dict Q :=
  <["OrderDate" := VStr "yesterday"]> (<["ShipTo" := VNone]> ∅).

(** A metadata record that has only its path. *)
Definition meta_record : dict Q := <["file_path" := VStr "/data/run1.h5"]> ∅.

(** A stand-in for the frame of pandas, which is not modelled: the list
    of the records the frame was built from, one row per record.  A cell
    is what the record holds under the column, and it counts as missing
    when that is [None]. *)
Definition frame_of_records (records : list (dict Q)) : list (dict Q) := records.
Definition frame_cell (df : list (dict Q)) (i : nat) (column : string)
  : option (pyval Q) := df !! i ≫= (.!! column).
Definition cell_missing (cell : pyval Q) : bool :=
  match cell with VNone => true | _ => false end.

(** Documents with a JSON null where an object, a date or an amount is
    expected, and a document with a date the parser accepts. *)
Definition null_ship_doc : dict Q :=
  <["OrderDate" := VStr "2024-01-01T10:30:00"]> (<["ShipTo" := VNone]> ∅).
Definition null_date_doc : dict Q := <["OrderDate" := VNone]> ∅.
Definition null_total_doc : dict Q := <["TotalAmount" := VNone]> ∅.
Definition dated_doc : dict Q := <["OrderDate" := VStr "2024-01-02T08:00:00Z"]> ∅.

(** A collection of eight documents. *)
Definition collection_world : world Q :=
  mk_world (<[0%nat := order_doc]> (<[1%nat := dated_doc]> (<[2%nat := null_ship_doc]>
           (<[3%nat := null_date_doc]> (<[4%nat := null_total_doc]>
           (<[5%nat := priced_doc]> (<[6%nat := stored_amount_doc]>
           (<[7%nat := undated_null_ship_doc]> ∅)))))))) 0.

(** The order behind reference [0], the metadata record behind reference
    [1], the clock not yet read. *)
Definition sample_world : world Q :=
  mk_world (<[0%nat := order_doc]> (<[1%nat := meta_record]> ∅)) 0.
End Examples.

(* ===================================================================== *)
(** * scripts/ravendb_sync.py                                             *)
(* ===================================================================== *)

Module RavendbSync.
Import Py.

Definition BUCKET_NAME : string := "lakehouse".
Definition LANDING_ZONE_PREFIX : string := "silver/ravendb_landing/orders".

Section Flatten.
Context {float : Type} `{Platform float}.

(** The system clock of the run, the [n]-th reading of it. *)
Variable clock : nat → datetime.
(** [datetime.isoformat] and [datetime.fromisoformat]; the parser
    answers [None] where Python raises [ValueError]. *)
Variable isoformat : datetime → string.
Variable fromisoformat : string → option datetime.

(** [datetime.now()] *)
Definition now : M float datetime :=
  λ w, (Ok (clock (ticks w)), mk_world (heap w) (S (ticks w))).

(** [line.get("Price", 0) * line.get("Quantity", 0)] *)
Definition line_total (line : pyval float) : result (number float) :=
  p ← py_get line "Price" (VInt 0);
  q ← py_get line "Quantity" (VInt 0);
  py_mul p q.

(** The block "Calculate total if not pre-computed". *)
Definition total_amount_of (d : dict float) : result (pyval float) :=
  let total_amount := dict_get d "TotalAmount" (VInt 0) in
  if negb (truthy total_amount) && bool_decide (is_Some (d !! "Lines"))
  then lines ← py_iter (dict_get d "Lines" (VList []));
       total ← py_sum line_total lines;
       mret (of_number total)
  else mret total_amount.

(** The block "Parse order date for partitioning".  The default of the
    [get] is evaluated whether or not the document has an [OrderDate],
    which is one reading of the clock. *)
Definition order_date_of (d : dict float) : M float (pyval float) :=
  t ← now;
  let order_date_str := dict_get d "OrderDate" (VStr (isoformat t)) in
  match order_date_str with
  | VStr s =>
      match fromisoformat (replace_Z s) with
      | Some dt => mret (VDatetime dt)
      | None => t' ← now; mret (VDatetime t')
      end
  | v => mret v
  end.

Definition flatten_order (doc : nat) (doc_id : string) : M float (dict float) :=
  d ← load doc;
  total_amount ← lift (total_amount_of d);
  order_date ← order_date_of d;
  let customer_id := dict_get d "CustomerId" (VStr "") in
  rounded ← lift (py_round2 total_amount);
  let status := dict_get d "Status" (VStr "Unknown") in
  ship_city ← lift (py_get (dict_get d "ShipTo" (VDict ∅)) "City" (VStr ""));
  ship_country ← lift (py_get (dict_get d "ShipTo" (VDict ∅)) "Country" (VStr ""));
  line_count ← lift (py_len (dict_get d "Lines" (VList [])));
  synced_at ← now;
  mret (<["OrderId" := VStr doc_id]>
        (<["CustomerId" := customer_id]>
        (<["OrderDate" := order_date]>
        (<["TotalAmount" := rounded]>
        (<["Status" := status]>
        (<["ShipCity" := ship_city]>
        (<["ShipCountry" := ship_country]>
        (<["LineCount" := line_count]>
        (<["SyncedAt" := VDatetime synced_at]> ∅))))))))).

(** The columns of a flattened order. *)
Definition order_columns : list string :=
  ["OrderId"; "CustomerId"; "OrderDate"; "TotalAmount"; "Status";
   "ShipCity"; "ShipCountry"; "LineCount"; "SyncedAt"].

(** [fetch_all_orders]: the documents of the collection, each as the
    reference to its dict and its identifier, are flattened in the order
    of the query. *)
Definition fetch_all_orders (docs : list (nat * string)) : M float (list (dict float)) :=
  map_M (λ doc, flatten_order doc.1 doc.2) docs.

(** A document on which no step of [flatten_order] outside the date
    block raises: the amount is computed and can be rounded, [ShipTo],
    if present, has a [get], and [Lines], if present, has a length. *)
Definition order_doc_ok (d : dict float) : Prop :=
  (∃ total rounded, total_amount_of d = Ok total ∧ py_round2 total = Ok rounded)
  ∧ (∃ ship, dict_get d "ShipTo" (VDict ∅) = VDict ship)
  ∧ (∃ m : nat, py_len (dict_get d "Lines" (VList [])) = Ok (VInt (Z.of_nat m))).

(** A line item whose price and quantity, where present, are ints. *)
Definition int_line (line : pyval float) : Prop :=
  ∃ ld p q, line = VDict ld
    ∧ as_number (dict_get ld "Price" (VInt 0)) = Some (NInt p)
    ∧ as_number (dict_get ld "Quantity" (VInt 0)) = Some (NInt q).

(** A document whose fields, where present, have the types of an order
    with amounts in ints: [ShipTo] is an object, [Lines] is an array of
    line items, and the stored amount is an int, or it is falsy and the
    document has [Lines]. *)
Definition int_order_doc (d : dict float) : Prop :=
  (∀ v, d !! "ShipTo" = Some v → ∃ m, v = VDict m)
  ∧ (∀ v, d !! "Lines" = Some v → ∃ lines, v = VList lines ∧ Forall int_line lines)
  ∧ ((∃ z, as_number (dict_get d "TotalAmount" (VInt 0)) = Some (NInt z))
     ∨ (truthy (dict_get d "TotalAmount" (VInt 0)) = false ∧ is_Some (d !! "Lines"))).

(** A document of the collection, as its reference and its identifier,
    on which, as it is in the heap [h], no step outside the date block
    raises. *)
Definition doc_ok (h : gmap nat (dict float)) (doc : nat * string) : Prop :=
  ∃ d, h !! doc.1 = Some d ∧ order_doc_ok d.

(** The number a line item carries under [k], [0] when it has none. *)
Definition num_field (ld : dict float) (k : string) : number float :=
  default (NInt 0) (as_number (dict_get ld k (VInt 0))).

(** ** The recomputation rule in the words of the specification

    "The sum over all lines of Price times Quantity (each defaulting to
    0 when missing), rounded to 2 decimal places." *)

(** Price times quantity for each line, in the order of the lines. *)
Definition line_amounts (lds : list (dict float)) (amounts : list (number float)) : Prop :=
  Forall2 (λ ld amount,
             num_mul (num_field ld "Price") (num_field ld "Quantity") = Ok amount)
          lds amounts.

(** Their sum rounded to two decimal places: the exact sum when every
    amount is an int, which has no decimals to round; the float sum of
    the platform, rounded, otherwise. *)
Definition rounded_total (amounts : list (number float)) : pyval float :=
  if forallb (λ a, match a with NInt _ => true | NFloat _ => false end) amounts
  then VInt (foldr (λ a total, match a with NInt z => z + total | NFloat _ => total end)
               0 amounts)
  else VFloat (f_round2 (f_sum amounts)).

(** A stored amount that is used as it is, rounded to two decimal
    places: an int (or a bool, which is an int) has no decimals. *)
Definition rounded_amount (stored rounded : pyval float) : Prop :=
  match stored with
  | VInt z => rounded = VInt z
  | VBool b => rounded = VInt (Z_of_bool b)
  | VFloat x => rounded = VFloat (f_round2 x)
  | _ => False
  end.
End Flatten.

(** ** [group_by_date] *)

(** The decimal digit of the units of [n]. *)
Definition digit (n : Z) : ascii := ascii_of_nat (Z.to_nat (48 + n mod 10)).

Definition pad2 (n : Z) : string :=
  String (digit (n / 10)) (String (digit n) EmptyString).

Definition pad4 (n : Z) : string :=
  String (digit (n / 1000)) (String (digit (n / 100)) (pad2 n)).

(** [d.strftime("%Y-%m-%d")]: the year on four digits, the month and the
    day on two, of the wall-clock date of [d]. *)
Definition strftime_Ymd (d : datetime) : string :=
  pad4 (year d) +:+ "-" +:+ pad2 (month d) +:+ "-" +:+ pad2 (day d).

Section Group.
Context {float : Type}.

(** [order["OrderDate"].strftime("%Y-%m-%d")] *)
Definition date_key (order : dict float) : result string :=
  match order !! "OrderDate" with
  | None => Raise KeyError
  | Some (VDatetime d) => Ok (strftime_Ymd d)
  | Some _ => Raise AttributeError
  end.

(** One turn of the loop of [group_by_date]. *)
Definition group_step (grouped : gmap string (list (dict float)))
    (order : dict float) : result (gmap string (list (dict float))) :=
  k ← date_key order;
  let grouped1 :=
    match grouped !! k with
    | None => <[k := []]> grouped
    | Some _ => grouped
    end in
  mret (<[k := default [] (grouped1 !! k) ++ [order]]> grouped1).

Fixpoint group_loop (grouped : gmap string (list (dict float)))
    (orders : list (dict float)) : result (gmap string (list (dict float))) :=
  match orders with
  | [] => Ok grouped
  | order :: rest => g ← group_step grouped order; group_loop g rest
  end.

Definition group_by_date (orders : list (dict float))
  : result (gmap string (list (dict float))) :=
  group_loop ∅ orders.

(** The calendar day of the partition column of a row. *)
Definition calendar_day (order : dict float) : option (Z * Z * Z) :=
  match order !! "OrderDate" with
  | Some (VDatetime d) => Some (year d, month d, day d)
  | _ => None
  end.

(** The key [group_by_date] files a row under, when it has one. *)
Definition partition_key (order : dict float) : option string :=
  match date_key order with
  | Ok k => Some k
  | Raise _ => None
  end.

(** The rows of a list that are filed under the key [k], in the order of
    the list. *)
Definition rows_of_key (k : string) (orders : list (dict float)) : list (dict float) :=
  filter (λ o, partition_key o = Some k) orders.

(** The map holds, under each key, the rows seen so far that have the
    key, in the order they came, and no empty list. *)
Definition grouped_as (g : gmap string (list (dict float))) (seen : list (dict float)) : Prop :=
  ∀ k, g !! k = match rows_of_key k seen with
                | [] => None
                | rows => Some rows
                end.

(** A row with a valid timestamp in the partition column. *)
Definition valid_timestamp (order : dict float) : Prop :=
  ∃ d, order !! "OrderDate" = Some (VDatetime d) ∧ valid_date d.

(** ** [write_parquet_to_minio] *)

(** An object of the store: its bytes and its content type. *)
Record s3_object := mk_object {
  body : list Byte.byte;
  content_type : string
}.

(** The object store: bucket and key to object. *)
Abbreviation s3_store := (gmap (string * string) s3_object).

(** [put_object(Bucket, Key, Body, ContentType)]: the object under the key
    is replaced as a whole. *)
Definition put_object (s3 : s3_store) (bucket key : string)
    (bytes : list Byte.byte) (ctype : string) : s3_store :=
  <[(bucket, key) := mk_object bytes ctype]> s3.

(** The DataFrame construction, the flooring of timestamps to milliseconds,
    the schema and the Parquet encoding with snappy compression: pandas
    and pyarrow, which answer the bytes of the file or raise. *)
Variable to_parquet : list (dict float) → result (list Byte.byte).

(** The layout of the landing zone: [<zone>/<dataset>/<partition>/data.parquet]. *)
Definition landing_path (zone dataset partition : string) : string :=
  zone +:+ "/" +:+ dataset +:+ "/" +:+ partition +:+ "/data.parquet".

Definition write_parquet_to_minio (s3 : s3_store) (orders : list (dict float))
    (date_partition : string) : result string * s3_store :=
  match to_parquet orders with
  | Raise e => (Raise e, s3)
  | Ok buffer =>
      let key := LANDING_ZONE_PREFIX +:+ "/" +:+ date_partition +:+ "/data.parquet" in
      (Ok key, put_object s3 BUCKET_NAME key buffer "application/octet-stream")
  end.

(** The keys of the dict built by [group_by_date], in insertion order: the
    order in which the keys first occur in the list of orders. *)
Fixpoint insertion_order (seen : list string) (keys : list string) : list string :=
  match keys with
  | [] => []
  | k :: rest =>
      if bool_decide (k ∈ seen) then insertion_order seen rest
      else k :: insertion_order (k :: seen) rest
  end.

(** [grouped.items()] *)
Definition items (grouped : gmap string (list (dict float)))
    (orders : list (dict float)) : list (string * list (dict float)) :=
  omap (λ k, (λ rows, (k, rows)) <$> grouped !! k)
       (insertion_order [] (omap partition_key orders)).

(** The loop of [main] over the partitions; an exception ends it and
    leaves what was written. *)
Fixpoint write_partitions (s3 : s3_store)
    (parts : list (string * list (dict float))) : result (list string) * s3_store :=
  match parts with
  | [] => (Ok [], s3)
  | (date_partition, date_orders) :: rest =>
      match write_parquet_to_minio s3 date_orders date_partition with
      | (Raise e, s3) => (Raise e, s3)
      | (Ok key, s3) =>
          match write_partitions s3 rest with
          | (Ok files_written, s3) => (Ok (key :: files_written), s3)
          | (Raise e, s3) => (Raise e, s3)
          end
      end
  end.

(** [main] from the fetched orders on: nothing is done for an empty
    list, otherwise the orders are grouped and every partition is
    written.  The answer is [files_written]. *)
Definition sync_orders (s3 : s3_store) (orders : list (dict float))
  : result (list string) * s3_store :=
  match orders with
  | [] => (Ok [], s3)
  | _ =>
      match group_by_date orders with
      | Raise e => (Raise e, s3)
      | Ok grouped => write_partitions s3 (items grouped orders)
      end
  end.
End Group.
End RavendbSync.


(* ===================================================================== *)
(** * scripts/ingest_hdf5.py                                              *)
(* ===================================================================== *)

Module IngestHdf5.
Import Py.

Definition schema_fields : list string :=
  ["file_path"; "file_name"; "file_size_bytes"; "file_modified_time";
   "file_created_time"; "ingestion_time"; "tiled_uri"; "tiled_adapter";
   "content_type"; "hdf5_driver"; "hdf5_libver"; "group_count";
   "dataset_count"; "significant_datasets"; "entry_name"; "title";
   "experiment_identifier"; "start_time"; "end_time"; "duration";
   "run_number"; "instrument_name"; "instrument_type"; "source_name";
   "source_type"; "sample_name"; "sample_description"; "user_name";
   "user_facility"; "extraction_error"].

Section Normalize.
Context {float frame : Type}.

(** [pd.DataFrame(records)]: the constructor of pandas, which builds the
    frame from the list of record dicts. *)
Variable DataFrame : list (dict float) → frame.

(** [if field not in record: record[field] = None] *)
Definition fill_field (record : nat) (field : string) : M float () :=
  d ← load record;
  if bool_decide (is_Some (d !! field)) then mret ()
  else store_item record field VNone.

(** [metadata_list] is a list of references to the record dicts.  The
    frame is built from the dicts as the loop leaves them. *)
Definition metadata_to_dataframe (metadata_list : list nat) : M float frame :=
  _ ← for_each (λ record, for_each (fill_field record) schema_fields) metadata_list;
  records ← map_M load metadata_list;
  mret (DataFrame records).

(** A record dict after one turn of the inner loop, and after the whole
    of it. *)
Definition with_field (d : dict float) (field : string) : dict float :=
  if bool_decide (is_Some (d !! field)) then d else <[field := VNone]> d.

Definition filled (d : dict float) : dict float := foldl with_field d schema_fields.
End Normalize.
Arguments filled : simpl never.
End IngestHdf5.

(* ===================================================================== *)
(** * The SQL statements the bridge jobs send to Spark                    *)
(* ===================================================================== *)

Module Sql.
Import Py.

(** [a = b] in an [ON] condition: true only when both sides are non-null
    and equal; a comparison with [NULL] is not true. *)
Definition sql_eq {K} `{EqDecision K} (a b : option K) : bool :=
  match a, b with
  | Some x, Some y => bool_decide (x = y)
  | _, _ => false
  end.

Definition cardinality_violation : string :=
  "The ON search condition of the MERGE statement matched a single row from the target table with multiple rows of the source table.".

Section Merge.
Context {R K : Type} `{EqDecision K}.

(** The column of the [ON target.k = source.k] condition. *)
Variable key : R → option K.
(** [WHEN MATCHED THEN UPDATE SET ...]: the target row and the source row
    that matches it give the new target row. *)
Variable update : R → R → R.
(** [WHEN NOT MATCHED THEN INSERT ... VALUES ...]: the row inserted for a
    source row. *)
Variable insert : R → R.

Definition matched (t s : R) : bool := sql_eq (key t) (key s).

(** The source rows that satisfy the [ON] condition for a target row. *)
Definition matches_of (source : list R) (t : R) : list R :=
  filter (λ s, matched t s) source.

(** A source row is matched when some target row satisfies [ON] with it. *)
Definition is_matched (target : list R) (s : R) : Prop :=
  Exists (λ t, matched t s) target.

(** A target row after the [WHEN MATCHED] clause. *)
Definition updated (source : list R) (t : R) : R :=
  match matches_of source t with
  | s :: _ => update t s
  | [] => t
  end.

(** [MERGE INTO target USING source ON ... WHEN MATCHED THEN UPDATE ...
    WHEN NOT MATCHED THEN INSERT ...] as Spark with the Iceberg extensions
    runs it: the statement is refused when a target row is matched by
    more than one source row; otherwise every matched target row is
    updated from its source row, the others are kept, and the source rows
    that match no target row are inserted.  A refused statement commits
    nothing. *)
Definition merge_into (target source : list R) : result (list R) :=
  if decide (Exists (λ t, 2 ≤ length (matches_of source t))%nat target)
  then Raise (SparkError cardinality_violation)
  else Ok ((updated source <$> target)
           ++ (insert <$> filter (λ s, ¬ is_matched target s) source)).

(** The table after the statement was attempted. *)
Definition table_after (target source : list R) : list R :=
  match merge_into target source with
  | Ok t' => t'
  | Raise _ => target
  end.

(** What the specification asks of an upsert [merge] keyed on [key]:
    after a successful merge a target row matched by a source row is that
    source row, column for column; a target row no source row matches is
    as it was; a source row that matches no target row is in the table;
    the table has no other row; and, when the keys of the table were
    pairwise distinct and the keys of the batch are non-null and pairwise
    distinct, so are the keys of the table after the merge.  A batch with
    pairwise distinct keys is always merged. *)
Definition upsert_spec (merge : list R → list R → result (list R)) : Prop :=
  ∀ target source,
    (∀ target', merge target source = Ok target' →
       (∀ i t s, target !! i = Some t → s ∈ source → matched t s →
                 target' !! i = Some s)
       ∧ (∀ i t, target !! i = Some t → (∀ s, s ∈ source → ¬ matched t s) →
                 target' !! i = Some t)
       ∧ (∀ s, s ∈ source → ¬ is_matched target s → s ∈ target')
       ∧ length target' =
           (length target + length (filter (λ s, ¬ is_matched target s) source))%nat
       ∧ (NoDup (key <$> target) → NoDup (key <$> source) →
          (∀ s, s ∈ source → key s ≠ None) → NoDup (key <$> target')))
    ∧ (NoDup (key <$> source) → ∃ target', merge target source = Ok target').
End Merge.
End Sql.

(* ===================================================================== *)
(** * scripts/bridge_ravendb.py                                           *)
(* ===================================================================== *)

Module BridgeRavendb.
Import Py.

(** [str(e)] *)
Definition exn_message (e : exn) : string :=
  match e with
  | TypeError => "TypeError"
  | AttributeError => "AttributeError"
  | KeyError => "KeyError"
  | ValueError => "ValueError"
  | OverflowError => "OverflowError"
  | MemoryError => "MemoryError"
  | SparkError msg => msg
  end.

Section Bridge.
Context {float : Type}.

(** A row of [nessie.structured_data.orders]; every column is nullable. *)
Record order_row := mk_order {
  OrderId : option string;
  CustomerId : option string;
  OrderDate : option Z;
  TotalAmount : option float;
  Status : option string;
  ShipCity : option string;
  ShipCountry : option string;
  LineCount : option Z;
  SyncedAt : option Z
}.

(** What the job sees through its Spark session. *)
Record spark := mk_spark {
  orders_table : option (list order_row); (* None: the table does not exist *)
  landing_files : gmap string (list order_row); (* key to rows of the file *)
  source_updates : list order_row;        (* the temp view *)
  stdout : list string;
  stopped : bool
}.

Definition print (line : string) (sp : spark) : spark :=
  mk_spark (orders_table sp) (landing_files sp) (source_updates sp)
           (stdout sp ++ [line]) (stopped sp).

Definition set_table (t : list order_row) (sp : spark) : spark :=
  mk_spark (Some t) (landing_files sp) (source_updates sp) (stdout sp) (stopped sp).

Definition set_view (v : list order_row) (sp : spark) : spark :=
  mk_spark (orders_table sp) (landing_files sp) v (stdout sp) (stopped sp).

(** [spark.stop()] *)
Definition stop (sp : spark) : spark :=
  mk_spark (orders_table sp) (landing_files sp) (source_updates sp) (stdout sp) true.

(** [CREATE TABLE IF NOT EXISTS nessie.structured_data.orders ...] *)
Definition create_orders_table (sp : spark) : spark :=
  print "✓ Table 'nessie.structured_data.orders' ready"
    (match orders_table sp with
     | None => set_table [] sp
     | Some _ => sp
     end).

Definition create_namespace_if_not_exists (sp : spark) : spark :=
  print "✓ Namespace 'nessie.structured_data' ready" sp.

(** [spark.read.parquet("s3a://.../orders/*/*.parquet")] followed by
    [count()]: the rows of all the files, or an exception when no file
    matches the path. *)
Definition read_parquet (files : gmap string (list order_row)) : result (list order_row) :=
  if bool_decide (files = ∅)
  then Raise (SparkError "Path does not exist: s3a://lakehouse/silver/ravendb_landing/orders/*/*.parquet")
  else Ok (concat (map_to_list files).*2).

Definition read_landing_zone (sp : spark) : option (list order_row) * spark :=
  match read_parquet (landing_files sp) with
  | Ok df =>
      (Some df, print ("✓ Read " +:+ pretty (length df) +:+ " records from landing zone") sp)
  | Raise e =>
      (None, print "  Make sure ravendb_sync.py has been run first."
               (print ("⚠ Error reading landing zone: " +:+ exn_message e) sp))
  end.

(** [UPDATE SET CustomerId = source.CustomerId, ..., SyncedAt =
    source.SyncedAt]: the eight columns of the statement. *)
Definition merge_update (target source : order_row) : order_row :=
  {| OrderId := OrderId target;
     CustomerId := CustomerId source;
     OrderDate := OrderDate source;
     TotalAmount := TotalAmount source;
     Status := Status source;
     ShipCity := ShipCity source;
     ShipCountry := ShipCountry source;
     LineCount := LineCount source;
     SyncedAt := SyncedAt source |}.

(** [INSERT (OrderId, ..., SyncedAt) VALUES (source.OrderId, ...,
    source.SyncedAt)] *)
Definition merge_insert (source : order_row) : order_row :=
  {| OrderId := OrderId source;
     CustomerId := CustomerId source;
     OrderDate := OrderDate source;
     TotalAmount := TotalAmount source;
     Status := Status source;
     ShipCity := ShipCity source;
     ShipCountry := ShipCountry source;
     LineCount := LineCount source;
     SyncedAt := SyncedAt source |}.

(** The [MERGE INTO nessie.structured_data.orders] statement. *)
Definition merge_sql (target source : list order_row) : result (list order_row) :=
  Sql.merge_into OrderId merge_update merge_insert target source.

Definition merge_into_iceberg (sp : spark) (df_source : list order_row)
  : result () * spark :=
  let sp := set_view df_source sp in
  match orders_table sp with
  | None => (Raise (SparkError "Table or view not found: nessie.structured_data.orders"), sp)
  | Some target =>
      match merge_sql target (source_updates sp) with
      | Ok target' => (Ok (), print "✓ MERGE completed successfully" (set_table target' sp))
      | Raise e => (Raise e, sp)
      end
  end.

(** The lines [show_table_stats] prints for a table: the output of the
    [show()] calls is Spark's. *)
Variable show_output : list order_row → list string.

Definition show_table_stats (sp : spark) : result () * spark :=
  match orders_table sp with
  | None => (Raise (SparkError "Table or view not found: nessie.structured_data.orders"), sp)
  | Some t =>
      (Ok (), foldl (λ sp line, print line sp)
                (print ("Total rows: " +:+ pretty (length t)) sp) (show_output t))
  end.

(** [main()]: the value it returns, [None] throughout, is dropped by the
    caller; what is left is whether it raised. *)
Definition main (sp : spark) : result () * spark :=
  let sp := print "RavenDB Bridge Job - Merge to Iceberg" sp in
  let sp := print "Initializing Spark session..." sp in
  let sp := print "Setting up Iceberg table..." sp in
  let sp := create_namespace_if_not_exists sp in
  let sp := create_orders_table sp in
  let sp := print "Reading from landing zone..." sp in
  let '(df_source, sp) := read_landing_zone sp in
  match df_source with
  | None => (Ok (), stop sp)
  | Some df_source =>
      let sp := print "Merging into Iceberg table..." sp in
      match merge_into_iceberg sp df_source with
      | (Raise e, sp) => (Raise e, sp)
      | (Ok _, sp) =>
          match show_table_stats sp with
          | (Raise e, sp) => (Raise e, sp)
          | (Ok _, sp) =>
              let sp := print "✓ Bridge job complete!" sp in
              let sp := print "Data is now available in: nessie.structured_data.orders" sp in
              (Ok (), stop sp)
          end
      end
  end.

(** The exit status of [python bridge_ravendb.py]: the module ends with a
    bare [main()], so the status is 0 unless an exception escapes. *)
Definition exit_status (r : result ()) : Z :=
  match r with
  | Ok _ => 0
  | Raise _ => 1
  end.
End Bridge.
End BridgeRavendb.

(* ===================================================================== *)
(** * scripts/bridge_hdf5.py                                              *)
(* ===================================================================== *)

Module BridgeHdf5.
Import Py.

Inductive sqltype := LongType | IntegerType | DoubleType | StringType.

Definition type_casts : list (string * sqltype) :=
  [("file_size_bytes", LongType); ("group_count", IntegerType);
   ("dataset_count", IntegerType); ("duration", DoubleType)].

Definition string_columns : list string :=
  ["file_path"; "file_name"; "file_modified_time"; "file_created_time";
   "tiled_uri"; "tiled_adapter"; "content_type"; "hdf5_driver"; "hdf5_libver";
   "significant_datasets"; "entry_name"; "title"; "experiment_identifier";
   "start_time"; "end_time"; "run_number"; "instrument_name"; "instrument_type";
   "source_name"; "source_type"; "sample_name"; "sample_description";
   "user_name"; "user_facility"; "extraction_error"; "s3_uri"].

Definition expected_columns : list string :=
  ["file_path"; "file_name"; "file_size_bytes"; "file_modified_time";
   "file_created_time"; "ingestion_time"; "tiled_uri"; "tiled_adapter";
   "content_type"; "hdf5_driver"; "hdf5_libver"; "group_count";
   "dataset_count"; "significant_datasets"; "entry_name"; "title";
   "experiment_identifier"; "start_time"; "end_time"; "duration";
   "run_number"; "instrument_name"; "instrument_type"; "source_name";
   "source_type"; "sample_name"; "sample_description"; "user_name";
   "user_facility"; "extraction_error"; "s3_uri"; "cataloged_at"].

Section Bridge.
Context {float : Type}.

(** A value of a column. *)
Inductive cell :=
| CNull
| CStr (s : string)
| CInt (z : Z)
| CDouble (f : float)
| CTimestamp (t : Z).

(** A row: column name to value. *)
Abbreviation row := (gmap string cell).

Record dataframe := mk_df {
  columns : list string;
  rows : list row
}.

(** [df.withColumn(name, f)] *)
Definition withColumn (name : string) (f : row → cell) (df : dataframe) : dataframe :=
  {| columns := if bool_decide (name ∈ columns df) then columns df
                else columns df ++ [name];
     rows := (λ r, <[name := f r]> r) <$> rows df |}.

(** [df.select( *cols )] *)
Definition select (cols : list string) (df : dataframe) : dataframe :=
  {| columns := cols;
     rows := (λ r : row, filter (λ kv, kv.1 ∈ cols) r) <$> rows df |}.

(** [col(name)] evaluated on a row. *)
Definition col (name : string) (r : row) : cell := default CNull (r !! name).

(** Spark's [CAST] and [to_timestamp]. *)
Variable cast : sqltype → cell → cell.
Variable to_timestamp : cell → cell.

(** The part of [merge_into_iceberg] that prepares the source; [now] is
    the value of [current_timestamp()] for the query. *)
Definition prepare (now : Z) (df_source : dataframe) : dataframe :=
  let df := withColumn "cataloged_at" (λ _, CTimestamp now) df_source in
  let df := foldl (λ df '(c, ty),
              if bool_decide (c ∈ columns df)
              then withColumn c (λ r, cast ty (col c r)) df else df) df type_casts in
  let df := if bool_decide ("ingestion_time" ∈ columns df)
            then withColumn "ingestion_time" (λ r, to_timestamp (col "ingestion_time" r)) df
            else df in
  let df := foldl (λ df c,
              if bool_decide (c ∈ columns df)
              then withColumn c (λ r, cast StringType (col c r)) df else df) df string_columns in
  let df := foldl (λ df c,
              if bool_decide (c ∈ columns df) then df
              else withColumn c (λ _, CNull) df) df expected_columns in
  select expected_columns df.

(** The natural key: the string in [file_path], null otherwise. *)
Definition file_path (r : row) : option string :=
  match r !! "file_path" with
  | Some (CStr p) => Some p
  | _ => None
  end.

(** [MERGE INTO nessie.scientific_data.hdf5_catalog ... ON target.file_path
    = source.file_path WHEN MATCHED THEN UPDATE SET * WHEN NOT MATCHED THEN
    INSERT *]: every column comes from the source row. *)
Definition merge_sql (target source : list row) : result (list row) :=
  Sql.merge_into file_path (λ _ s, s) (λ s, s) target source.

Record spark := mk_spark {
  hdf5_catalog : option (list row);
  metadata_files : gmap string dataframe;  (* silver/hdf5_metadata/*.parquet *)
  hdf5_source : list row;                  (* the temp view *)
  stdout : list string;
  stopped : bool
}.

Definition print (line : string) (sp : spark) : spark :=
  mk_spark (hdf5_catalog sp) (metadata_files sp) (hdf5_source sp)
           (stdout sp ++ [line]) (stopped sp).

Definition set_table (t : list row) (sp : spark) : spark :=
  mk_spark (Some t) (metadata_files sp) (hdf5_source sp) (stdout sp) (stopped sp).

Definition set_view (v : list row) (sp : spark) : spark :=
  mk_spark (hdf5_catalog sp) (metadata_files sp) v (stdout sp) (stopped sp).

Definition stop (sp : spark) : spark :=
  mk_spark (hdf5_catalog sp) (metadata_files sp) (hdf5_source sp) (stdout sp) true.

Definition create_namespace_if_not_exists (sp : spark) : spark :=
  print "✓ Namespace 'nessie.scientific_data' ready" sp.

Definition create_hdf5_catalog_table (sp : spark) : spark :=
  print "✓ Table 'nessie.scientific_data.hdf5_catalog' ready"
    (match hdf5_catalog sp with
     | None => set_table [] sp
     | Some _ => sp
     end).

(** Reading all the files under the path as one DataFrame: Spark's, which
    raises when no file matches. *)
Variable union_files : gmap string dataframe → dataframe.

Definition read_parquet (files : gmap string dataframe) : result dataframe :=
  if bool_decide (files = ∅)
  then Raise (SparkError "Path does not exist: s3a://lakehouse/silver/hdf5_metadata/*.parquet")
  else Ok (union_files files).

Definition read_hdf5_metadata (sp : spark) : option dataframe * spark :=
  match read_parquet (metadata_files sp) with
  | Ok df =>
      (Some df, print ("✓ Read " +:+ pretty (length (rows df))
                       +:+ " HDF5 metadata records from silver layer") sp)
  | Raise e =>
      (None, print "  Make sure ingest_hdf5.py has been run with --upload-metadata first."
               (print ("⚠ Error reading HDF5 metadata: " +:+ BridgeRavendb.exn_message e) sp))
  end.

Definition merge_into_iceberg (now : Z) (sp : spark) (df_source : dataframe)
  : result () * spark :=
  let df_prepared := prepare now df_source in
  let sp := set_view (rows df_prepared) sp in
  match hdf5_catalog sp with
  | None => (Raise (SparkError "Table or view not found: nessie.scientific_data.hdf5_catalog"), sp)
  | Some target =>
      match merge_sql target (hdf5_source sp) with
      | Ok target' =>
          (Ok (), print ("✓ Merged data into Iceberg table. Total records: "
                         +:+ pretty (length target')) (set_table target' sp))
      | Raise e => (Raise e, sp)
      end
  end.

(** The lines [show_catalog_summary] prints: the output of [show()]. *)
Variable summary_output : list row → list string.

Definition show_catalog_summary (sp : spark) : result () * spark :=
  match hdf5_catalog sp with
  | None => (Raise (SparkError "Table or view not found: nessie.scientific_data.hdf5_catalog"), sp)
  | Some t => (Ok (), foldl (λ sp line, print line sp) sp (summary_output t))
  end.

(** [main()], with the value it returns. *)
Definition main (now : Z) (sp : spark) : result Z * spark :=
  let sp := print "HDF5 CATALOG BRIDGE - Registering in Nessie/Iceberg" sp in
  let sp := print "✓ Spark session created" sp in
  let sp := create_namespace_if_not_exists sp in
  let sp := create_hdf5_catalog_table sp in
  let '(df_metadata, sp) := read_hdf5_metadata sp in
  match df_metadata with
  | None =>
      let sp := print "⚠ No HDF5 metadata found in silver layer." sp in
      (Ok 1, stop sp)
  | Some df =>
      if bool_decide (length (rows df) = 0%nat) then
        let sp := print "⚠ No HDF5 metadata found in silver layer." sp in
        (Ok 1, stop sp)
      else
        match merge_into_iceberg now sp df with
        | (Raise e, sp) => (Raise e, sp)
        | (Ok _, sp) =>
            match show_catalog_summary sp with
            | (Raise e, sp) => (Raise e, sp)
            | (Ok _, sp) =>
                let sp := stop sp in
                (Ok 0, print "✓ Bridge job completed successfully" sp)
            end
        end
  end.

(** The exit status of [python bridge_hdf5.py]: the module ends with
    [exit(main())]. *)
Definition exit_status (r : result Z) : Z :=
  match r with
  | Ok code => code
  | Raise _ => 1
  end.
End Bridge.
End BridgeHdf5.

(* ===================================================================== *)
(** * scripts/inventory_files.py                                          *)
(* ===================================================================== *)

Module InventoryFiles.
Import Py.

(** [c.lower()] on the letters of ASCII. *)
Definition lower_ascii (c : ascii) : ascii :=
  let n := nat_of_ascii c in
  if (65 <=? n)%nat && (n <=? 90)%nat then ascii_of_nat (n + 32) else c.

Fixpoint lower (s : string) : string :=
  match s with
  | EmptyString => EmptyString
  | String c s' => String (lower_ascii c) (lower s')
  end.

(** [pat in s] *)
Fixpoint contains (pat s : string) : bool :=
  String.prefix pat s ||
  match s with
  | EmptyString => false
  | String _ s' => contains pat s'
  end.

(** A row of [nessie.unstructured.file_registry]. *)
Record file_row := mk_file {
  file_path : option string;
  file_name : option string;
  file_extension : option string;
  size_bytes : option Z;
  ingested_at : option Z
}.

(** The Nessie catalog as the job sees it: the registry table on [main],
    the registry table on the branch [ingest_files] when the branch
    exists, and the reference the session writes to. *)
Record nessie := mk_nessie {
  main_registry : list file_row;
  ingest_files : option (list file_row);
  ref : string;
  stdout : list string
}.

Definition print (line : string) (n : nessie) : nessie :=
  mk_nessie (main_registry n) (ingest_files n) (ref n) (stdout n ++ [line]).

(** [spark.conf.set("spark.sql.catalog.nessie.ref", r)] *)
Definition set_ref (r : string) (n : nessie) : nessie :=
  mk_nessie (main_registry n) (ingest_files n) r (stdout n).

(** The calls to the catalog that can fail. *)
Inductive call := CreateBranch | Append | MergeBranch | DropBranch.

Section Wap.

(** The failures of the run: the exception a call meets, if any
    (connectivity, a conflict reported by the catalog, an interruption). *)
Variable faults : call → option exn.

(** What [MERGE BRANCH ingest_files INTO main] makes of the branch and of
    [main]: the catalog's, which refuses conflicting histories. *)
Variable merge_branch : list file_row → list file_row → result (list file_row).

(** [CREATE BRANCH IF NOT EXISTS ingest_files IN nessie FROM main] *)
Definition create_branch (n : nessie) : result () * nessie :=
  match faults CreateBranch with
  | Some e => (Raise e, n)
  | None =>
      (Ok (), match ingest_files n with
              | Some _ => n
              | None => mk_nessie (main_registry n) (Some (main_registry n)) (ref n) (stdout n)
              end)
  end.

(** [df_files.writeTo("nessie.unstructured.file_registry").append()]: the
    rows go to the table of the current reference. *)
Definition append (df_files : list file_row) (n : nessie) : result () * nessie :=
  match faults Append with
  | Some e => (Raise e, n)
  | None =>
      if bool_decide (ref n = "main") then
        (Ok (), mk_nessie (main_registry n ++ df_files) (ingest_files n) (ref n) (stdout n))
      else if bool_decide (ref n = "ingest_files") then
        match ingest_files n with
        | Some t => (Ok (), mk_nessie (main_registry n) (Some (t ++ df_files)) (ref n) (stdout n))
        | None => (Raise (SparkError "Reference 'ingest_files' not found"), n)
        end
      else (Raise (SparkError "Reference not found"), n)
  end.

(** [MERGE BRANCH ingest_files INTO main IN nessie]: atomic, [main] moves
    only when the merge succeeds. *)
Definition merge_branch_into_main (n : nessie) : result () * nessie :=
  match faults MergeBranch with
  | Some e => (Raise e, n)
  | None =>
      match ingest_files n with
      | None => (Raise (SparkError "Reference 'ingest_files' not found"), n)
      | Some b =>
          match merge_branch b (main_registry n) with
          | Ok m => (Ok (), mk_nessie m (ingest_files n) (ref n) (stdout n))
          | Raise e => (Raise e, n)
          end
      end
  end.

(** [DROP BRANCH IF EXISTS ingest_files IN nessie] *)
Definition drop_branch (n : nessie) : result () * nessie :=
  match faults DropBranch with
  | Some e => (Raise e, n)
  | None => (Ok (), mk_nessie (main_registry n) None (ref n) (stdout n))
  end.

Definition use_write_audit_publish (n : nessie) (df_files : list file_row)
  : result () * nessie :=
  let n := print "Using Write-Audit-Publish pattern with Nessie branches..." n in
  (* Step 1: Create ingest branch *)
  let step1 :=
    match create_branch n with
    | (Ok _, n) => (Ok (), print "  ✓ Created branch 'ingest_files'" n)
    | (Raise e, n) =>
        if contains "already exists" (lower (BridgeRavendb.exn_message e))
        then (Ok (), print "  ✓ Branch 'ingest_files' already exists" n)
        else (Raise e, n)
    end in
  match step1 with
  | (Raise e, n) => (Raise e, n)
  | (Ok _, n) =>
      (* Step 2: Switch to ingest branch and write *)
      let n := set_ref "ingest_files" n in
      let n := print "  ✓ Switched to branch 'ingest_files'" n in
      match append df_files n with
      | (Raise e, n) => (Raise e, n)
      | (Ok _, n) =>
          let n := print "  ✓ Wrote files to registry on branch" n in
          (* Step 3: Switch back to main and merge *)
          let n := set_ref "main" n in
          match merge_branch_into_main n with
          | (Raise e, n) => (Raise e, n)
          | (Ok _, n) =>
              let n := print "  ✓ Merged 'ingest_files' into 'main'" n in
              (* Cleanup: drop the feature branch *)
              match drop_branch n with
              | (Raise e, n) => (Raise e, n)
              | (Ok _, n) => (Ok (), print "  ✓ Cleaned up 'ingest_files' branch" n)
              end
          end
      end
  end.

(** [simple_append]: the session is on [main] unless it was moved. *)
Definition simple_append (n : nessie) (df_files : list file_row) : result () * nessie :=
  match append df_files n with
  | (Ok _, n) => (Ok (), print "✓ Appended files to registry" n)
  | (Raise e, n) => (Raise e, n)
  end.

(** [scan_bronze_files]: [listing] is what reading the bucket gives, the
    files or Spark's exception.  A missing path is answered with [None],
    any other exception goes on to the caller. *)
Definition scan_bronze_files (listing : result (list file_row)) (n : nessie)
  : result (option (list file_row)) * nessie :=
  match listing with
  | Ok df_files =>
      (Ok (Some df_files),
       print ("✓ Found " +:+ pretty (length df_files) +:+ " files in bronze layer") n)
  | Raise e =>
      if contains "Path does not exist" (BridgeRavendb.exn_message e)
         || contains "No such file" (BridgeRavendb.exn_message e)
      then (Ok None,
            print "  Creating empty registry. Add files and re-run to index them."
              (print "⚠ No files found in bronze/files/" n))
      else (Raise e, n)
  end.

(** The lines [show_registry_stats] prints: the output of the queries. *)
Variable registry_output : list file_row → list string.

(** [main()] *)
Definition main (listing : result (list file_row)) (n : nessie) : result () * nessie :=
  let n := print "File Inventory - Register Files in Iceberg" n in
  let n := print "✓ Namespace 'nessie.unstructured' ready" n in
  let n := print "✓ Table 'nessie.unstructured.file_registry' ready" n in
  match scan_bronze_files listing n with
  | (Raise e, n) => (Raise e, n)
  | (Ok df_files, n) =>
      let registered :=
        match df_files with
        | Some (f :: fs) =>
            let n := print "Registering files in Iceberg..." n in
            match simple_append n (f :: fs) with
            | (Raise e, n) => (Raise e, n)
            | (Ok _, n) =>
                (Ok (), foldl (λ n line, print line n) n
                          (registry_output (main_registry n)))
            end
        | _ =>
            (Ok (), print "⚠ No files to register. Add files to bronze/files/ and re-run." n)
        end in
      match registered with
      | (Raise e, n) => (Raise e, n)
      | (Ok _, n) => (Ok (), print "✓ File inventory complete!" n)
      end
  end.
End Wap.
End InventoryFiles.

(* ===================================================================== *)
(** * Tables, batches and sessions for the worked examples                *)
(* ===================================================================== *)

Module MergeExamples.
Import Py.

(** A row of the orders table reduced to its key and an amount. *)
Definition order_row_of (id : option string) (amount : Q)
  : BridgeRavendb.order_row (float:=Q) :=
  BridgeRavendb.mk_order id None None (Some amount) None None None None None.

(** A session in which the orders table holds [table] and the landing
    zone holds [files]. *)
Definition session (table : list (BridgeRavendb.order_row (float:=Q)))
    (files : gmap string (list (BridgeRavendb.order_row (float:=Q))))
  : BridgeRavendb.spark (float:=Q) :=
  BridgeRavendb.mk_spark (Some table) files [] [] false.

(** Statistics reduced to nothing. *)
Definition show_output (t : list (BridgeRavendb.order_row (float:=Q))) : list string := [].

(** The table [{A: 1}] and the batch [{A: 2}, {B: 3}] of the
    specification, a batch that has the key [A] twice, and a batch whose
    only row has a null key. *)
Definition table_A1 := [order_row_of (Some "A") 1].
Definition batch_A2_B3 := [order_row_of (Some "A") 2; order_row_of (Some "B") 3].
Definition batch_A1_A2 := [order_row_of (Some "A") 1; order_row_of (Some "A") 2].
Definition batch_null := [order_row_of None 5].

(** A landing zone with the batch [{A: 2}, {B: 3}] in one file, and one
    with the key [A] in two files. *)
Definition one_file : gmap string (list (BridgeRavendb.order_row (float:=Q))) :=
  <["2024-01-01/data.parquet" := batch_A2_B3]> ∅.
Definition two_files : gmap string (list (BridgeRavendb.order_row (float:=Q))) :=
  <["2024-01-01/data.parquet" := [order_row_of (Some "A") 1]]>
  (<["2024-01-02/data.parquet" := [order_row_of (Some "A") 2]]> ∅).

(** A session of the HDF5 bridge with an existing catalog and no metadata
    file, and collaborators reduced to nothing. *)
Definition hdf5_session : BridgeHdf5.spark (float:=Q) :=
  BridgeHdf5.mk_spark (Some []) ∅ [] [] false.
Definition cast (ty : BridgeHdf5.sqltype) (c : BridgeHdf5.cell (float:=Q)) := c.
Definition to_timestamp (c : BridgeHdf5.cell (float:=Q)) := c.
Definition union_files (files : gmap string (BridgeHdf5.dataframe (float:=Q)))
  : BridgeHdf5.dataframe (float:=Q) :=
  BridgeHdf5.mk_df [] (concat (BridgeHdf5.rows <$> (map_to_list files).*2)).
Definition summary_output (t : list (gmap string (BridgeHdf5.cell (float:=Q))))
  : list string := [].

(** A catalog with one registered file and no ingest branch, a batch of
    one file, a run that is interrupted at the branch merge, and a
    catalog that merges by taking the branch. *)
Definition registered_file : InventoryFiles.file_row :=
  InventoryFiles.mk_file (Some "s3a://lakehouse/bronze/files/a.pdf") (Some "a.pdf")
    (Some "pdf") (Some 10) (Some 0).
Definition new_file : InventoryFiles.file_row :=
  InventoryFiles.mk_file (Some "s3a://lakehouse/bronze/files/b.csv") (Some "b.csv")
    (Some "csv") (Some 20) (Some 1).
Definition catalog : InventoryFiles.nessie :=
  InventoryFiles.mk_nessie [registered_file] None "main" [].
Definition interrupted_at_merge (c : InventoryFiles.call) : option exn :=
  match c with
  | InventoryFiles.MergeBranch => Some (SparkError "interrupted")
  | _ => None
  end.
Definition interrupted_at_append (c : InventoryFiles.call) : option exn :=
  match c with
  | InventoryFiles.Append => Some (SparkError "interrupted")
  | _ => None
  end.
Definition no_fault (c : InventoryFiles.call) : option exn := None.
Definition fast_forward (branch main : list InventoryFiles.file_row)
  : result (list InventoryFiles.file_row) := Ok branch.

(** A catalog that has the file [/data/run1.h5], registered at time 1,
    and a metadata frame that has the same file again. *)
Definition run_row : gmap string (BridgeHdf5.cell (float:=Q)) :=
  <["file_path" := BridgeHdf5.CStr "/data/run1.h5"]> ∅.
Definition cataloged_session : BridgeHdf5.spark (float:=Q) :=
  BridgeHdf5.mk_spark (Some [<["cataloged_at" := BridgeHdf5.CTimestamp 1]> run_row])
    ∅ [] [] false.
Definition metadata_frame : BridgeHdf5.dataframe (float:=Q) :=
  BridgeHdf5.mk_df ["file_path"] [run_row].

(** A session without a catalog table whose silver layer has one
    metadata file. *)
Definition metadata_session : BridgeHdf5.spark (float:=Q) :=
  BridgeHdf5.mk_spark None (<["run1.parquet" := metadata_frame]> ∅) [] [] false.

(** Registry statistics reduced to nothing, and the exception of a
    bucket without the bronze prefix. *)
Definition registry_output (t : list InventoryFiles.file_row) : list string := [].
Definition missing_bronze : exn :=
  SparkError "Path does not exist: s3a://lakehouse/bronze/files/".
End MergeExamples.

(* ===================================================================== *)
(** * Properties of the flattener                                         *)
(* ===================================================================== *)

Module FlattenFacts.
Import Py RavendbSync.

Ltac run_M :=
  unfold mbind, M_bind, bind, mret, M_ret, ret, lift, load, store_item, now in *;
  simpl in *.

(** Taking a successful [x ← m; k x] apart. *)
Lemma bind_Ok {A B} (m : result A) (k : A → result B) (b : B) :
  m ≫= k = Ok b → ∃ a, m = Ok a ∧ k a = Ok b.
Proof. destruct m as [a|e]; [|done]. intros Hk. by exists a. Qed.

Section Facts.
Context {float : Type} `{Platform float}.
Variable clock : nat → datetime.
Variable isoformat : datetime → string.
Variable fromisoformat : string → option datetime.

#[local] Instance VDict_inj : Inj (=) (=) (@VDict float).
Proof. by intros ?? [=]. Qed.

(** ** Products and sums *)

(** Only two numbers have a product that [sum] can add. *)
Lemma py_mul_Ok (a b : pyval float) (n : number float) :
  py_mul a b = Ok n →
  ∃ x y, as_number a = Some x ∧ as_number b = Some y ∧ num_mul x y = Ok n.
Proof.
  unfold py_mul. destruct (as_number a) as [x|], (as_number b) as [y|]; [by eauto|..];
    intros Hmul; exfalso;
    destruct (seq_len a), (as_index b), (as_index a), (seq_len b); discriminate.
Qed.

(** Only a line that is an object with numbers has an amount. *)
Lemma line_total_Ok (line : pyval float) (n : number float) :
  line_total line = Ok n →
  ∃ ld, line = VDict ld
    ∧ num_mul (num_field ld "Price") (num_field ld "Quantity") = Ok n.
Proof.
  unfold line_total. destruct line as [| | | | | | |ld]; try done.
  cbn [py_get mbind result_bind]. intros (x & y & Hx & Hy & Hmul)%py_mul_Ok.
  exists ld. split; [done|]. unfold num_field. by rewrite Hx, Hy.
Qed.

Lemma line_total_numbers (ld : dict float) (p q : number float) :
  as_number (dict_get ld "Price" (VInt 0)) = Some p →
  as_number (dict_get ld "Quantity" (VInt 0)) = Some q →
  line_total (VDict ld) = num_mul p q.
Proof.
  intros Hp Hq. unfold line_total, py_mul. cbn [py_get mbind result_bind].
  by rewrite Hp, Hq.
Qed.

(** The items of a sum that was not ended by an exception are the
    values of the generator, in order. *)
Lemma sum_run_items {A} (f : A → result (number float)) (xs : list A) acc items :
  sum_run f acc xs = Ok items → Forall2 (λ x n, f x = Ok n) xs items.
Proof.
  revert acc items. induction xs as [|x xs IH]; intros acc items; cbn [sum_run].
  - intros [= <-]. constructor.
  - intros (n & Hn & (acc' & _ & (rest & Hrest & [= <-])%bind_Ok)%bind_Ok)%bind_Ok.
    constructor; [done|]. by eapply IH.
Qed.

(** A sum of ints is never ended by a conversion. *)
Lemma sum_run_ints {A} (f : A → result (number float)) (xs : list A) (zs : list Z) acc :
  Forall2 (λ x z, f x = Ok (NInt z)) xs zs →
  sum_run f (Some acc) xs = Ok (NInt <$> zs).
Proof.
  intros Hall. revert acc. induction Hall as [|x z xs zs Hx _ IH]; intros acc; [done|].
  cbn [sum_run]. rewrite Hx. cbn [mbind result_bind sum_step]. by rewrite IH.
Qed.

Lemma sum_value_ints (zs : list Z) :
  sum_value (NInt <$> zs) = @NInt float (foldr Z.add 0 zs).
Proof.
  unfold sum_value.
  assert (forallb is_int (@NInt float <$> zs) = true) as ->
    by (by induction zs).
  f_equal. rewrite <- list_fmap_compose.
  assert (∀ acc, foldl Z.add acc (int_part ∘ @NInt float <$> zs) = acc + foldr Z.add 0 zs)
    as Hfold.
  { induction zs as [|z zs IH]; intros acc; cbn; [lia|]. rewrite IH. lia. }
  by rewrite Hfold.
Qed.

(** Rounding the value of a sum gives the total of the
    specification. *)
Lemma round_sum_value (amounts : list (number float)) :
  py_round2 (of_number (sum_value amounts)) = Ok (rounded_total amounts).
Proof.
  unfold sum_value, rounded_total.
  assert (forallb is_int amounts
          = forallb (λ a, match a with NInt _ => true | NFloat _ => false end) amounts)
    as <- by done.
  destruct (forallb is_int amounts) eqn:Hints; cbn; [|done].
  do 2 f_equal.
  assert (∀ acc, foldl Z.add acc (int_part <$> amounts)
                 = acc + foldr (λ a total, match a with
                                           | NInt z => z + total
                                           | NFloat _ => total
                                           end) 0 amounts) as Hfold.
  { clear Hints. induction amounts as [|a amounts IH]; intros acc; cbn; [lia|].
    rewrite IH. destruct a; cbn; lia. }
  by rewrite Hfold.
Qed.

(** A stored amount that [round] accepts is an int, a bool or a
    float. *)
Lemma py_round2_amount (stored rounded : pyval float) :
  py_round2 stored = Ok rounded → rounded_amount stored rounded.
Proof.
  unfold py_round2, rounded_amount.
  destruct stored; cbn; try done; by intros [= <-].
Qed.

(** ** The amount block *)

(** The amount that reaches [round], case by case. *)
Lemma total_amount_of_cases (d : dict float) (total : pyval float) :
  total_amount_of d = Ok total →
  let stored := dict_get d "TotalAmount" (VInt 0) in
  (truthy stored = true ∨ d !! "Lines" = None → total = stored)
  ∧ (truthy stored = false →
     ∀ v, d !! "Lines" = Some v →
     ∃ lds amounts,
       py_iter v = Ok (VDict <$> lds)
       ∧ line_amounts lds amounts
       ∧ total = of_number (sum_value amounts)).
Proof.
  unfold total_amount_of. cbv zeta. intros Htot.
  destruct (truthy (dict_get d "TotalAmount" (VInt 0))) eqn:Etr; cbn [negb andb] in Htot.
  - injection Htot as <-. by split.
  - destruct (d !! "Lines") as [v|] eqn:EL.
    + rewrite bool_decide_eq_true_2 in Htot by eauto.
      unfold dict_get at 1 in Htot. rewrite EL in Htot. cbn [default] in Htot.
      apply bind_Ok in Htot as (lines & Hiter & Htot).
      apply bind_Ok in Htot as (sum & Hsum & [= <-]).
      apply bind_Ok in Hsum as (items & Hrun & [= <-]).
      apply sum_run_items in Hrun.
      split; [by intros [?|?]|]. intros _ v' [= <-].
      assert (∃ lds, lines = VDict <$> lds ∧ line_amounts lds items) as (lds & -> & Hall).
      { clear Hiter. induction Hrun as [|line n lines items Hline _ (lds & -> & Hall)].
        - exists []. split; [done|constructor].
        - apply line_total_Ok in Hline as (ld & -> & Hmul).
          exists (ld :: lds). split; [done|]. by constructor. }
      by exists lds, items.
    + rewrite bool_decide_eq_false_2 in Htot by (by intros [? ?]).
      injection Htot as <-. by split.
Qed.

Lemma int_lines_totals (lines : list (pyval float)) :
  Forall int_line lines →
  ∃ zs, Forall2 (λ line z, line_total line = Ok (NInt z)) lines zs.
Proof.
  induction 1 as [|line lines (ld & p & q & -> & Hp & Hq) _ [zs Hzs]].
  - exists []. constructor.
  - exists (p * q :: zs). constructor; [|done].
    by rewrite (line_total_numbers ld _ _ Hp Hq).
Qed.

(** A document with amounts in ints is flattened whatever the
    platform: no int meets a float. *)
Lemma int_order_doc_ok (d : dict float) : int_order_doc d → order_doc_ok d.
Proof.
  intros (Hship & Hlines & Htotal). split; [|split].
  - unfold total_amount_of.
    destruct (truthy (dict_get d "TotalAmount" (VInt 0))) eqn:Etr; cbn [negb andb].
    + destruct Htotal as [[z Hz]|[? _]]; [|done].
      eexists _, _. split; [done|]. unfold py_round2. by rewrite Hz.
    + destruct (d !! "Lines") as [v|] eqn:EL.
      * rewrite bool_decide_eq_true_2 by eauto.
        destruct (Hlines v eq_refl) as (lines & -> & Hok).
        unfold dict_get at 1. rewrite EL.
        cbn [default from_option id py_iter mbind result_bind].
        destruct (int_lines_totals lines Hok) as [zs Hzs].
        unfold py_sum. rewrite (sum_run_ints _ _ zs 0 Hzs).
        cbn [mbind result_bind mret result_ret]. rewrite sum_value_ints.
        eexists _, _. split; reflexivity.
      * rewrite bool_decide_eq_false_2 by (by intros [? ?]).
        destruct Htotal as [[z Hz]|[_ [? ?]]]; [|done].
        eexists _, _. split; [done|]. unfold py_round2. by rewrite Hz.
  - unfold dict_get. destruct (d !! "ShipTo") as [v|] eqn:E; cbn [default]; [|eauto].
    destruct (Hship v eq_refl) as [m ->]. eauto.
  - unfold dict_get. destruct (d !! "Lines") as [v|] eqn:EL; cbn [default];
      [|by exists 0%nat].
    destruct (Hlines v eq_refl) as (lines & -> & _). cbn. eauto.
Qed.

(** The date block always answers, after one or two readings of the
    clock, and touches nothing else. *)
Lemma order_date_of_run (d : dict float) (w : world float) :
  ∃ date n,
    order_date_of clock isoformat fromisoformat d w = (Ok date, mk_world (heap w) n)
    ∧ (ticks w < n)%nat
    ∧ (∀ s, d !! "OrderDate" = Some (VStr s) → fromisoformat (replace_Z s) = None →
         date = VDatetime (clock (S (ticks w))))
    ∧ (∀ s dt, d !! "OrderDate" = Some (VStr s) → fromisoformat (replace_Z s) = Some dt →
         date = VDatetime dt).
Proof.
  unfold order_date_of. run_M.
  destruct (dict_get d "OrderDate" (VStr (isoformat (clock (ticks w)))))
    as [|b|z|f|s|dt|ls|dd] eqn:Edate;
    try (eexists _, _; split; [reflexivity|]; split; [lia|];
         split; [intros s' Hs' ?|intros s' dt' Hs' ?];
         unfold dict_get in Edate; rewrite Hs' in Edate;
         simpl in Edate; congruence).
  destruct (fromisoformat (replace_Z s)) eqn:Eparse; simpl;
    (eexists _, _; split; [reflexivity|]; split; [lia|]);
    (split; [intros s' Hs' ?|intros s' dt' Hs' ?];
     unfold dict_get in Edate; rewrite Hs' in Edate;
     simpl in Edate; injection Edate as ->; congruence).
Qed.

(** What [flatten_order] returns for a document on which no other step
    raises. *)
Lemma flatten_order_spec (l : nat) (id : string) (w : world float) (d : dict float) :
  heap w !! l = Some d → order_doc_ok d →
  ∃ total rounded date n m ship,
    flatten_order clock isoformat fromisoformat l id w =
      (Ok (<["OrderId" := VStr id]>
          (<["CustomerId" := dict_get d "CustomerId" (VStr "")]>
          (<["OrderDate" := date]>
          (<["TotalAmount" := rounded]>
          (<["Status" := dict_get d "Status" (VStr "Unknown")]>
          (<["ShipCity" := dict_get ship "City" (VStr "")]>
          (<["ShipCountry" := dict_get ship "Country" (VStr "")]>
          (<["LineCount" := VInt (Z.of_nat m)]>
          (<["SyncedAt" := VDatetime (clock n)]> ∅))))))))),
       mk_world (heap w) (S n))
    ∧ total_amount_of d = Ok total ∧ py_round2 total = Ok rounded
    ∧ order_date_of clock isoformat fromisoformat d w = (Ok date, mk_world (heap w) n)
    ∧ dict_get d "ShipTo" (VDict ∅) = VDict ship
    ∧ py_len (dict_get d "Lines" (VList [])) = Ok (VInt (Z.of_nat m)).
Proof.
  intros Hd ((total & rounded & Htot & Hround) & [ship Hs] & [m Hlen]).
  destruct (order_date_of_run d w) as (date & n & Hdate & _).
  exists total, rounded, date, n, m, ship.
  split; [|done].
  unfold flatten_order.
  unfold mbind at 1, M_bind at 1, bind at 1, load. rewrite Hd.
  unfold mbind at 1, M_bind at 1, bind at 1, lift at 1. rewrite Htot.
  unfold mbind at 1, M_bind at 1, bind at 1. rewrite Hdate.
  run_M. rewrite Hround. simpl. rewrite Hs. simpl. rewrite Hlen. done.
Qed.

(** A document on which another step raises has no row. *)
Lemma flatten_order_Ok (l : nat) (id : string) (w : world float) (d : dict float) row w' :
  heap w !! l = Some d →
  flatten_order clock isoformat fromisoformat l id w = (Ok row, w') →
  order_doc_ok d.
Proof.
  intros Hd. unfold flatten_order.
  unfold mbind at 1, M_bind at 1, bind at 1, load. rewrite Hd.
  unfold mbind at 1, M_bind at 1, bind at 1, lift at 1.
  destruct (total_amount_of d) as [total|e] eqn:Htot; [|done].
  unfold mbind at 1, M_bind at 1, bind at 1.
  destruct (order_date_of_run d w) as (date & n & -> & _).
  unfold mbind at 1, M_bind at 1, bind at 1, lift at 1.
  destruct (py_round2 total) as [rounded|e] eqn:Hround; [|done].
  unfold mbind at 1, M_bind at 1, bind at 1, lift at 1.
  destruct (dict_get d "ShipTo" (VDict ∅)) as [| | | | | | |ship] eqn:Hship; try done.
  cbn [py_get].
  unfold mbind at 1, M_bind at 1, bind at 1, lift at 1.
  unfold mbind at 1, M_bind at 1, bind at 1, lift at 1.
  destruct (py_len (dict_get d "Lines" (VList []))) as [len|e] eqn:Hlen; [|done].
  intros _. split; [by eauto|]. split; [by eauto|].
  unfold py_len in Hlen. destruct (dict_get d "Lines" (VList [])); try done;
    injection Hlen as <-; eauto.
Qed.
(** The run up to the second [get] on a [ShipTo] that is no object. *)
Lemma flatten_order_ship_to
    (w : world float) (l : nat) (id : string) (d : dict float)
    (v total rounded : pyval float) :
  heap w !! l = Some d →
  d !! "ShipTo" = Some v → (∀ m, v ≠ VDict m) →
  total_amount_of d = Ok total → py_round2 total = Ok rounded →
  (flatten_order clock isoformat fromisoformat l id w).1 = Raise AttributeError.
Proof.
  intros Hd Hship Hnd Htot Hround.
  destruct (order_date_of_run d w) as (date & n & Hrun & _).
  unfold flatten_order.
  unfold mbind at 1, M_bind at 1, bind at 1, load. rewrite Hd.
  unfold mbind at 1, M_bind at 1, bind at 1, lift at 1. rewrite Htot.
  unfold mbind at 1, M_bind at 1, bind at 1. rewrite Hrun.
  run_M. rewrite Hround. simpl. unfold dict_get. rewrite Hship. simpl.
  destruct v; try done. by destruct (Hnd d0).
Qed.

Lemma flatten_order_heap (l : nat) (id : string) (w : world float) :
  heap (flatten_order clock isoformat fromisoformat l id w).2 = heap w.
Proof.
  unfold flatten_order, order_date_of. run_M.
  repeat (case_match; simpl in *; simplify_eq; try done).
Qed.
End Facts.
End FlattenFacts.

(* ===================================================================== *)
(** * Properties of the metadata normalizer                               *)
(* ===================================================================== *)

Module NormalizeFacts.
Import Py IngestHdf5.

Ltac run_M :=
  unfold mbind, M_bind, bind, mret, M_ret, ret, lift, load, store_item in *;
  simpl in *.

Section Facts.
Context {float : Type}.
Implicit Types (d : dict float) (w : world float) (rs : list nat).

Lemma foldl_with_field_lookup d (fields : list string) (k : string) :
  foldl with_field d fields !! k =
    match d !! k with
    | Some v => Some v
    | None => if bool_decide (k ∈ fields) then Some VNone else None
    end.
Proof.
  revert d. induction fields as [|f fields IH]; intros d; cbn [foldl].
  - destruct (d !! k); [done|]. by rewrite bool_decide_eq_false_2 by set_solver.
  - rewrite IH. destruct (decide (k = f)) as [->|Hne].
    + unfold with_field. destruct (d !! f) eqn:E.
      * rewrite bool_decide_eq_true_2 by eauto. by rewrite E.
      * rewrite bool_decide_eq_false_2 by (by intros [? ?]).
        rewrite lookup_insert_eq.
        by rewrite (bool_decide_eq_true_2 (f ∈ f :: fields)) by set_solver.
    + assert (with_field d f !! k = d !! k) as ->.
      { unfold with_field. destruct (bool_decide (is_Some (d !! f))); [done|].
        by rewrite lookup_insert_ne. }
      destruct (d !! k); [done|].
      by rewrite (bool_decide_ext (k ∈ fields) (k ∈ f :: fields)) by set_solver.
Qed.

Lemma filled_lookup d (k : string) :
  filled d !! k =
    match d !! k with
    | Some v => Some v
    | None => if bool_decide (k ∈ schema_fields) then Some VNone else None
    end.
Proof. apply foldl_with_field_lookup. Qed.

Lemma filled_idemp d : filled (filled d) = filled d.
Proof.
  apply map_eq; intros k. rewrite !filled_lookup.
  destruct (d !! k); [done|]. by case_bool_decide.
Qed.

Lemma fill_field_run w (r : nat) d (field : string) :
  heap w !! r = Some d →
  fill_field r field w = (Ok (), mk_world (<[r := with_field d field]> (heap w)) (ticks w)).
Proof.
  intros Hr. unfold fill_field, with_field. run_M. rewrite Hr.
  case_bool_decide; simpl.
  - rewrite insert_id by done. by destruct w.
  - do 2 f_equal. apply map_eq; intros l.
    destruct (decide (l = r)) as [->|Hne].
    + by rewrite lookup_alter_eq, lookup_insert_eq, Hr.
    + by rewrite lookup_alter_ne, lookup_insert_ne.
Qed.

Lemma inner_loop_run (fields : list string) w (r : nat) d :
  heap w !! r = Some d →
  for_each (fill_field r) fields w =
    (Ok (), mk_world (<[r := foldl with_field d fields]> (heap w)) (ticks w)).
Proof.
  revert w d. induction fields as [|f fields IH]; intros w d Hr; simpl.
  - run_M. rewrite insert_id by done. by destruct w.
  - unfold mbind, M_bind, bind. rewrite (fill_field_run _ _ _ _ Hr).
    rewrite (IH _ (with_field d f)) by (simpl; apply lookup_insert_eq).
    simpl. by rewrite insert_insert_eq.
Qed.

Lemma inner_loop_filled w (r : nat) d :
  heap w !! r = Some d →
  for_each (fill_field r) schema_fields w =
    (Ok (), mk_world (<[r := filled d]> (heap w)) (ticks w)).
Proof. apply inner_loop_run. Qed.

(** The heap after the two nested loops: every record of the list is
    filled, the other objects are as they were. *)
Lemma outer_loop_run rs w :
  Forall (λ r, is_Some (heap w !! r)) rs →
  ∃ h', for_each (λ record, for_each (fill_field record) schema_fields) rs w
          = (Ok (), mk_world h' (ticks w))
    ∧ ∀ l, h' !! l = if bool_decide (l ∈ rs) then filled <$> (heap w !! l) else heap w !! l.
Proof.
  revert w. induction rs as [|r rs IH]; intros w Hall.
  - exists (heap w). split; [by destruct w|]. intros l. by rewrite bool_decide_eq_false_2 by set_solver.
  - apply Forall_cons in Hall as [[d Hr] Hall]. cbn [for_each].
    unfold mbind, M_bind, bind. rewrite (inner_loop_filled _ _ _ Hr).
    destruct (IH (mk_world (<[r := filled d]> (heap w)) (ticks w))) as (h' & Hrun & Hh').
    { simpl. eapply Forall_impl; [exact Hall|]. intros r' [d' Hr'].
      destruct (decide (r' = r)) as [->|Hne].
      - rewrite lookup_insert_eq. eauto.
      - rewrite lookup_insert_ne by done. eauto. }
    exists h'. split; [exact Hrun|]. intros l. rewrite Hh'. cbn [heap].
    destruct (decide (l = r)) as [->|Hne].
    + rewrite lookup_insert_eq, Hr.
      rewrite (bool_decide_eq_true_2 (r ∈ r :: rs)) by set_solver.
      destruct (bool_decide (r ∈ rs)); cbn [fmap option_fmap option_map];
        by rewrite ?filled_idemp.
    + rewrite lookup_insert_ne by done.
      by rewrite (bool_decide_ext (l ∈ rs) (l ∈ r :: rs)) by set_solver.
Qed.

Lemma map_M_load rs w :
  Forall (λ r, is_Some (heap w !! r)) rs →
  ∃ rows, map_M load rs w = (Ok rows, w) ∧ Forall2 (λ r row, heap w !! r = Some row) rs rows.
Proof.
  induction rs as [|r rs IH]; intros Hall; simpl.
  - exists []. by split.
  - apply Forall_cons in Hall as [[d Hr] Hall].
    destruct (IH Hall) as (rows & Hrun & Hrows).
    exists (d :: rows). run_M. rewrite Hr. simpl. rewrite Hrun. simpl.
    split; [done|]. by constructor.
Qed.

(** What [metadata_to_dataframe] hands to the constructor of the frame
    and what it leaves in the heap. *)
Lemma metadata_to_dataframe_spec {frame} (DataFrame : list (dict float) → frame) rs w :
  Forall (λ r, is_Some (heap w !! r)) rs →
  ∃ rows h',
    metadata_to_dataframe DataFrame rs w = (Ok (DataFrame rows), mk_world h' (ticks w))
    ∧ (∀ l, h' !! l = if bool_decide (l ∈ rs) then filled <$> (heap w !! l) else heap w !! l)
    ∧ Forall2 (λ r row, ∃ d, heap w !! r = Some d ∧ row = filled d) rs rows.
Proof.
  intros Hall. destruct (outer_loop_run rs w Hall) as (h' & Hrun & Hh').
  destruct (map_M_load rs (mk_world h' (ticks w))) as (rows & Hload & Hrows).
  { simpl. eapply Forall_impl; [exact Hall|]. intros r [d Hr].
    rewrite Hh'. case_bool_decide; rewrite Hr; simpl; eauto. }
  exists rows, h'. unfold metadata_to_dataframe.
  unfold mbind at 1, M_bind at 1, bind at 1. rewrite Hrun.
  unfold mbind at 1, M_bind at 1, bind at 1. rewrite Hload.
  split; [done|]. split; [done|].
  clear Hrun Hload.
  assert (∀ r, r ∈ rs → h' !! r = filled <$> heap w !! r) as Hfilled.
  { intros r Hr. rewrite Hh'. by rewrite bool_decide_eq_true_2. }
  clear Hh'. induction Hrows as [|r row rs1 rows1 Hr _ IH]; [constructor|].
  apply Forall_cons in Hall as [[d Hd] Hall].
  constructor.
  - cbn [heap] in Hr. rewrite Hfilled, Hd in Hr by set_solver.
    cbn [fmap option_fmap option_map] in Hr.
    exists d. split; [exact Hd|]. congruence.
  - apply IH; [exact Hall|]. intros r' Hr'. apply Hfilled. by apply list_elem_of_further.
Qed.
End Facts.
End NormalizeFacts.

(* ===================================================================== *)
(** * The flattener and the normalizer against the specification          *)
(* ===================================================================== *)

Module Normalizer.
Import Py RavendbSync IngestHdf5 FlattenFacts NormalizeFacts.

(** Lookup in a row written as a chain of inserts. *)
Ltac row_lookup :=
  repeat first
    [ rewrite lookup_insert_eq
    | rewrite lookup_insert_ne by discriminate ].

Section Claims.
Context {float : Type} `{Platform float}.
Variable clock : nat → datetime.
Variable isoformat : datetime → string.
Variable fromisoformat : string → option datetime.

(** C8, as amended.  A document whose [OrderDate] is a string the parser
    refuses gets the current time, the reading of the clock taken at the
    failure, as its [OrderDate]: the date block answers whatever the
    rest of the document holds, and when no other step of the flattener
    raises, the row is produced with all its nine columns. *)
Theorem unparseable_date_falls_back
    (w : world float) (l : nat) (id : string) (d : dict float) (s : string) :
  heap w !! l = Some d →
  d !! "OrderDate" = Some (VStr s) →
  fromisoformat (replace_Z s) = None →
  (∃ w', order_date_of clock isoformat fromisoformat d w
           = (Ok (VDatetime (clock (S (ticks w)))), w'))
  ∧ (order_doc_ok d →
     ∃ row w', flatten_order clock isoformat fromisoformat l id w = (Ok row, w')
       ∧ row !! "OrderDate" = Some (VDatetime (clock (S (ticks w))))
       ∧ ∀ c, c ∈ order_columns → is_Some (row !! c)).
Proof.
  intros Hd Hdate Hparse. split.
  - destruct (order_date_of_run clock isoformat fromisoformat d w)
      as (date & n & Hrun & _ & Hbad & _).
    rewrite (Hbad s Hdate Hparse) in Hrun. eauto.
  - intros Hok.
    destruct (flatten_order_spec clock isoformat fromisoformat l id w d Hd Hok)
      as (total & rounded & date & n & m & ship & Hrun & _ & _ & Hdt & _).
    destruct (order_date_of_run clock isoformat fromisoformat d w)
      as (date' & n' & Hrun' & _ & Hbad & _).
    rewrite Hrun' in Hdt. injection Hdt as -> ->.
    rewrite (Hbad s Hdate Hparse) in Hrun.
    eexists _, _. split; [exact Hrun|]. split; [by row_lookup|].
    intros c Hc. unfold order_columns in Hc.
    repeat (apply elem_of_cons in Hc as [->|Hc]; [row_lookup; eauto|]).
    by apply elem_of_nil in Hc.
Qed.

(** C10, as amended.  The [TotalAmount] column of a document that is
    flattened.  When the stored amount is truthy, or the document has no
    [Lines], the column is the stored amount rounded to two decimal
    places: the amount itself when it is an int, [round(x, 2)] when it
    is a float.  When the stored amount is absent, zero or falsy in
    another way and the document has [Lines], the column is the total
    of the specification: price times quantity of every line, each [0]
    when missing, summed and rounded to two decimal places, so that a
    stored [0] with lines gives the recomputed sum. *)
Theorem total_amount_rule
    (w : world float) (l : nat) (id : string) (d : dict float) :
  heap w !! l = Some d →
  order_doc_ok d →
  ∃ row w' v,
    flatten_order clock isoformat fromisoformat l id w = (Ok row, w')
    ∧ row !! "TotalAmount" = Some v
    ∧ (truthy (dict_get d "TotalAmount" (VInt 0)) = true ∨ d !! "Lines" = None →
       rounded_amount (dict_get d "TotalAmount" (VInt 0)) v)
    ∧ (truthy (dict_get d "TotalAmount" (VInt 0)) = false →
       ∀ lines, d !! "Lines" = Some lines →
       ∃ lds amounts,
         py_iter lines = Ok (VDict <$> lds)
         ∧ line_amounts lds amounts
         ∧ v = rounded_total amounts).
Proof.
  intros Hd Hok.
  destruct (flatten_order_spec clock isoformat fromisoformat l id w d Hd Hok)
    as (total & rounded & date & n & m & ship & Hrun & Htot & Hround & _).
  destruct (total_amount_of_cases d total Htot) as (Hstored & Hlines).
  eexists _, _, rounded. split; [exact Hrun|]. split; [by row_lookup|]. split.
  - intros Hcase. rewrite (Hstored Hcase) in Hround. by apply py_round2_amount.
  - intros Hfalsy lines HL.
    destruct (Hlines Hfalsy lines HL) as (lds & amounts & Hiter & Hamounts & ->).
    exists lds, amounts. split; [done|]. split; [done|].
    rewrite round_sum_value in Hround. by injection Hround.
Qed.

Section Frame.
Context {frame cell : Type}.
(** [pd.DataFrame(records)], [df.iloc[i][column]] ([None] when the frame
    has no such row or no such column) and [pd.isna]. *)
Variable DataFrame : list (dict float) → frame.
Variable iloc : frame → nat → string → option cell.
Variable isna : cell → bool.

(** C5, as amended.  [metadata_to_dataframe] gives every record that
    lacks a schema field that field with the value [None] and keeps the
    fields a record has, and builds the frame from these records; as
    pandas turns a [None] of a record into a missing value of the frame,
    the frame has the column and the cell of the record is missing.
    [flatten_order] always produces its nine columns, and a field the
    document lacks takes the default of its [get]: the empty string for
    [CustomerId], [ShipCity] and [ShipCountry], ["Unknown"] for
    [Status], [0] for [LineCount] and for [TotalAmount]. *)
Theorem missing_fields_filled
    (w : world float) (rs : list nat) (l : nat) (id : string) (d : dict float) :
  (∀ records i record column,
     records !! i = Some record → record !! column = Some VNone →
     ∃ c, iloc (DataFrame records) i column = Some c ∧ isna c = true) →
  Forall (λ r, is_Some (heap w !! r)) rs →
  heap w !! l = Some d →
  order_doc_ok d →
  (∃ records w',
     metadata_to_dataframe DataFrame rs w = (Ok (DataFrame records), w')
     ∧ Forall2 (λ r record', ∃ record, heap w !! r = Some record
         ∧ ∀ field, field ∈ schema_fields →
             (record !! field = None → record' !! field = Some VNone)
             ∧ (∀ v, record !! field = Some v → record' !! field = Some v)) rs records
     ∧ (∀ i r record field,
          rs !! i = Some r → heap w !! r = Some record →
          field ∈ schema_fields → record !! field = None →
          ∃ c, iloc (DataFrame records) i field = Some c ∧ isna c = true))
  ∧ (∃ row w', flatten_order clock isoformat fromisoformat l id w = (Ok row, w')
     ∧ (∀ c, c ∈ order_columns → is_Some (row !! c))
     ∧ (d !! "CustomerId" = None → row !! "CustomerId" = Some (VStr ""))
     ∧ (d !! "Status" = None → row !! "Status" = Some (VStr "Unknown"))
     ∧ (d !! "ShipTo" = None →
        row !! "ShipCity" = Some (VStr "") ∧ row !! "ShipCountry" = Some (VStr ""))
     ∧ (d !! "Lines" = None → row !! "LineCount" = Some (VInt 0))
     ∧ (d !! "TotalAmount" = None → d !! "Lines" = None →
        row !! "TotalAmount" = Some (VInt 0))).
Proof.
  intros Hpandas Hall Hd Hok. split.
  - destruct (metadata_to_dataframe_spec DataFrame rs w Hall)
      as (records & h' & Hrun & _ & Hrows).
    exists records, (mk_world h' (ticks w)). split; [exact Hrun|].
    assert (Forall2 (λ r record', ∃ record, heap w !! r = Some record
              ∧ ∀ field, field ∈ schema_fields →
                  (record !! field = None → record' !! field = Some VNone)
                  ∧ (∀ v, record !! field = Some v → record' !! field = Some v))
              rs records) as Hfilled.
    { eapply Forall2_impl; [exact Hrows|]. intros r row (rec & Hrec & ->).
      exists rec. split; [exact Hrec|]. intros field Hfield.
      rewrite filled_lookup. split.
      - intros ->. by rewrite bool_decide_eq_true_2.
      - by intros v ->. }
    split; [exact Hfilled|].
    intros i r record field Hi Hr Hfield Hnone.
    destruct (Forall2_lookup_l _ _ _ _ _ Hfilled Hi) as (record' & Hi' & rec & Hrec & Hfields).
    assert (rec = record) as -> by congruence.
    apply (Hpandas records i record' field Hi').
    exact (proj1 (Hfields field Hfield) Hnone).
  - destruct (flatten_order_spec clock isoformat fromisoformat l id w d Hd Hok)
      as (total & rounded & date & n & m & ship & Hrun & Htot & Hround & _ & Hship & Hlen).
    eexists _, _. split; [exact Hrun|].
    split; [|split; [|split; [|split; [|split]]]].
    + intros c Hc. unfold order_columns in Hc.
      repeat (apply elem_of_cons in Hc as [->|Hc]; [row_lookup; eauto|]).
      by apply elem_of_nil in Hc.
    + intros Hnone. row_lookup. unfold dict_get. by rewrite Hnone.
    + intros Hnone. row_lookup. unfold dict_get. by rewrite Hnone.
    + intros Hnone. unfold dict_get in Hship. rewrite Hnone in Hship.
      injection Hship as <-. split; by row_lookup.
    + intros Hnone. row_lookup. unfold dict_get in Hlen. rewrite Hnone in Hlen.
      by injection Hlen as <-.
    + intros Hnone HL. row_lookup.
      destruct (total_amount_of_cases d total Htot) as (Hstored & _).
      unfold dict_get in Hstored. rewrite Hnone in Hstored.
      rewrite (Hstored (or_intror HL)) in Hround. by injection Hround as <-.
Qed.

(** C9, as amended.  [flatten_order] leaves every object of the heap as
    it was.  [metadata_to_dataframe] changes the record dicts of its list
    in place, and only by adding, with the value [None], the schema
    fields a record lacks: the fields a record has keep their values, and
    the objects outside the list are as they were. *)
Theorem normalizer_effect_on_source
    (w : world float) (rs : list nat) (l : nat) (id : string) :
  Forall (λ r, is_Some (heap w !! r)) rs →
  heap (flatten_order clock isoformat fromisoformat l id w).2 = heap w
  ∧ ∃ rows w', metadata_to_dataframe DataFrame rs w = (Ok rows, w')
      ∧ ∀ r,
          (r ∉ rs → heap w' !! r = heap w !! r)
          ∧ (∀ rec, r ∈ rs → heap w !! r = Some rec →
             ∃ rec', heap w' !! r = Some rec'
               ∧ (∀ k v, rec !! k = Some v → rec' !! k = Some v)
               ∧ (∀ k, rec !! k = None →
                    rec' !! k = if bool_decide (k ∈ schema_fields)
                                then Some VNone else None)).
Proof.
  intros Hall. split; [apply flatten_order_heap|].
  destruct (metadata_to_dataframe_spec DataFrame rs w Hall) as (rows & h' & Hrun & Hh' & _).
  eexists _, _. split; [exact Hrun|]. intros r. cbn [heap]. rewrite Hh'. split.
  - intros Hr. by rewrite bool_decide_eq_false_2.
  - intros rec Hr Hrec. rewrite bool_decide_eq_true_2 by done. rewrite Hrec.
    exists (filled rec). split; [done|]. split.
    + intros k v Hk. by rewrite filled_lookup, Hk.
    + intros k Hk. by rewrite filled_lookup, Hk.
Qed.
End Frame.
End Claims.

(** ** Worked examples *)

(** Checking [int_order_doc] on a document that is written out. *)
Ltac solve_int_doc :=
  apply int_order_doc_ok; repeat split;
  [ intros v Hv; vm_compute in Hv; first [discriminate Hv | injection Hv as <-; eexists; reflexivity]
  | intros v Hv; vm_compute in Hv;
    first [ discriminate Hv
          | injection Hv as <-; eexists; split; [reflexivity|];
            repeat lazymatch goal with
              | |- Forall _ (_ :: _) =>
                  constructor; [eexists _, _, _; split; [reflexivity|]; split; reflexivity|]
              | |- Forall _ [] => constructor
              end ]
  | first [ left; eexists; reflexivity | right; split; [reflexivity|eexists; reflexivity] ] ].

Lemma order_doc_ok_sample : order_doc_ok Examples.order_doc.
Proof. solve_int_doc. Qed.

Lemma priced_doc_ok : order_doc_ok Examples.priced_doc.
Proof.
  split; [|split].
  - exists (VFloat (27 # 8)), (VFloat (169 # 50)). split; vm_compute; reflexivity.
  - exists ∅. reflexivity.
  - exists 2%nat. reflexivity.
Qed.

Lemma stored_amount_doc_ok : order_doc_ok Examples.stored_amount_doc.
Proof.
  split; [|split].
  - exists (VFloat (19999 # 1000)), (VFloat (20 # 1)). split; vm_compute; reflexivity.
  - exists ∅. reflexivity.
  - exists 0%nat. reflexivity.
Qed.

Lemma sample_allocated :
  Forall (λ r, is_Some (heap Examples.sample_world !! r)) [1%nat].
Proof. repeat constructor. eexists. reflexivity. Qed.

(** The stand-in frame has a missing cell where the record has
    [None]. *)
Lemma stand_in_isna (records : list (dict Q)) (i : nat) (record : dict Q) (column : string) :
  records !! i = Some record → record !! column = Some VNone →
  ∃ c, Examples.frame_cell (Examples.frame_of_records records) i column = Some c
       ∧ Examples.cell_missing c = true.
Proof.
  intros Hi Hnone. exists VNone. split; [|done].
  unfold Examples.frame_cell, Examples.frame_of_records. rewrite Hi. exact Hnone.
Qed.

Lemma unparseable_date_witness :
  ∃ row w',
    flatten_order Examples.clock Examples.isoformat Examples.fromisoformat
      0 "orders/1" Examples.sample_world = (Ok row, w')
    ∧ row !! "OrderDate" = Some (VDatetime (Examples.clock 1)).
Proof.
  destruct (unparseable_date_falls_back
              Examples.clock Examples.isoformat Examples.fromisoformat
              Examples.sample_world 0 "orders/1" Examples.order_doc "yesterday"
              eq_refl eq_refl eq_refl) as [_ Hrow].
  destruct (Hrow order_doc_ok_sample) as (row & w' & Hrun & Hdate & _).
  exists row, w'. split; [exact Hrun|exact Hdate].
Defined.

(** C8, as the specification states it, fails: the date of the order is
    a string that is no timestamp, its [ShipTo] is a JSON null, and the
    flattener raises [AttributeError]; there is no row. *)
Lemma unparseable_date_row_aborted :
  heap Examples.collection_world !! 7%nat = Some Examples.undated_null_ship_doc
  ∧ Examples.undated_null_ship_doc !! "OrderDate" = Some (VStr "yesterday")
  ∧ Examples.fromisoformat (replace_Z "yesterday") = None
  ∧ (flatten_order Examples.clock Examples.isoformat Examples.fromisoformat
       7 "orders/8" Examples.collection_world).1 = Raise AttributeError.
Proof.
  split; [reflexivity|]. split; [reflexivity|]. split; [reflexivity|].
  apply (flatten_order_ship_to Examples.clock Examples.isoformat Examples.fromisoformat
           Examples.collection_world 7 "orders/8" Examples.undated_null_ship_doc
           VNone (VInt 0) (VInt 0));
    [reflexivity|reflexivity|discriminate|reflexivity|reflexivity].
Qed.

Lemma total_amount_witness :
  ∃ row w',
    flatten_order Examples.clock Examples.isoformat Examples.fromisoformat
      5 "orders/6" Examples.collection_world = (Ok row, w')
    ∧ row !! "TotalAmount" = Some (VFloat (169 # 50)).
Proof.
  destruct (total_amount_rule
              Examples.clock Examples.isoformat Examples.fromisoformat
              Examples.collection_world 5 "orders/6" Examples.priced_doc
              eq_refl priced_doc_ok)
    as (row & w' & v & Hrun & Hv & _ & Hsum).
  exists row, w'. split; [exact Hrun|]. rewrite Hv. f_equal.
  destruct (Hsum eq_refl _ eq_refl) as (lds & amounts & Hiter & Hamounts & ->).
  cbn [py_iter] in Hiter. injection Hiter as Hlds.
  destruct lds as [|ld1 [|ld2 [|ld3 lds]]]; try discriminate Hlds.
  injection Hlds as <- <-.
  apply Forall2_cons_inv_l in Hamounts as (a1 & rest1 & H1 & Hamounts & ->).
  apply Forall2_cons_inv_l in Hamounts as (a2 & rest2 & H2 & Hamounts & ->).
  apply Forall2_nil_inv_l in Hamounts as ->.
  vm_compute in H1. vm_compute in H2. injection H1 as <-. injection H2 as <-.
  vm_compute. reflexivity.
Defined.

(** C10, as the specification states it, fails: the stored amount
    [19.999] is truthy, and the column holds [20.0], not the stored
    amount. *)
Lemma stored_amount_is_rounded :
  ∃ row w',
    flatten_order Examples.clock Examples.isoformat Examples.fromisoformat
      6 "orders/7" Examples.collection_world = (Ok row, w')
    ∧ heap Examples.collection_world !! 6%nat = Some Examples.stored_amount_doc
    ∧ Examples.stored_amount_doc !! "TotalAmount" = Some (VFloat (19999 # 1000))
    ∧ truthy (VFloat (19999 # 1000)) = true
    ∧ row !! "TotalAmount" = Some (VFloat (20 # 1))
    ∧ row !! "TotalAmount" ≠ Examples.stored_amount_doc !! "TotalAmount".
Proof.
  destruct (flatten_order_spec
              Examples.clock Examples.isoformat Examples.fromisoformat
              6 "orders/7" Examples.collection_world Examples.stored_amount_doc
              eq_refl stored_amount_doc_ok)
    as (total & rounded & date & n & m & ship & Hrun & Htot & Hround & _).
  vm_compute in Htot. injection Htot as <-.
  vm_compute in Hround. injection Hround as <-.
  eexists _, _. split; [exact Hrun|].
  split; [reflexivity|]. split; [reflexivity|]. split; [reflexivity|].
  row_lookup. split; [reflexivity|].
  change (Examples.stored_amount_doc !! "TotalAmount")
    with (Some (VFloat (19999 # 1000) : pyval Q)).
  discriminate.
Qed.

Lemma missing_fields_witness :
  (∃ records w',
     metadata_to_dataframe Examples.frame_of_records [1%nat] Examples.sample_world
       = (Ok (Examples.frame_of_records records), w')
     ∧ (∃ record, records = [record] ∧ record !! "title" = Some VNone
          ∧ record !! "file_path" = Some (VStr "/data/run1.h5"))
     ∧ ∃ c, Examples.frame_cell (Examples.frame_of_records records) 0 "title" = Some c
            ∧ Examples.cell_missing c = true)
  ∧ (∃ row w',
       flatten_order Examples.clock Examples.isoformat Examples.fromisoformat
         0 "orders/1" Examples.sample_world = (Ok row, w')
       ∧ row !! "Status" = Some (VStr "Unknown")).
Proof.
  destruct (missing_fields_filled
              Examples.clock Examples.isoformat Examples.fromisoformat
              Examples.frame_of_records Examples.frame_cell Examples.cell_missing
              Examples.sample_world [1%nat] 0 "orders/1" Examples.order_doc
              stand_in_isna sample_allocated eq_refl order_doc_ok_sample)
    as [(records & w1 & Hrun1 & Hrows & Hcells) (row & w2 & Hrun2 & _ & _ & Hstatus & _)].
  assert ("title" ∈ schema_fields) as Htitle
    by (apply (bool_decide_unpack _); vm_compute; exact I).
  assert ("file_path" ∈ schema_fields) as Hpath
    by (apply (bool_decide_unpack _); vm_compute; exact I).
  split.
  - exists records, w1. split; [exact Hrun1|]. split.
    + apply Forall2_cons_inv_l in Hrows
        as (record1 & records' & (rec & Hrec & Hfields) & Hnil & ->).
      apply Forall2_nil_inv_l in Hnil as ->.
      exists record1. split; [reflexivity|].
      assert (rec = Examples.meta_record) as ->.
      { change (heap Examples.sample_world !! 1%nat)
          with (Some Examples.meta_record) in Hrec. by injection Hrec. }
      split.
      * destruct (Hfields "title" Htitle) as [Hnone _]. apply Hnone. reflexivity.
      * destruct (Hfields "file_path" Hpath) as [_ Hsome]. apply Hsome. reflexivity.
    + apply (Hcells 0%nat 1%nat Examples.meta_record "title" eq_refl eq_refl Htitle).
      reflexivity.
  - exists row, w2. split; [exact Hrun2|]. apply Hstatus. reflexivity.
Defined.

Lemma normalizer_effect_witness :
  heap (flatten_order Examples.clock Examples.isoformat Examples.fromisoformat
          0 "orders/1" Examples.sample_world).2 = heap Examples.sample_world
  ∧ ∃ rows w',
      metadata_to_dataframe Examples.frame_of_records [1%nat] Examples.sample_world
        = (Ok rows, w')
      ∧ heap w' !! 0%nat = heap Examples.sample_world !! 0%nat.
Proof.
  destruct (normalizer_effect_on_source
              Examples.clock Examples.isoformat Examples.fromisoformat
              Examples.frame_of_records
              Examples.sample_world [1%nat] 0 "orders/1" sample_allocated)
    as (Hflat & rows & w' & Hrun & Hheap).
  split; [exact Hflat|]. exists rows, w'. split; [exact Hrun|].
  apply (Hheap 0%nat). by intros ?%list_elem_of_singleton.
Defined.

(** C5, as the specification states it, fails: the order lacks [Status]
    and the row has ["Unknown"] there, which is not [None]. *)
Lemma flatten_order_sentinel_not_null :
  ∃ row w',
    flatten_order Examples.clock Examples.isoformat Examples.fromisoformat
      0 "orders/1" Examples.sample_world = (Ok row, w')
    ∧ heap Examples.sample_world !! 0%nat = Some Examples.order_doc
    ∧ Examples.order_doc !! "Status" = None
    ∧ row !! "Status" = Some (VStr "Unknown")
    ∧ row !! "Status" ≠ Some VNone.
Proof.
  destruct (flatten_order_spec
              Examples.clock Examples.isoformat Examples.fromisoformat
              0 "orders/1" Examples.sample_world Examples.order_doc
              eq_refl order_doc_ok_sample)
    as (total & rounded & date & n & m & ship & Hrun & _).
  eexists _, _. split; [exact Hrun|].
  split; [reflexivity|]. split; [reflexivity|].
  row_lookup. split; [reflexivity|discriminate].
Qed.

(** C9, as the specification states it, fails: the record dict passed to
    [metadata_to_dataframe] is not the same after the call, it has gained
    a [title]. *)
Lemma metadata_to_dataframe_mutates_source :
  ∃ rows w',
    metadata_to_dataframe Examples.frame_of_records [1%nat] Examples.sample_world = (Ok rows, w')
    ∧ (heap Examples.sample_world !! 1%nat) ≫= (.!! "title") = None
    ∧ (heap w' !! 1%nat) ≫= (.!! "title") = Some VNone
    ∧ heap w' !! 1%nat ≠ heap Examples.sample_world !! 1%nat.
Proof.
  destruct (metadata_to_dataframe_spec Examples.frame_of_records [1%nat] Examples.sample_world
              sample_allocated)
    as (rows & h' & Hrun & Hh' & _).
  assert ((h' !! 1%nat) ≫= (.!! "title") = Some VNone) as Htitle.
  { rewrite Hh'. rewrite bool_decide_eq_true_2 by apply list_elem_of_here.
    change (heap Examples.sample_world !! 1%nat) with (Some Examples.meta_record).
    cbn [fmap option_fmap option_map mbind option_bind].
    rewrite filled_lookup.
    change (Examples.meta_record !! "title") with (@None (pyval Q)).
    rewrite bool_decide_eq_true_2; [done|].
    apply (bool_decide_unpack _). vm_compute. exact I. }
  eexists _, _. split; [exact Hrun|]. cbn [heap].
  split; [reflexivity|]. split; [exact Htitle|].
  intros Heq. rewrite Heq in Htitle. discriminate Htitle.
Qed.
End Normalizer.

(* ===================================================================== *)
(** * The partitioner and the landing writer against the specification    *)
(* ===================================================================== *)

Module Landing.
Import Py RavendbSync.

Lemma digit_mod (a b : Z) : digit a = digit b → a mod 10 = b mod 10.
Proof.
  unfold digit. intros Heq. apply (f_equal nat_of_ascii) in Heq.
  pose proof (Z.mod_pos_bound a 10 eq_refl).
  pose proof (Z.mod_pos_bound b 10 eq_refl).
  rewrite !nat_ascii_embedding in Heq by lia. lia.
Qed.

Lemma pad2_inj (a b : Z) :
  0 ≤ a < 100 → 0 ≤ b < 100 → pad2 a = pad2 b → a = b.
Proof.
  unfold pad2. intros Ha Hb [= H1%digit_mod H0%digit_mod].
  rewrite (Z.div_mod a 10), (Z.div_mod b 10) by lia.
  rewrite (Z.mod_small (a / 10)), (Z.mod_small (b / 10)) in H1
    by (split; [apply Z.div_pos|apply Z.div_lt_upper_bound]; lia).
  lia.
Qed.

Lemma pad4_inj (a b : Z) :
  0 ≤ a < 10000 → 0 ≤ b < 10000 → pad4 a = pad4 b → a = b.
Proof.
  unfold pad4, pad2.
  intros Ha Hb [= H3%digit_mod H2%digit_mod H1%digit_mod H0%digit_mod].
  Z.to_euclidean_division_equations. lia.
Qed.

(** Two valid dates are printed alike only when they are the same day. *)
Lemma strftime_Ymd_inj (d1 d2 : datetime) :
  valid_date d1 → valid_date d2 →
  strftime_Ymd d1 = strftime_Ymd d2 →
  (year d1, month d1, day d1) = (year d2, month d2, day d2).
Proof.
  intros (Hy1 & Hm1 & Hd1) (Hy2 & Hm2 & Hd2). unfold strftime_Ymd.
  unfold pad4, pad2. cbn [String.append].
  intros [= E1 E2 E3 E4 E5 E6 E7 E8].
  assert (pad4 (year d1) = pad4 (year d2)) as Hyear
    by (unfold pad4, pad2; congruence).
  assert (pad2 (month d1) = pad2 (month d2)) as Hmonth
    by (unfold pad2; congruence).
  assert (pad2 (day d1) = pad2 (day d2)) as Hday
    by (unfold pad2; congruence).
  apply pad4_inj in Hyear; [|lia..].
  apply pad2_inj in Hmonth; [|lia..]. apply pad2_inj in Hday; [|lia..].
  congruence.
Qed.

Section Facts.
Context {float : Type}.
Implicit Types (o : dict float) (g : gmap string (list (dict float))).

Lemma valid_timestamp_key o :
  valid_timestamp o →
  ∃ d, o !! "OrderDate" = Some (VDatetime d) ∧ valid_date d
       ∧ date_key o = Ok (strftime_Ymd d)
       ∧ partition_key o = Some (strftime_Ymd d)
       ∧ calendar_day o = Some (year d, month d, day d).
Proof.
  intros (d & Hd & Hv). exists d.
  unfold partition_key, date_key, calendar_day. by rewrite Hd.
Qed.

(** Rows with valid timestamps have the same key exactly when they are of
    the same calendar day. *)
Lemma same_key_same_day o1 o2 :
  valid_timestamp o1 → valid_timestamp o2 →
  partition_key o1 = partition_key o2 ↔ calendar_day o1 = calendar_day o2.
Proof.
  intros (d1 & _ & Hv1 & _ & Hk1 & Hc1)%valid_timestamp_key
         (d2 & _ & Hv2 & _ & Hk2 & Hc2)%valid_timestamp_key.
  rewrite Hk1, Hk2, Hc1, Hc2. split.
  - intros Heq%(inj Some). f_equal. by apply strftime_Ymd_inj.
  - intros [= Hy Hm Hd]. unfold strftime_Ymd. by rewrite Hy, Hm, Hd.
Qed.

(** One turn of the loop: the list under the key of the row grows by the
    row, at its end. *)
Lemma group_step_run g o (k : string) :
  date_key o = Ok k →
  group_step g o = Ok (<[k := default [] (g !! k) ++ [o]]> g).
Proof.
  intros Hk. unfold group_step. rewrite Hk. cbn.
  destruct (g !! k) as [rows|] eqn:Hg.
  - by rewrite Hg.
  - by rewrite lookup_insert_eq, insert_insert_eq.
Qed.

Lemma grouped_as_step g seen o (k : string) :
  partition_key o = Some k →
  grouped_as g seen →
  grouped_as (<[k := default [] (g !! k) ++ [o]]> g) (seen ++ [o]).
Proof.
  intros Hk Hg k'. unfold rows_of_key. rewrite filter_app.
  destruct (decide (k' = k)) as [->|Hne].
  - rewrite lookup_insert_eq.
    rewrite (filter_cons_True _ o) by done. rewrite filter_nil.
    specialize (Hg k). unfold rows_of_key in Hg. rewrite Hg.
    destruct (filter _ seen); done.
  - rewrite lookup_insert_ne by done.
    rewrite (filter_cons_False _ o) by (rewrite Hk; congruence).
    rewrite filter_nil, app_nil_r. apply Hg.
Qed.

Lemma concat_insert_app g o (k : string) :
  concat (map_to_list (<[k := default [] (g !! k) ++ [o]]> g)).*2
    ≡ₚ concat (map_to_list g).*2 ++ [o].
Proof.
  destruct (g !! k) as [rows|] eqn:Hg; cbn [default].
  - rewrite <- (insert_delete_eq g k).
    rewrite map_to_list_insert by apply lookup_delete_eq.
    rewrite <- (map_to_list_delete g k rows Hg).
    cbn. rewrite <- !app_assoc. apply Permutation_app_head, Permutation_app_comm.
  - rewrite map_to_list_insert by done. cbn. apply Permutation_cons_append.
Qed.

Lemma group_loop_run (orders : list (dict float)) g seen :
  Forall valid_timestamp orders →
  grouped_as g seen →
  concat (map_to_list g).*2 ≡ₚ seen →
  ∃ g', group_loop g orders = Ok g'
        ∧ grouped_as g' (seen ++ orders)
        ∧ concat (map_to_list g').*2 ≡ₚ seen ++ orders.
Proof.
  revert g seen. induction orders as [|o orders IH]; intros g seen Hall Hg Hperm.
  - exists g. by rewrite app_nil_r.
  - apply Forall_cons in Hall as [Ho Hall].
    destruct (valid_timestamp_key o Ho) as (d & _ & _ & Hdk & Hpk & _).
    cbn [group_loop]. rewrite (group_step_run g o _ Hdk). cbn.
    destruct (IH (<[strftime_Ymd d := default [] (g !! strftime_Ymd d) ++ [o]]> g)
                 (seen ++ [o]) Hall) as (g' & Hrun & Hg' & Hperm').
    + by apply grouped_as_step.
    + rewrite concat_insert_app. by rewrite Hperm.
    + exists g'. rewrite <- app_assoc in Hg', Hperm'. done.
Qed.

(** C6.  For rows with a valid timestamp the partitioner answers a map in
    which two rows are under the same key exactly when they are of the
    same calendar day, whose lists together are the input with no row
    duplicated and none dropped, every row being under a key, and in
    which the list of a key is the rows of that key in the order of the
    input. *)
Theorem group_by_date_partitions (orders : list (dict float)) :
  Forall valid_timestamp orders →
  ∃ grouped, group_by_date orders = Ok grouped
    ∧ (∀ o1 o2 k1 k2 rows1 rows2,
         grouped !! k1 = Some rows1 → grouped !! k2 = Some rows2 →
         o1 ∈ rows1 → o2 ∈ rows2 →
         (k1 = k2 ↔ calendar_day o1 = calendar_day o2))
    ∧ concat (map_to_list grouped).*2 ≡ₚ orders
    ∧ (∀ o, o ∈ orders → ∃ k rows, grouped !! k = Some rows ∧ o ∈ rows)
    ∧ (∀ k rows, grouped !! k = Some rows →
         rows = rows_of_key k orders ∧ rows ≠ []).
Proof.
  intros Hall.
  destruct (group_loop_run orders ∅ [] Hall) as (grouped & Hrun & Hg & Hperm).
  { intros k. by rewrite lookup_empty. }
  { by rewrite map_to_list_empty. }
  rewrite app_nil_l in Hg, Hperm.
  assert (∀ k rows, grouped !! k = Some rows →
            rows = rows_of_key k orders ∧ rows ≠ []) as Hrows.
  { intros k rows Hk. rewrite Hg in Hk.
    destruct (rows_of_key k orders) as [|o rest]; [done|].
    injection Hk as <-. done. }
  assert (∀ o k rows, grouped !! k = Some rows → o ∈ rows →
            partition_key o = Some k ∧ valid_timestamp o) as Hmember.
  { intros o k rows Hk Ho. destruct (Hrows k rows Hk) as [-> _].
    unfold rows_of_key in Ho. apply list_elem_of_filter in Ho as [Hkey Ho].
    split; [done|]. by eapply Forall_forall in Hall. }
  exists grouped. split; [exact Hrun|]. split; [|split; [exact Hperm|split; [|exact Hrows]]].
  - intros o1 o2 k1 k2 rows1 rows2 Hk1 Hk2 Ho1 Ho2.
    destruct (Hmember o1 k1 rows1 Hk1 Ho1) as [Hp1 Hv1].
    destruct (Hmember o2 k2 rows2 Hk2 Ho2) as [Hp2 Hv2].
    rewrite <- (same_key_same_day o1 o2 Hv1 Hv2), Hp1, Hp2.
    split; [by intros ->|by intros [= ->]].
  - intros o Ho.
    assert (valid_timestamp o) as Hv by (by eapply Forall_forall in Hall).
    destruct (valid_timestamp_key o Hv) as (d & _ & _ & _ & Hpk & _).
    assert (o ∈ rows_of_key (strftime_Ymd d) orders) as Hin
      by (by apply list_elem_of_filter).
    exists (strftime_Ymd d), (rows_of_key (strftime_Ymd d) orders).
    split; [|exact Hin]. rewrite Hg.
    destruct (rows_of_key (strftime_Ymd d) orders); [by apply elem_of_nil in Hin|done].
Qed.

(** The encoder of the landing writer. *)
Variable to_parquet : list (dict float) → result (list Byte.byte).

(** C7.  When the rows of a partition are encoded, the landing writer
    puts the file under [<zone>/<dataset>/<partition>/data.parquet] in
    the bucket, as the whole content of that object, and leaves the other
    objects alone; writing the same rows again gives the same key and the
    same store as the first write. *)
Theorem landing_write_idempotent
    (s3 : gmap (string * string) s3_object) (orders : list (dict float))
    (partition : string) (bytes : list Byte.byte) :
  to_parquet orders = Ok bytes →
  ∃ key s3',
    write_parquet_to_minio to_parquet s3 orders partition = (Ok key, s3')
    ∧ key = landing_path "silver/ravendb_landing" "orders" partition
    ∧ s3' !! ("lakehouse", key) = Some (mk_object bytes "application/octet-stream")
    ∧ (∀ k, k ≠ ("lakehouse", key) → s3' !! k = s3 !! k)
    ∧ write_parquet_to_minio to_parquet s3' orders partition = (Ok key, s3').
Proof.
  intros Henc. unfold write_parquet_to_minio. rewrite Henc.
  eexists _, _. split; [reflexivity|]. split; [reflexivity|].
  unfold put_object, BUCKET_NAME. split; [apply lookup_insert_eq|]. split.
  - intros k Hk. by rewrite lookup_insert_ne.
  - by rewrite insert_insert_eq.
Qed.
End Facts.

(** ** Worked examples *)

Lemma three_orders_valid : Forall valid_timestamp Examples.three_orders.
Proof.
  repeat constructor; (eexists; split; [reflexivity|]);
    unfold valid_date; cbn; lia.
Qed.

Lemma group_by_date_witness :
  ∃ grouped, group_by_date Examples.three_orders = Ok grouped
    ∧ concat (map_to_list grouped).*2 ≡ₚ Examples.three_orders.
Proof.
  destruct (group_by_date_partitions Examples.three_orders three_orders_valid)
    as (grouped & Hrun & _ & Hperm & _).
  exists grouped. split; [exact Hrun|exact Hperm].
Defined.

(** Three rows dated 2024-01-01, 2024-01-01 and 2024-01-02 make two
    partitions, of two rows and of one. *)
Example group_by_date_three_orders :
  group_by_date Examples.three_orders =
    Ok (<["2024-01-01" := [Examples.order_at "orders/1" 2024 1 1;
                           Examples.order_at "orders/2" 2024 1 1]]>
       (<["2024-01-02" := [Examples.order_at "orders/3" 2024 1 2]]> ∅)).
Proof. vm_compute. reflexivity. Qed.

Lemma landing_write_witness :
  ∃ key s3',
    write_parquet_to_minio Examples.to_parquet ∅ Examples.three_orders "2024-01-01"
      = (Ok key, s3')
    ∧ key = "silver/ravendb_landing/orders/2024-01-01/data.parquet"
    ∧ write_parquet_to_minio Examples.to_parquet s3' Examples.three_orders "2024-01-01"
      = (Ok key, s3').
Proof.
  destruct (landing_write_idempotent Examples.to_parquet ∅ Examples.three_orders
              "2024-01-01" _ eq_refl)
    as (key & s3' & Hrun & Hkey & _ & _ & Hagain).
  exists key, s3'. split; [exact Hrun|]. split; [exact Hkey|exact Hagain].
Defined.
End Landing.

(* ===================================================================== *)
(** * Properties of the MERGE statement                                   *)
(* ===================================================================== *)

Module MergeFacts.
Import Py Sql.

Section Facts.
Context {R K : Type} `{EqDecision K}.
Variable key : R → option K.
Variable update : R → R → R.
Variable insert : R → R.

(** The two clauses copy the source row: [UPDATE] sets every column but
    the key, which the [ON] condition makes equal, and [INSERT] takes
    every column. *)
Hypothesis update_full_row : ∀ t s, matched key t s → update t s = s.
Hypothesis insert_full_row : ∀ s, insert s = s.

Implicit Types (t s : R) (target source : list R).

Abbreviation matched := (Sql.matched key).
Abbreviation matches_of := (Sql.matches_of key).
Abbreviation is_matched := (Sql.is_matched key).
Abbreviation updated := (Sql.updated key update).
Abbreviation merge_into := (Sql.merge_into key update insert).
Abbreviation table_after := (Sql.table_after key update insert).

Lemma matched_keys t s : matched t s ↔ ∃ k, key t = Some k ∧ key s = Some k.
Proof.
  unfold Sql.matched, sql_eq. destruct (key t) as [x|], (key s) as [y|]; simpl.
  - rewrite bool_decide_spec. split; [intros ->; eauto|].
    intros (k & [= ->] & [= ->]). done.
  - split; [done|]. by intros (k & _ & ?).
  - split; [done|]. by intros (k & ? & _).
  - split; [done|]. by intros (k & ? & _).
Qed.

Lemma matched_key_eq t s : matched t s → key t = key s.
Proof. intros (k & -> & ->)%matched_keys. done. Qed.

Lemma matched_self s : key s ≠ None → matched s s.
Proof. intros Hk. apply matched_keys. destruct (key s); [eauto|done]. Qed.

(** Rows with the same key are matched by the same source rows. *)
Lemma matches_of_key_eq source t t' :
  key t = key t' → matches_of source t = matches_of source t'.
Proof.
  intros Heq. unfold Sql.matches_of. apply list_filter_iff.
  intros s. unfold Sql.matched. by rewrite Heq.
Qed.

Lemma single_match source t s :
  (length (matches_of source t) ≤ 1)%nat → s ∈ source → matched t s →
  matches_of source t = [s].
Proof.
  intros Hlen Hs Hm.
  assert (s ∈ matches_of source t) as Hin by (by apply list_elem_of_filter).
  destruct (matches_of source t) as [|a [|b l]]; simpl in Hlen.
  - by apply elem_of_nil in Hin.
  - by apply list_elem_of_singleton in Hin as ->.
  - lia.
Qed.

Lemma filter_none (P : R → Prop) `{∀ x, Decision (P x)} (l : list R) :
  (∀ x, x ∈ l → ¬ P x) → filter P l = [].
Proof.
  intros Hno. induction l as [|x l IH]; [done|].
  rewrite filter_cons_False by (apply Hno, list_elem_of_here).
  apply IH. intros y Hy. by apply Hno, list_elem_of_further.
Qed.

Lemma no_match source t :
  (∀ s, s ∈ source → ¬ matched t s) → matches_of source t = [].
Proof. apply filter_none. Qed.

(** An update keeps the key of the target row. *)
Lemma updated_key source t : key (updated source t) = key t.
Proof.
  unfold Sql.updated. destruct (matches_of source t) as [|s l] eqn:Hm; [done|].
  assert (s ∈ matches_of source t) as Hin by (rewrite Hm; apply list_elem_of_here).
  apply list_elem_of_filter in Hin as [Hms _].
  rewrite update_full_row by done. symmetry. by apply matched_key_eq.
Qed.

(** A target row is kept when no source row matches it and is the
    matching source row otherwise. *)
Lemma updated_cases source t :
  (matches_of source t = [] ∧ updated source t = t)
  ∨ (∃ s, s ∈ source ∧ matched t s ∧ updated source t = s).
Proof.
  unfold Sql.updated. destruct (matches_of source t) as [|s l] eqn:Hm; [by left|].
  assert (s ∈ matches_of source t) as Hin by (rewrite Hm; apply list_elem_of_here).
  apply list_elem_of_filter in Hin as [Hms Hs].
  right. exists s. split; [done|]. split; [done|]. by apply update_full_row.
Qed.

(** A statement that went through, taken apart. *)
Lemma merge_into_ok target source target' :
  merge_into target source = Ok target' →
  (∀ t, t ∈ target → (length (matches_of source t) ≤ 1)%nat)
  ∧ target' = (updated source <$> target)
              ++ filter (λ s, ¬ is_matched target s) source.
Proof.
  unfold Sql.merge_into. case_decide as Hcard; [done|].
  intros [= <-]. split.
  - intros t Ht. destruct (decide (length (matches_of source t) ≤ 1)%nat); [done|].
    exfalso. apply Hcard, Exists_exists. exists t. split; [done|lia].
  - f_equal. rewrite <- (list_fmap_id (filter _ source)) at 2.
    apply list_fmap_ext. intros _ s _. apply insert_full_row.
Qed.

Lemma merge_into_raise target source e :
  merge_into target source = Raise e → table_after target source = target.
Proof. unfold Sql.table_after. by intros ->. Qed.

(** With pairwise distinct keys in the batch no target row is matched
    twice. *)
Lemma distinct_keys_single_match source t :
  NoDup (key <$> source) → (length (matches_of source t) ≤ 1)%nat.
Proof.
  unfold Sql.matches_of. induction source as [|s source IH]; [simpl; lia|].
  rewrite fmap_cons. intros [Hs Hnd]%NoDup_cons.
  destruct (decide (matched t s)) as [Hm|Hm].
  - rewrite filter_cons_True by done.
    assert (matches_of source t = []) as Hnone.
    { apply no_match. intros s' Hs' Hm'. apply Hs.
      rewrite <- (matched_key_eq _ _ Hm), (matched_key_eq _ _ Hm').
      by apply list_elem_of_fmap_2. }
    unfold Sql.matches_of in Hnone. rewrite Hnone. simpl. lia.
  - rewrite filter_cons_False by done. by apply IH.
Qed.

Lemma merge_into_distinct_keys target source :
  NoDup (key <$> source) → ∃ target', merge_into target source = Ok target'.
Proof.
  intros Hnd. unfold Sql.merge_into. case_decide as Hcard; [|eauto].
  apply Exists_exists in Hcard as (t & _ & Hlen).
  pose proof (distinct_keys_single_match source t Hnd). lia.
Qed.

(** The keys after a merge of a batch with distinct, non-null keys into a
    table with distinct keys. *)
Lemma merge_into_keys_distinct target source target' :
  merge_into target source = Ok target' →
  NoDup (key <$> target) → NoDup (key <$> source) →
  (∀ s, s ∈ source → key s ≠ None) →
  NoDup (key <$> target').
Proof.
  intros (_ & ->)%merge_into_ok Hnt Hns Hnn.
  rewrite fmap_app, <- list_fmap_compose.
  rewrite (list_fmap_ext (key ∘ updated source) key target)
    by (intros; apply updated_key).
  apply NoDup_app. split; [done|]. split.
  - intros k (t & -> & Ht)%list_elem_of_fmap (s & Hks & Hs)%list_elem_of_fmap.
    apply list_elem_of_filter in Hs as [Hnm Hs]. apply Hnm.
    apply Exists_exists. exists t. split; [done|].
    apply matched_keys. destruct (key s) as [k|] eqn:Hk; [|by apply Hnn in Hs].
    eauto.
  - eapply sublist_NoDup; [exact Hns|]. apply fmap_sublist, sublist_filter.
Qed.

(** Applying the statement again with the same batch, whose keys are
    non-null, leaves the table as the first application left it. *)
Lemma table_after_idempotent target source :
  (∀ s, s ∈ source → key s ≠ None) →
  table_after (table_after target source) source = table_after target source.
Proof.
  intros Hnn. unfold Sql.table_after at 2 3.
  destruct (merge_into target source) as [t1|e] eqn:H1;
    [|by rewrite (merge_into_raise _ _ _ H1)].
  unfold Sql.table_after.
  destruct (merge_into t1 source) as [t2|e] eqn:H2; [|done].
  apply merge_into_ok in H1 as (Hcard1 & Ht1).
  apply merge_into_ok in H2 as (Hcard2 & ->).
  (* every source row is matched by a row of the table *)
  assert (∀ s, s ∈ source → is_matched t1 s) as Hall.
  { intros s Hs. destruct (decide (is_matched target s)) as [Hm|Hm].
    - apply Exists_exists in Hm as (t & Ht & Hm).
      apply Exists_exists. exists (updated source t). split.
      + rewrite Ht1. apply elem_of_app. left. by apply list_elem_of_fmap_2.
      + apply matched_keys. rewrite updated_key. by apply matched_keys.
    - apply Exists_exists. exists s. split.
      + rewrite Ht1. apply elem_of_app. right. by apply list_elem_of_filter.
      + by apply matched_self, Hnn. }
  rewrite (filter_none (λ s, ¬ is_matched t1 s) source), app_nil_r
    by (intros s Hs Hno; by apply Hno, Hall).
  (* every row of the table is its own update *)
  rewrite <- (list_fmap_id t1) at 2. apply list_fmap_ext.
  intros _ r Hr%list_elem_of_lookup_2. simpl.
  assert (∃ s, (matches_of source r = [] ∨ (s ∈ source ∧ matched r s ∧ r = s)))
    as (s & Hcases).
  { pose proof Hr as Hr'. rewrite Ht1 in Hr'. apply elem_of_app in Hr' as [Hr'|Hr'].
    - apply list_elem_of_fmap in Hr' as (t & -> & Ht).
      destruct (updated_cases source t) as [[Hm Hu]|(s & Hs & Hms & Hu)].
      + exists t. left.
        by rewrite (matches_of_key_eq source _ t (updated_key source t)).
      + exists s. right. rewrite Hu. split; [done|]. split; [|done].
        apply matched_keys. apply matched_keys in Hms as (k & _ & Hk). eauto.
    - apply list_elem_of_filter in Hr' as [_ Hr'].
      exists r. right. split; [done|]. split; [|done]. by apply matched_self, Hnn. }
  unfold Sql.updated. destruct Hcases as [->|(Hs & Hm & ->)]; [done|].
  rewrite (single_match source s s); [by apply update_full_row|by apply Hcard2|done..].
Qed.

(** The statement is an upsert in the sense of the specification. *)
Lemma merge_into_upsert_spec : upsert_spec key merge_into.
Proof.
  intros target source. split; [|apply merge_into_distinct_keys].
  intros target' Hok. pose proof Hok as (Hcard & ->)%merge_into_ok.
  split; [|split; [|split; [|split]]].
  - intros i t s Hi Hs Hm.
    rewrite lookup_app_l by (rewrite length_fmap; by eapply lookup_lt_Some).
    rewrite list_lookup_fmap, Hi. simpl. f_equal. unfold Sql.updated.
    rewrite (single_match source t s); [by apply update_full_row| |done..].
    by eapply Hcard, list_elem_of_lookup_2.
  - intros i t Hi Hno.
    rewrite lookup_app_l by (rewrite length_fmap; by eapply lookup_lt_Some).
    rewrite list_lookup_fmap, Hi. simpl. f_equal. unfold Sql.updated.
    by rewrite (no_match source t).
  - intros s Hs Hno. apply elem_of_app. right. by apply list_elem_of_filter.
  - by rewrite length_app, length_fmap.
  - by apply merge_into_keys_distinct.
Qed.
End Facts.
End MergeFacts.

(* ===================================================================== *)
(** * The merge executor against the specification                        *)
(* ===================================================================== *)

Module Upsert.
Import Py Sql MergeFacts.

Section Claims.
Context {float : Type}.

Lemma orders_update_full_row (t s : BridgeRavendb.order_row (float:=float)) :
  matched BridgeRavendb.OrderId t s → BridgeRavendb.merge_update t s = s.
Proof.
  intros Hm%matched_key_eq. unfold BridgeRavendb.merge_update.
  rewrite Hm. by destruct s.
Qed.

Lemma orders_insert_full_row (s : BridgeRavendb.order_row (float:=float)) :
  BridgeRavendb.merge_insert s = s.
Proof. by destruct s. Qed.

(** C1, as amended.  Both [MERGE] statements are upserts keyed on the
    natural key: after a successful merge a target row whose key matches
    a source row is that source row in every column, a source row with an
    unmatched key is a new row, there is no other new row, and the table
    has no duplicate keys provided its keys were pairwise distinct before
    and the keys of the batch are non-null and pairwise distinct; a batch
    with pairwise distinct keys is always merged. *)
Theorem merge_is_upsert :
  upsert_spec (BridgeRavendb.OrderId (float:=float)) BridgeRavendb.merge_sql
  ∧ upsert_spec (BridgeHdf5.file_path (float:=float)) BridgeHdf5.merge_sql.
Proof.
  split.
  - apply merge_into_upsert_spec;
      [apply orders_update_full_row|apply orders_insert_full_row].
  - by apply merge_into_upsert_spec.
Qed.

Lemma orders_table_after_merge (sp : BridgeRavendb.spark (float:=float))
    (df : list BridgeRavendb.order_row) :
  BridgeRavendb.orders_table (BridgeRavendb.merge_into_iceberg sp df).2 =
    (λ t, table_after BridgeRavendb.OrderId BridgeRavendb.merge_update
            BridgeRavendb.merge_insert t df) <$> BridgeRavendb.orders_table sp.
Proof.
  unfold BridgeRavendb.merge_into_iceberg, table_after, BridgeRavendb.merge_sql.
  destruct sp as [[t|] files view out halted]; cbn; [|done].
  by destruct (merge_into _ _ _ t df).
Qed.

(** C3, as amended.  For a batch whose natural keys are non-null, running
    the merge a second time with the same batch leaves the orders table
    as the first run left it. *)
Theorem merge_twice_same_table (sp : BridgeRavendb.spark (float:=float))
    (df : list BridgeRavendb.order_row) :
  (∀ s, s ∈ df → BridgeRavendb.OrderId s ≠ None) →
  BridgeRavendb.orders_table
    (BridgeRavendb.merge_into_iceberg (BridgeRavendb.merge_into_iceberg sp df).2 df).2
  = BridgeRavendb.orders_table (BridgeRavendb.merge_into_iceberg sp df).2.
Proof.
  intros Hnn. rewrite !orders_table_after_merge.
  destruct (BridgeRavendb.orders_table sp) as [t|]; [|done]. cbn. f_equal.
  apply table_after_idempotent;
    [apply orders_update_full_row|apply orders_insert_full_row|done].
Qed.

(** The steps of [main] before the merge touch neither the landing zone
    nor the temp view, and the rows of the table only by creating the
    table when it does not exist. *)
Lemma print_fields (line : string) (sp : BridgeRavendb.spark (float:=float)) :
  BridgeRavendb.landing_files (BridgeRavendb.print line sp) = BridgeRavendb.landing_files sp
  ∧ BridgeRavendb.orders_table (BridgeRavendb.print line sp) = BridgeRavendb.orders_table sp
  ∧ BridgeRavendb.source_updates (BridgeRavendb.print line sp) = BridgeRavendb.source_updates sp
  ∧ BridgeRavendb.stdout (BridgeRavendb.print line sp) = BridgeRavendb.stdout sp ++ [line].
Proof. by destruct sp. Qed.

Lemma create_orders_table_fields (sp : BridgeRavendb.spark (float:=float)) :
  BridgeRavendb.landing_files (BridgeRavendb.create_orders_table sp)
    = BridgeRavendb.landing_files sp
  ∧ BridgeRavendb.orders_table (BridgeRavendb.create_orders_table sp)
    = Some (default [] (BridgeRavendb.orders_table sp))
  ∧ BridgeRavendb.source_updates (BridgeRavendb.create_orders_table sp)
    = BridgeRavendb.source_updates sp.
Proof. by destruct sp as [[t|] files view out halted]. Qed.

Lemma stop_fields (sp : BridgeRavendb.spark (float:=float)) :
  BridgeRavendb.orders_table (BridgeRavendb.stop sp) = BridgeRavendb.orders_table sp
  ∧ BridgeRavendb.source_updates (BridgeRavendb.stop sp) = BridgeRavendb.source_updates sp
  ∧ BridgeRavendb.stdout (BridgeRavendb.stop sp) = BridgeRavendb.stdout sp.
Proof. by destruct sp. Qed.

Lemma read_landing_zone_missing (sp : BridgeRavendb.spark (float:=float)) :
  BridgeRavendb.landing_files sp = ∅ →
  ∃ line, BridgeRavendb.read_landing_zone sp =
    (None, BridgeRavendb.print "  Make sure ravendb_sync.py has been run first."
             (BridgeRavendb.print line sp)).
Proof.
  intros Hland. unfold BridgeRavendb.read_landing_zone, BridgeRavendb.read_parquet.
  rewrite Hland, bool_decide_eq_true_2 by reflexivity. eauto.
Qed.

Lemma read_hdf5_metadata_missing
    (union_files : gmap string (BridgeHdf5.dataframe (float:=float)) → BridgeHdf5.dataframe)
    (sp : BridgeHdf5.spark (float:=float)) :
  BridgeHdf5.metadata_files sp = ∅ →
  (BridgeHdf5.read_hdf5_metadata union_files sp).1 = None.
Proof.
  intros Hmeta. unfold BridgeHdf5.read_hdf5_metadata, BridgeHdf5.read_parquet.
  by rewrite Hmeta, bool_decide_eq_true_2 by reflexivity.
Qed.

(** C4.  With no file in the landing zone the orders bridge reports the
    condition, attempts no merge (the source is not registered as a view)
    and leaves the rows of the table as they were, and its run ends with
    exit status 0, where the specification asks for a non-zero status;
    the HDF5 bridge, in the same situation, ends with status 1. *)
Theorem missing_landing_zone_exit_status
    (show_output : list (BridgeRavendb.order_row (float:=float)) → list string)
    (sp : BridgeRavendb.spark (float:=float))
    (cast : BridgeHdf5.sqltype → BridgeHdf5.cell (float:=float) → BridgeHdf5.cell)
    (to_timestamp : BridgeHdf5.cell (float:=float) → BridgeHdf5.cell)
    (union_files : gmap string (BridgeHdf5.dataframe (float:=float)) → BridgeHdf5.dataframe)
    (summary_output : list (gmap string (BridgeHdf5.cell (float:=float))) → list string)
    (now : Z) (sph : BridgeHdf5.spark (float:=float)) :
  BridgeRavendb.landing_files sp = ∅ →
  BridgeHdf5.metadata_files sph = ∅ →
  (BridgeRavendb.exit_status (BridgeRavendb.main show_output sp).1 = 0
   ∧ BridgeRavendb.orders_table (BridgeRavendb.main show_output sp).2
     = Some (default [] (BridgeRavendb.orders_table sp))
   ∧ BridgeRavendb.source_updates (BridgeRavendb.main show_output sp).2
     = BridgeRavendb.source_updates sp
   ∧ "  Make sure ravendb_sync.py has been run first."
       ∈ BridgeRavendb.stdout (BridgeRavendb.main show_output sp).2)
  ∧ BridgeHdf5.exit_status
      (BridgeHdf5.main cast to_timestamp union_files summary_output now sph).1 = 1.
Proof.
  intros Hland Hmeta. split.
  - unfold BridgeRavendb.main, BridgeRavendb.create_namespace_if_not_exists.
    match goal with
    | |- context [BridgeRavendb.read_landing_zone ?s] => set (sp0 := s)
    end.
    destruct (read_landing_zone_missing sp0) as [line Hread].
    { subst sp0. rewrite (proj1 (print_fields _ _)).
      rewrite (proj1 (create_orders_table_fields _)).
      by rewrite !(proj1 (print_fields _ _)). }
    rewrite Hread. cbv beta iota zeta. cbn [fst snd].
    split; [reflexivity|].
    rewrite !(proj1 (stop_fields _)), !(proj1 (proj2 (stop_fields _))),
      !(proj2 (proj2 (stop_fields _))).
    rewrite !(proj1 (proj2 (print_fields _ _))),
      !(proj1 (proj2 (proj2 (print_fields _ _)))),
      !(proj2 (proj2 (proj2 (print_fields _ _)))).
    subst sp0.
    rewrite !(proj1 (proj2 (print_fields _ _))),
      !(proj1 (proj2 (proj2 (print_fields _ _)))).
    rewrite (proj1 (proj2 (create_orders_table_fields _))),
      (proj2 (proj2 (create_orders_table_fields _))).
    rewrite !(proj1 (proj2 (print_fields _ _))),
      !(proj1 (proj2 (proj2 (print_fields _ _)))).
    split; [reflexivity|]. split; [reflexivity|].
    apply elem_of_app. right. apply list_elem_of_here.
  - unfold BridgeHdf5.main, BridgeHdf5.create_namespace_if_not_exists.
    match goal with
    | |- context [BridgeHdf5.read_hdf5_metadata _ ?s] => set (sp0 := s)
    end.
    pose proof (read_hdf5_metadata_missing union_files sp0) as Hread.
    destruct (BridgeHdf5.read_hdf5_metadata union_files sp0) as [df sp1].
    cbn [fst] in Hread. rewrite Hread; [reflexivity|].
    subst sp0. by destruct sph as [[t|] files view out halted].
Qed.
End Claims.

(** ** Worked examples *)

Ltac decide_it := apply (bool_decide_unpack _); vm_compute; exact I.
Ltac in_list := repeat first [apply list_elem_of_here | apply list_elem_of_further].

(** The example of the specification: [{A: 1}] merged with [{A: 2}, {B: 3}]
    is exactly [{A: 2}, {B: 3}]. *)
Example merge_A1_with_A2_B3 :
  BridgeRavendb.merge_sql MergeExamples.table_A1 MergeExamples.batch_A2_B3
    = Ok MergeExamples.batch_A2_B3.
Proof. vm_compute. reflexivity. Qed.

Lemma merge_is_upsert_witness :
  ∃ target',
    BridgeRavendb.merge_sql MergeExamples.table_A1 MergeExamples.batch_A2_B3 = Ok target'
    ∧ target' !! 0%nat = Some (MergeExamples.order_row_of (Some "A") 2)
    ∧ MergeExamples.order_row_of (Some "B") 3 ∈ target'
    ∧ length target' = 2%nat
    ∧ NoDup (BridgeRavendb.OrderId <$> target').
Proof.
  destruct (merge_is_upsert (float:=Q)) as [Hspec _].
  destruct (Hspec MergeExamples.table_A1 MergeExamples.batch_A2_B3) as [Hok Hrun].
  destruct Hrun as [target' Hrun]; [decide_it|].
  destruct (Hok target' Hrun) as (Hrepl & _ & Hins & Hlen & Hnd).
  exists target'. split; [exact Hrun|]. split; [|split; [|split]].
  - apply (Hrepl 0%nat (MergeExamples.order_row_of (Some "A") 1));
      [reflexivity|in_list|by vm_compute].
  - apply Hins; [in_list|decide_it].
  - rewrite Hlen. reflexivity.
  - apply Hnd; [decide_it|decide_it|].
    intros s Hs. unfold MergeExamples.batch_A2_B3 in Hs.
    repeat (apply elem_of_cons in Hs as [->|Hs]; [discriminate|]).
    by apply elem_of_nil in Hs.
Defined.

(** C1, as the specification states it, fails: a batch with the key [A]
    twice is merged into the empty table and leaves it with two rows of
    key [A]. *)
Lemma merge_duplicate_source_keys :
  BridgeRavendb.merge_sql [] MergeExamples.batch_A1_A2 = Ok MergeExamples.batch_A1_A2
  ∧ ¬ NoDup (BridgeRavendb.OrderId <$> MergeExamples.batch_A1_A2).
Proof.
  split; [vm_compute; reflexivity|].
  intros [Hin _]%NoDup_cons. apply Hin. in_list.
Qed.

Lemma merge_twice_witness :
  BridgeRavendb.orders_table
    (BridgeRavendb.merge_into_iceberg
       (BridgeRavendb.merge_into_iceberg
          (MergeExamples.session MergeExamples.table_A1 ∅) MergeExamples.batch_A2_B3).2
       MergeExamples.batch_A2_B3).2
  = BridgeRavendb.orders_table
      (BridgeRavendb.merge_into_iceberg
         (MergeExamples.session MergeExamples.table_A1 ∅) MergeExamples.batch_A2_B3).2.
Proof.
  apply merge_twice_same_table.
  intros s Hs. unfold MergeExamples.batch_A2_B3 in Hs.
  repeat (apply elem_of_cons in Hs as [->|Hs]; [discriminate|]).
  by apply elem_of_nil in Hs.
Defined.

(** C3, as the specification states it, fails: a row with a null key
    matches nothing, itself included, and the second run of the merge
    inserts it again. *)
Lemma merge_twice_null_key :
  BridgeRavendb.orders_table
    (BridgeRavendb.merge_into_iceberg (MergeExamples.session [] ∅)
       MergeExamples.batch_null).2
    = Some MergeExamples.batch_null
  ∧ BridgeRavendb.orders_table
      (BridgeRavendb.merge_into_iceberg
         (BridgeRavendb.merge_into_iceberg (MergeExamples.session [] ∅)
            MergeExamples.batch_null).2
         MergeExamples.batch_null).2
    = Some (MergeExamples.batch_null ++ MergeExamples.batch_null).
Proof. split; vm_compute; reflexivity. Qed.

Lemma missing_landing_zone_witness :
  BridgeRavendb.exit_status
    (BridgeRavendb.main MergeExamples.show_output
       (MergeExamples.session MergeExamples.table_A1 ∅)).1 = 0
  ∧ BridgeHdf5.exit_status
      (BridgeHdf5.main MergeExamples.cast MergeExamples.to_timestamp
         MergeExamples.union_files MergeExamples.summary_output 0
         MergeExamples.hdf5_session).1 = 1.
Proof.
  destruct (missing_landing_zone_exit_status
              MergeExamples.show_output (MergeExamples.session MergeExamples.table_A1 ∅)
              MergeExamples.cast MergeExamples.to_timestamp
              MergeExamples.union_files MergeExamples.summary_output 0
              MergeExamples.hdf5_session eq_refl eq_refl)
    as [(Hexit & _) Hsibling].
  split; [exact Hexit|exact Hsibling].
Defined.
End Upsert.

(* ===================================================================== *)
(** * Write-audit-publish against the specification                       *)
(* ===================================================================== *)

Module WriteAuditPublish.
Import Py InventoryFiles.

Section Claims.
Variable faults : call → option exn.
Variable merge_branch : list file_row → list file_row → result (list file_row).

(** The run, step by step, from a catalog in which the branch exists once
    step 1 is over. *)
Lemma wap_run_cases (n : nessie) (df_files : list file_row) :
  is_Some (ingest_files n) ∨ faults CreateBranch = None →
  let run := use_write_audit_publish faults merge_branch n df_files in
  (* the run went through: merged, then dropped *)
  (run.1 = Ok () ∧ ingest_files run.2 = None
   ∧ faults Append = None ∧ faults MergeBranch = None
   ∧ ∃ b, merge_branch b (main_registry n) = Ok (main_registry run.2))
  (* the run failed before the merge was done *)
  ∨ (∃ e, run.1 = Raise e ∧ is_Some (ingest_files run.2)
       ∧ main_registry run.2 = main_registry n)
  (* the run failed at the drop, after the merge *)
  ∨ (∃ e, run.1 = Raise e ∧ is_Some (ingest_files run.2)
       ∧ faults DropBranch = Some e
       ∧ faults Append = None ∧ faults MergeBranch = None
       ∧ ∃ b, merge_branch b (main_registry n) = Ok (main_registry run.2)).
Proof.
  intros Hbranch. destruct n as [m b r out].
  unfold use_write_audit_publish, create_branch, append, merge_branch_into_main,
    drop_branch, print, set_ref.
  cbn [main_registry ingest_files ref stdout] in *.
  destruct (faults CreateBranch) as [e|] eqn:Hc.
  - destruct Hbranch as [[t ->]|?]; [|done].
    destruct (contains "already exists" (lower (BridgeRavendb.exn_message e)));
      [|right; left; exists e; cbn; eauto].
    cbn [main_registry ingest_files ref stdout].
    destruct (faults Append) as [ea|] eqn:Ha;
      [right; left; exists ea; cbn; eauto|].
    rewrite bool_decide_eq_false_2 by discriminate.
    rewrite bool_decide_eq_true_2 by reflexivity.
    cbn [main_registry ingest_files ref stdout].
    destruct (faults MergeBranch) as [em|] eqn:Hm;
      [right; left; exists em; cbn; eauto|].
    destruct (merge_branch (t ++ df_files) m) as [m'|em] eqn:Hmerge;
      [|right; left; exists em; cbn; eauto].
    cbn [main_registry ingest_files ref stdout].
    destruct (faults DropBranch) as [ed|] eqn:Hd.
    + right; right. exists ed. cbn. eauto 10.
    + left. cbn. eauto 10.
  - assert (∃ t, match b with
                 | Some _ => b
                 | None => Some m
                 end = Some t) as [t Ht] by (destruct b; eauto).
    assert (ingest_files
              match b with
              | Some _ => mk_nessie m b r
                  (out ++ ["Using Write-Audit-Publish pattern with Nessie branches..."])
              | None => mk_nessie m (Some m) r
                  (out ++ ["Using Write-Audit-Publish pattern with Nessie branches..."])
              end = Some t) as Hb by (destruct b; cbn in *; congruence).
    destruct b as [t0|]; cbn [main_registry ingest_files ref stdout] in *;
      injection Ht as <-; clear Hb Hbranch;
      (destruct (faults Append) as [ea|] eqn:Ha;
        [right; left; exists ea; cbn; eauto|]);
      rewrite bool_decide_eq_false_2 by discriminate;
      rewrite bool_decide_eq_true_2 by reflexivity;
      cbn [main_registry ingest_files ref stdout];
      (destruct (faults MergeBranch) as [em|] eqn:Hm;
        [right; left; exists em; cbn; eauto|]);
      match goal with
      | |- context [merge_branch ?x ?y] =>
          destruct (merge_branch x y) as [m'|em] eqn:Hmerge;
            [|right; left; exists em; cbn; eauto]
      end;
      cbn [main_registry ingest_files ref stdout];
      (destruct (faults DropBranch) as [ed|] eqn:Hd;
        [right; right; exists ed; cbn; eauto 10|left; cbn; eauto 10]).
Qed.

(** C2.  In every run that starts with the branch in place, or creates
    it, the branch is gone at the end only when the run went through,
    that is after the branch was merged into [main]; a run that fails at
    the write or at the merge leaves the branch in place and [main] as it
    was before the run; and whatever the failure, the branch is still
    there afterwards and [main] differs from before only if the merge had
    succeeded already. *)
Theorem branch_dropped_only_after_merge (n : nessie) (df_files : list file_row) :
  is_Some (ingest_files n) ∨ faults CreateBranch = None →
  (ingest_files (use_write_audit_publish faults merge_branch n df_files).2 = None →
     (use_write_audit_publish faults merge_branch n df_files).1 = Ok ()
     ∧ ∃ b, merge_branch b (main_registry n)
            = Ok (main_registry (use_write_audit_publish faults merge_branch n df_files).2))
  ∧ (is_Some (faults Append) ∨ is_Some (faults MergeBranch) →
     ∃ e, (use_write_audit_publish faults merge_branch n df_files).1 = Raise e
       ∧ is_Some (ingest_files (use_write_audit_publish faults merge_branch n df_files).2)
       ∧ main_registry (use_write_audit_publish faults merge_branch n df_files).2
         = main_registry n)
  ∧ (∀ e, (use_write_audit_publish faults merge_branch n df_files).1 = Raise e →
     is_Some (ingest_files (use_write_audit_publish faults merge_branch n df_files).2)
     ∧ (main_registry (use_write_audit_publish faults merge_branch n df_files).2
          = main_registry n
        ∨ ∃ b, merge_branch b (main_registry n)
               = Ok (main_registry (use_write_audit_publish faults merge_branch n df_files).2))).
Proof.
  intros Hbranch.
  pose proof (wap_run_cases n df_files Hbranch) as Hcases. cbv zeta in Hcases.
  destruct (use_write_audit_publish faults merge_branch n df_files) as [r n'].
  cbn [fst snd] in *.
  destruct Hcases as [(Hr & Hb & Ha & Hm & Hmerge)
                     |[(e & Hr & Hb & Hmain)
                      |(e & Hr & Hb & Hd & Ha & Hm & Hmerge)]].
  - split; [by intros _|]. split.
    + rewrite Ha, Hm. intros [[? ?]|[? ?]]; done.
    + intros e He. congruence.
  - split; [intros Hnone; rewrite Hnone in Hb; by destruct Hb|]. split.
    + intros _. eauto.
    + intros e' _. eauto.
  - split; [intros Hnone; rewrite Hnone in Hb; by destruct Hb|]. split.
    + rewrite Ha, Hm. intros [[? ?]|[? ?]]; done.
    + intros e' _. eauto.
Qed.
End Claims.

(** ** Worked example: a run interrupted at the branch merge *)

Lemma branch_kept_witness :
  ∃ e,
    (use_write_audit_publish MergeExamples.interrupted_at_merge
       MergeExamples.fast_forward MergeExamples.catalog [MergeExamples.new_file]).1
      = Raise e
    ∧ is_Some (ingest_files
        (use_write_audit_publish MergeExamples.interrupted_at_merge
           MergeExamples.fast_forward MergeExamples.catalog [MergeExamples.new_file]).2)
    ∧ main_registry
        (use_write_audit_publish MergeExamples.interrupted_at_merge
           MergeExamples.fast_forward MergeExamples.catalog [MergeExamples.new_file]).2
      = main_registry MergeExamples.catalog.
Proof.
  destruct (branch_dropped_only_after_merge
              MergeExamples.interrupted_at_merge MergeExamples.fast_forward
              MergeExamples.catalog [MergeExamples.new_file] (or_intror eq_refl))
    as (_ & Hfail & _).
  apply Hfail. right. eexists. reflexivity.
Defined.
End WriteAuditPublish.

(* ===================================================================== *)
(** * Further properties of the flattener and of the fetch                *)
(* ===================================================================== *)

Module FlattenExtras.
Import Py RavendbSync FlattenFacts Landing.

Section Facts.
Context {float : Type} `{Platform float}.
Variable clock : nat → datetime.
Variable isoformat : datetime → string.
Variable fromisoformat : string → option datetime.

Abbreviation flatten := (flatten_order clock isoformat fromisoformat).

(** The date block reads the clock once, or twice when the parser
    refuses the string. *)
Lemma order_date_of_ticks (d : dict float) (w : world float) :
  ∃ date n,
    order_date_of clock isoformat fromisoformat d w = (Ok date, mk_world (heap w) n)
    ∧ (n = S (ticks w) ∨ n = S (S (ticks w)))
    ∧ (∀ s, d !! "OrderDate" = Some (VStr s) → fromisoformat (replace_Z s) = None →
         n = S (S (ticks w)))
    ∧ (∀ s dt, d !! "OrderDate" = Some (VStr s) → fromisoformat (replace_Z s) = Some dt →
         n = S (ticks w))
    ∧ (∀ v, d !! "OrderDate" = Some v → (∀ s, v ≠ VStr s) → date = v).
Proof.
  unfold order_date_of. run_M.
  destruct (dict_get d "OrderDate" (VStr (isoformat (clock (ticks w)))))
    as [|b|z|f|s|dt|ls|dd] eqn:Edate;
    try (eexists _, _; split; [reflexivity|]; split; [by left|];
         split; [|split]; [intros s' Hs' ?|intros s' dt' Hs' ?|intros v Hv Hns];
         unfold dict_get in Edate; rewrite ?Hs', ?Hv in Edate;
         simpl in Edate; congruence).
  destruct (fromisoformat (replace_Z s)) eqn:Eparse; simpl;
    (eexists _, _; split; [reflexivity|]); (split; [by auto|]);
    (split; [|split]; [intros s' Hs' ?|intros s' dt' Hs' ?|intros v Hv Hns];
     unfold dict_get in Edate; rewrite ?Hs', ?Hv in Edate;
     simpl in Edate; try injection Edate as ->; try congruence).
Qed.

(** X1.  On a document on which no step outside the date block raises:
    a date string the parser accepts is stored as parsed, after one
    reading of the clock; [SyncedAt] is then the second reading and the
    call has read the clock twice.  When the parser refuses the string,
    [SyncedAt] is the reading that follows the one stored in [OrderDate],
    and the call has read the clock three times. *)
Theorem flatten_order_clock_readings
    (w : world float) (l : nat) (id : string) (d : dict float) (s : string) :
  heap w !! l = Some d →
  order_doc_ok d →
  d !! "OrderDate" = Some (VStr s) →
  ∃ row w', flatten l id w = (Ok row, w')
    ∧ match fromisoformat (replace_Z s) with
      | Some dt =>
          row !! "OrderDate" = Some (VDatetime dt)
          ∧ row !! "SyncedAt" = Some (VDatetime (clock (ticks w + 1)))
          ∧ ticks w' = (ticks w + 2)%nat
      | None =>
          row !! "OrderDate" = Some (VDatetime (clock (ticks w + 1)))
          ∧ row !! "SyncedAt" = Some (VDatetime (clock (ticks w + 2)))
          ∧ ticks w' = (ticks w + 3)%nat
      end.
Proof.
  intros Hd Hok Hdate.
  destruct (flatten_order_spec clock isoformat fromisoformat l id w d Hd Hok)
    as (total & rounded & date & n & m & ship & Hrun & _ & _ & Hdt & _).
  destruct (order_date_of_ticks d w) as (date' & n' & Hrun' & _ & Hbad & Hgood & _).
  destruct (order_date_of_run clock isoformat fromisoformat d w)
    as (date2 & n2 & Hrun2 & _ & Hbad2 & Hgood2).
  rewrite Hrun' in Hdt. injection Hdt as -> ->.
  rewrite Hrun' in Hrun2. injection Hrun2 as -> ->.
  eexists _, _. split; [exact Hrun|].
  destruct (fromisoformat (replace_Z s)) as [dt|] eqn:Hparse.
  - rewrite (Hgood s dt Hdate Hparse), (Hgood2 s dt Hdate Hparse).
    replace (ticks w + 1)%nat with (S (ticks w)) by lia.
    split; [by Normalizer.row_lookup|]. split; [by Normalizer.row_lookup|].
    cbn. lia.
  - rewrite (Hbad s Hdate Hparse), (Hbad2 s Hdate Hparse).
    replace (ticks w + 1)%nat with (S (ticks w)) by lia.
    replace (ticks w + 2)%nat with (S (S (ticks w))) by lia.
    split; [by Normalizer.row_lookup|]. split; [by Normalizer.row_lookup|].
    cbn. lia.
Qed.

(** X2.  An [OrderDate] that is present but is not a string, such as a JSON
    null or a number, is copied to the row as it is: when no step
    outside the date block raises, the document is flattened without an
    exception, and the partitioner then fails on the row with
    [AttributeError], whatever valid rows come before it. *)
Theorem non_string_date_breaks_partitioner
    (w : world float) (l : nat) (id : string) (d : dict float) (v : pyval float) :
  heap w !! l = Some d →
  order_doc_ok d →
  d !! "OrderDate" = Some v →
  (∀ s, v ≠ VStr s) → (∀ dt, v ≠ VDatetime dt) →
  ∃ row w', flatten l id w = (Ok row, w')
    ∧ row !! "OrderDate" = Some v
    ∧ ∀ before after, Forall valid_timestamp before →
        group_by_date (before ++ row :: after) = Raise AttributeError.
Proof.
  intros Hd Hok Hdate Hns Hnd.
  destruct (flatten_order_spec clock isoformat fromisoformat l id w d Hd Hok)
    as (total & rounded & date & n & m & ship & Hrun & _ & _ & Hdt & _).
  destruct (order_date_of_ticks d w) as (date' & n' & Hrun' & _ & _ & _ & Hcopy).
  rewrite Hrun' in Hdt. injection Hdt as -> ->.
  rewrite (Hcopy v Hdate Hns) in Hrun.
  eexists _, _. split; [exact Hrun|]. split; [by Normalizer.row_lookup|].
  match goal with |- ∀ before after, _ → group_by_date (_ ++ ?r :: _) = _ => set (row := r) end.
  assert (date_key row = Raise AttributeError) as Hkey.
  { unfold date_key. subst row. Normalizer.row_lookup.
    destruct v as [|b|z|f|s|dt|ls|dd]; try done. by destruct (Hnd dt). }
  clearbody row.
  intros before after Hbefore. unfold group_by_date.
  generalize (∅ : gmap string (list (dict float))).
  induction Hbefore as [|o before Ho _ IH]; intros g.
  - cbn [app group_loop]. unfold group_step. by rewrite Hkey.
  - cbn [app group_loop].
    destruct (valid_timestamp_key o Ho) as (dt & _ & _ & Hdk & _).
    rewrite (group_step_run g o _ Hdk). cbn. apply IH.
Qed.

(** X3.  A [ShipTo] that is present but is not an object, such as a JSON
    null, aborts the flattening with [AttributeError] once the amount is
    computed: the default of the [get] applies to a missing key only. *)
Theorem ship_to_not_object_raises
    (w : world float) (l : nat) (id : string) (d : dict float)
    (v total rounded : pyval float) :
  heap w !! l = Some d →
  d !! "ShipTo" = Some v → (∀ m, v ≠ VDict m) →
  total_amount_of d = Ok total → py_round2 total = Ok rounded →
  (flatten l id w).1 = Raise AttributeError
  ∧ heap (flatten l id w).2 = heap w.
Proof.
  intros Hd Hship Hnd Htot Hround.
  split; [by eapply flatten_order_ship_to|apply flatten_order_heap].
Qed.

(** X4.  A stored [TotalAmount] that is not a number reaches [round] as it is
    when it is truthy, or when it is falsy and the document has no
    [Lines] (a JSON null, for one): the flattening then raises
    [TypeError] and returns no row. *)
Theorem total_amount_not_number_raises
    (w : world float) (l : nat) (id : string) (d : dict float) :
  heap w !! l = Some d →
  as_number (dict_get d "TotalAmount" (VInt 0)) = None →
  truthy (dict_get d "TotalAmount" (VInt 0)) = true ∨ d !! "Lines" = None →
  (flatten l id w).1 = Raise TypeError.
Proof.
  intros Hd Hnum Hcase.
  assert (total_amount_of d = Ok (dict_get d "TotalAmount" (VInt 0))) as Htot.
  { unfold total_amount_of. destruct Hcase as [Ht | Hl]; [by rewrite Ht|]. rewrite Hl.
    rewrite bool_decide_eq_false_2 by (by intros [? ?]).
    by rewrite andb_false_r. }
  destruct (order_date_of_ticks d w) as (date & n & Hrun & _).
  unfold flatten_order.
  unfold mbind at 1, M_bind at 1, bind at 1, load. rewrite Hd.
  unfold mbind at 1, M_bind at 1, bind at 1, lift at 1. rewrite Htot.
  unfold mbind at 1, M_bind at 1, bind at 1. rewrite Hrun.
  run_M. unfold py_round2. by rewrite Hnum.
Qed.

(** [replace("Z", "+00:00")] leaves no [Z] in the string, wherever the
    [Z] was, and leaves a string without [Z] as it is. *)
Theorem replace_Z_no_Z (s : string) :
  "Z" ∉ chars (replace_Z s) ∧ ("Z" ∉ chars s → replace_Z s = s).
Proof.
  split.
  - induction s as [|c s IH]; cbn [replace_Z chars]; [apply not_elem_of_nil|].
    case_bool_decide as Hc.
    + cbn. intros Hin.
      repeat (apply elem_of_cons in Hin as [Hin|Hin]; [discriminate|]). done.
    + cbn [chars]. intros [Hin|Hin]%elem_of_cons; [|done].
      apply Hc. by injection Hin.
  - induction s as [|c s IH]; cbn [replace_Z chars]; [done|].
    intros Hno. case_bool_decide as Hc.
    + exfalso. apply Hno. subst c. apply list_elem_of_here.
    + f_equal. apply IH. intros Hin. apply Hno. by apply list_elem_of_further.
Qed.


(** X5.  For a collection of documents on none of which a step of the
    flattener outside the date block raises, [fetch_all_orders] answers
    one row per document, in the order of the query, each row carrying
    the identifier of its document; it changes no object of the heap and
    reads the clock two or three times per document. *)
Theorem fetch_all_orders_rows (docs : list (nat * string)) (w : world float) :
  Forall (doc_ok (heap w)) docs →
  ∃ rows w', fetch_all_orders clock isoformat fromisoformat docs w = (Ok rows, w')
    ∧ heap w' = heap w
    ∧ Forall2 (λ doc row, row !! "OrderId" = Some (VStr doc.2)) docs rows
    ∧ (ticks w + 2 * length docs ≤ ticks w' ≤ ticks w + 3 * length docs)%nat.
Proof.
  unfold fetch_all_orders. revert w.
  induction docs as [|[l id] docs IH]; intros w Hall.
  - exists [], w. cbn. repeat split; [constructor|lia..].
  - apply Forall_cons in Hall as [(d & Hd & Hok) Hall]. cbn [fst snd] in Hd.
    destruct (flatten_order_spec clock isoformat fromisoformat l id w d Hd Hok)
      as (total & rounded & date & n & m & ship & Hrun & _ & _ & Hdt & _).
    destruct (order_date_of_ticks d w) as (date' & n' & Hrun' & Hn & _).
    rewrite Hrun' in Hdt. injection Hdt as -> ->.
    destruct (IH (mk_world (heap w) (S n)) Hall) as (rows & w' & Hrest & Hheap & Hids & Hticks).
    cbn [heap ticks] in Hheap, Hticks.
    eexists (_ :: rows), w'. split; [|split; [exact Hheap|split]].
    + cbn [map_M fst snd]. unfold mbind at 1, M_bind at 1, bind at 1. rewrite Hrun.
      unfold mbind at 1, M_bind at 1, bind at 1. rewrite Hrest. reflexivity.
    + constructor; [|exact Hids]. cbn [snd]. by Normalizer.row_lookup.
    + cbn [length]. lia.
Qed.

(** X6.  There is no handler in the loop of [fetch_all_orders]: when the
    documents before it are flattened without an exception, a document
    on which the flattening raises makes the whole fetch raise the same exception,
    and no row is returned. *)
Theorem fetch_all_orders_aborts
    (before after : list (nat * string)) (doc : nat * string) (e : exn)
    (w : world float) :
  Forall (doc_ok (heap w)) before →
  (∀ w0, heap w0 = heap w → (flatten doc.1 doc.2 w0).1 = Raise e) →
  (fetch_all_orders clock isoformat fromisoformat (before ++ doc :: after) w).1 = Raise e.
Proof.
  unfold fetch_all_orders. revert w.
  induction before as [|[l id] before IH]; intros w Hall Hraise.
  - cbn [app map_M]. unfold mbind at 1, M_bind at 1, bind at 1.
    specialize (Hraise w eq_refl).
    destruct (flatten doc.1 doc.2 w) as [r w1]. cbn [fst] in Hraise. by rewrite Hraise.
  - apply Forall_cons in Hall as [(d & Hd & Hok) Hall]. cbn [fst snd] in Hd.
    destruct (flatten_order_spec clock isoformat fromisoformat l id w d Hd Hok)
      as (total & rounded & date & n & m & ship & Hrun & _).
    cbn [app map_M fst snd]. unfold mbind at 1, M_bind at 1, bind at 1. rewrite Hrun.
    specialize (IH (mk_world (heap w) (S n)) Hall Hraise).
    unfold mbind at 1, M_bind at 1, bind at 1.
    destruct (map_M _ (before ++ doc :: after) _) as [r w1].
    cbn [fst] in IH. by rewrite IH.
Qed.
End Facts.

(** ** Worked examples *)

Lemma dated_doc_ok : order_doc_ok Examples.dated_doc.
Proof. Normalizer.solve_int_doc. Qed.

Lemma null_date_doc_ok : order_doc_ok Examples.null_date_doc.
Proof. Normalizer.solve_int_doc. Qed.

Lemma flatten_order_clock_witness :
  ∃ row w',
    flatten_order Examples.clock Examples.isoformat Examples.fromisoformat
      1 "orders/2" Examples.collection_world = (Ok row, w')
    ∧ row !! "OrderDate" = Some (VDatetime (mk_datetime 2024 1 2 8 0 0 0 (Some 0)))
    ∧ row !! "SyncedAt" = Some (VDatetime (Examples.clock 1))
    ∧ ticks w' = 2%nat.
Proof.
  destruct (flatten_order_clock_readings
              Examples.clock Examples.isoformat Examples.fromisoformat
              Examples.collection_world 1 "orders/2" Examples.dated_doc
              "2024-01-02T08:00:00Z" eq_refl dated_doc_ok eq_refl)
    as (row & w' & Hrun & Hrow).
  exists row, w'. split; [exact Hrun|]. exact Hrow.
Defined.

Lemma non_string_date_witness :
  ∃ row w',
    flatten_order Examples.clock Examples.isoformat Examples.fromisoformat
      3 "orders/4" Examples.collection_world = (Ok row, w')
    ∧ row !! "OrderDate" = Some VNone
    ∧ group_by_date (Examples.three_orders ++ [row]) = Raise AttributeError.
Proof.
  destruct (non_string_date_breaks_partitioner
              Examples.clock Examples.isoformat Examples.fromisoformat
              Examples.collection_world 3 "orders/4" Examples.null_date_doc VNone
              eq_refl null_date_doc_ok eq_refl)
    as (row & w' & Hrun & Hdate & Hgroup); [discriminate..|].
  exists row, w'. split; [exact Hrun|]. split; [exact Hdate|].
  apply Hgroup, three_orders_valid.
Defined.

Lemma ship_to_not_object_witness :
  (flatten_order Examples.clock Examples.isoformat Examples.fromisoformat
     2 "orders/3" Examples.collection_world).1 = Raise AttributeError.
Proof.
  apply (ship_to_not_object_raises
           Examples.clock Examples.isoformat Examples.fromisoformat
           Examples.collection_world 2 "orders/3" Examples.null_ship_doc
           VNone (VInt 0) (VInt 0) eq_refl eq_refl);
    [discriminate|reflexivity|reflexivity].
Defined.

Lemma total_amount_not_number_witness :
  (flatten_order Examples.clock Examples.isoformat Examples.fromisoformat
     4 "orders/5" Examples.collection_world).1 = Raise TypeError.
Proof.
  apply (total_amount_not_number_raises
           Examples.clock Examples.isoformat Examples.fromisoformat
           Examples.collection_world 4 "orders/5" Examples.null_total_doc
           eq_refl eq_refl).
  right. reflexivity.
Defined.

Lemma collection_prefix_ok :
  Forall (doc_ok (heap Examples.collection_world)) [(0%nat, "orders/1"); (1%nat, "orders/2")].
Proof.
  repeat constructor.
  - exists Examples.order_doc. split; [reflexivity|apply Normalizer.order_doc_ok_sample].
  - exists Examples.dated_doc. split; [reflexivity|apply dated_doc_ok].
Qed.

Lemma fetch_all_orders_witness :
  ∃ rows w',
    fetch_all_orders Examples.clock Examples.isoformat Examples.fromisoformat
      [(0%nat, "orders/1"); (1%nat, "orders/2")] Examples.collection_world = (Ok rows, w')
    ∧ heap w' = heap Examples.collection_world
    ∧ length rows = 2%nat.
Proof.
  destruct (fetch_all_orders_rows
              Examples.clock Examples.isoformat Examples.fromisoformat
              [(0%nat, "orders/1"); (1%nat, "orders/2")] Examples.collection_world
              collection_prefix_ok)
    as (rows & w' & Hrun & Hheap & Hids & _).
  exists rows, w'. split; [exact Hrun|]. split; [exact Hheap|].
  by rewrite <- (Forall2_length _ _ _ Hids).
Defined.

Lemma fetch_all_orders_aborts_witness :
  (fetch_all_orders Examples.clock Examples.isoformat Examples.fromisoformat
     ([(0%nat, "orders/1"); (1%nat, "orders/2")] ++ (2%nat, "orders/3") :: [(3%nat, "orders/4")])
     Examples.collection_world).1 = Raise AttributeError.
Proof.
  apply fetch_all_orders_aborts; [apply collection_prefix_ok|].
  intros w0 Hheap.
  apply (flatten_order_ship_to
           Examples.clock Examples.isoformat Examples.fromisoformat
           w0 2 "orders/3" Examples.null_ship_doc VNone (VInt 0) (VInt 0));
    [by rewrite Hheap|reflexivity|discriminate|reflexivity|reflexivity].
Defined.
End FlattenExtras.

(* ===================================================================== *)
(** * Further properties of the merge and of the orders bridge            *)
(* ===================================================================== *)

Module MergeExtras.
Import Py Sql MergeFacts Upsert.
#[local] Open Scope nat_scope.

Section Generic.
Context {R K : Type} `{EqDecision K}.
Variable key : R → option K.
Variable update : R → R → R.
Variable insert : R → R.
Hypothesis update_full_row : ∀ t s, Sql.matched key t s → update t s = s.
Hypothesis insert_full_row : ∀ s, insert s = s.

Lemma merge_into_empty_source (target : list R) :
  Sql.merge_into key update insert target [] = Ok target.
Proof.
  unfold Sql.merge_into. case_decide as Hcard.
  - apply Exists_exists in Hcard as (t & _ & Hlen). cbn in Hlen. lia.
  - f_equal. rewrite filter_nil, fmap_nil, app_nil_r.
    rewrite <- (list_fmap_id target) at 2. by apply list_fmap_ext.
Qed.

(** Two rows of the batch at different places, both matching a row of
    the table, make the statement fail. *)
Lemma merge_into_double_match (target source : list R) (t s1 s2 : R) (i j : nat) :
  t ∈ target → source !! i = Some s1 → source !! j = Some s2 → i < j →
  Sql.matched key t s1 → Sql.matched key t s2 →
  Sql.merge_into key update insert target source
    = Raise (SparkError cardinality_violation).
Proof.
  intros Ht Hi Hj Hij Hm1 Hm2. unfold Sql.merge_into.
  case_decide as Hcard; [done|]. exfalso. apply Hcard.
  apply Exists_exists. exists t. split; [done|].
  unfold Sql.matches_of.
  rewrite <- (take_drop_middle source i s1 Hi), filter_app, filter_cons_True by done.
  assert (s2 ∈ filter (λ s, Sql.matched key t s) (drop (S i) source)) as Hin.
  { apply list_elem_of_filter. split; [done|].
    apply list_elem_of_lookup. exists (j - S i). rewrite lookup_drop.
    by replace (S i + (j - S i)) with j by lia. }
  destruct (filter _ (drop (S i) source)); [by apply elem_of_nil in Hin|].
  rewrite length_app. cbn. lia.
Qed.

Lemma merge_into_keeps_rows (target source target' : list R) :
  Sql.merge_into key update insert target source = Ok target' →
  length target ≤ length target' ≤ length target + length source
  ∧ key <$> take (length target) target' = key <$> target.
Proof.
  intros (_ & ->)%(merge_into_ok key update insert); [|done].
  rewrite length_app, length_fmap.
  pose proof (length_filter (λ s, ¬ Sql.is_matched key target s) source).
  split; [lia|].
  rewrite take_app_length' by (by rewrite length_fmap).
  rewrite <- list_fmap_compose. apply list_fmap_ext.
  intros i t _. by apply updated_key.
Qed.
End Generic.

Section Orders.
Context {float : Type}.
Implicit Types (sp : BridgeRavendb.spark (float:=float))
               (target source : list (BridgeRavendb.order_row (float:=float))).

(** An empty batch is merged and changes nothing. *)
Theorem merge_empty_batch target :
  BridgeRavendb.merge_sql target [] = Ok target.
Proof. apply merge_into_empty_source. Qed.

(** X9.  A batch that carries two rows, at different places, for a key the
    table already has is refused with the cardinality error of the
    engine, and the run of [merge_into_iceberg] leaves the table as it
    was. *)
Theorem merge_refuses_double_match sp target source
    (t s1 s2 : BridgeRavendb.order_row (float:=float)) (i j : nat) :
  BridgeRavendb.orders_table sp = Some target →
  t ∈ target → source !! i = Some s1 → source !! j = Some s2 → i < j →
  BridgeRavendb.OrderId t ≠ None →
  BridgeRavendb.OrderId s1 = BridgeRavendb.OrderId t →
  BridgeRavendb.OrderId s2 = BridgeRavendb.OrderId t →
  (BridgeRavendb.merge_into_iceberg sp source).1
    = Raise (SparkError cardinality_violation)
  ∧ BridgeRavendb.orders_table (BridgeRavendb.merge_into_iceberg sp source).2
    = Some target.
Proof.
  intros Htable Ht Hi Hj Hij Hnn H1 H2.
  assert (BridgeRavendb.merge_sql target source
            = Raise (SparkError cardinality_violation)) as Hmerge.
  { unfold BridgeRavendb.merge_sql.
    eapply (merge_into_double_match _ _ _ target source t s1 s2 i j); try done.
    - apply matched_keys. rewrite H1. destruct (BridgeRavendb.OrderId t); [eauto|done].
    - apply matched_keys. rewrite H2. destruct (BridgeRavendb.OrderId t); [eauto|done]. }
  destruct sp as [table files view out halted]. cbn in Htable. subst table.
  unfold BridgeRavendb.merge_into_iceberg. cbn. by rewrite Hmerge.
Qed.

(** X10.  The statement has no clause that deletes: a successful merge keeps
    every row of the table in its place with its key, and adds at most
    one row per row of the batch. *)
Theorem merge_keeps_rows target source target' :
  BridgeRavendb.merge_sql target source = Ok target' →
  length target ≤ length target' ≤ length target + length source
  ∧ BridgeRavendb.OrderId <$> take (length target) target'
    = BridgeRavendb.OrderId <$> target.
Proof.
  apply merge_into_keeps_rows; [apply orders_update_full_row|apply orders_insert_full_row].
Qed.

(** *** The run of [main] when the landing zone has files *)

Lemma orders_table_print (line : string) sp :
  BridgeRavendb.orders_table (BridgeRavendb.print line sp) = BridgeRavendb.orders_table sp.
Proof. by destruct sp. Qed.

Lemma stopped_print (line : string) sp :
  BridgeRavendb.stopped (BridgeRavendb.print line sp) = BridgeRavendb.stopped sp.
Proof. by destruct sp. Qed.

Lemma landing_files_print (line : string) sp :
  BridgeRavendb.landing_files (BridgeRavendb.print line sp) = BridgeRavendb.landing_files sp.
Proof. by destruct sp. Qed.

Lemma orders_table_prints (lines : list string) sp :
  BridgeRavendb.orders_table (foldl (λ sp line, BridgeRavendb.print line sp) sp lines)
    = BridgeRavendb.orders_table sp.
Proof.
  revert sp. induction lines as [|line lines IH]; intros sp; [done|].
  cbn [foldl]. by rewrite IH, orders_table_print.
Qed.

Lemma stopped_prints (lines : list string) sp :
  BridgeRavendb.stopped (foldl (λ sp line, BridgeRavendb.print line sp) sp lines)
    = BridgeRavendb.stopped sp.
Proof.
  revert sp. induction lines as [|line lines IH]; intros sp; [done|].
  cbn [foldl]. by rewrite IH, stopped_print.
Qed.

Lemma setup_fields sp :
  BridgeRavendb.landing_files (BridgeRavendb.create_orders_table sp)
    = BridgeRavendb.landing_files sp
  ∧ BridgeRavendb.orders_table (BridgeRavendb.create_orders_table sp)
    = Some (default [] (BridgeRavendb.orders_table sp))
  ∧ BridgeRavendb.stopped (BridgeRavendb.create_orders_table sp)
    = BridgeRavendb.stopped sp.
Proof. by destruct sp as [[t|] files view out halted]. Qed.

Lemma read_landing_zone_found sp :
  BridgeRavendb.landing_files sp ≠ ∅ →
  ∃ line, BridgeRavendb.read_landing_zone sp =
    (Some (concat (map_to_list (BridgeRavendb.landing_files sp)).*2),
     BridgeRavendb.print line sp).
Proof.
  intros Hfiles. unfold BridgeRavendb.read_landing_zone, BridgeRavendb.read_parquet.
  rewrite bool_decide_eq_false_2 by done. eauto.
Qed.

Lemma merge_into_iceberg_run sp target source :
  BridgeRavendb.orders_table sp = Some target →
  match BridgeRavendb.merge_sql target source with
  | Ok target' =>
      (BridgeRavendb.merge_into_iceberg sp source).1 = Ok ()
      ∧ BridgeRavendb.orders_table (BridgeRavendb.merge_into_iceberg sp source).2
        = Some target'
  | Raise e =>
      (BridgeRavendb.merge_into_iceberg sp source).1 = Raise e
      ∧ BridgeRavendb.orders_table (BridgeRavendb.merge_into_iceberg sp source).2
        = Some target
  end
  ∧ BridgeRavendb.stopped (BridgeRavendb.merge_into_iceberg sp source).2
    = BridgeRavendb.stopped sp.
Proof.
  intros Htable. destruct sp as [table files view out halted].
  cbn in Htable. subst table. unfold BridgeRavendb.merge_into_iceberg.
  cbn [BridgeRavendb.set_view BridgeRavendb.orders_table BridgeRavendb.source_updates
       BridgeRavendb.landing_files BridgeRavendb.stdout BridgeRavendb.stopped].
  by destruct (BridgeRavendb.merge_sql target source).
Qed.

(** X11.  With files in the landing zone, [main] creates the table when it
    does not exist and merges the rows of all the files into it.  When
    the merge goes through, the run ends well, with Spark stopped and
    exit status 0; when the merge is refused, the exception leaves
    [main], the exit status is 1, the table is as it was (or empty, when
    it was created) and Spark is not stopped. *)
Theorem main_merges_landing_zone
    (show_output : list (BridgeRavendb.order_row (float:=float)) → list string) sp :
  BridgeRavendb.landing_files sp ≠ ∅ →
  match BridgeRavendb.merge_sql (default [] (BridgeRavendb.orders_table sp))
          (concat (map_to_list (BridgeRavendb.landing_files sp)).*2) with
  | Ok target' =>
      BridgeRavendb.exit_status (BridgeRavendb.main show_output sp).1 = 0%Z
      ∧ BridgeRavendb.orders_table (BridgeRavendb.main show_output sp).2 = Some target'
      ∧ BridgeRavendb.stopped (BridgeRavendb.main show_output sp).2 = true
  | Raise e =>
      (BridgeRavendb.main show_output sp).1 = Raise e
      ∧ BridgeRavendb.exit_status (BridgeRavendb.main show_output sp).1 = 1%Z
      ∧ BridgeRavendb.orders_table (BridgeRavendb.main show_output sp).2
        = Some (default [] (BridgeRavendb.orders_table sp))
      ∧ BridgeRavendb.stopped (BridgeRavendb.main show_output sp).2
        = BridgeRavendb.stopped sp
  end.
Proof.
  intros Hfiles.
  unfold BridgeRavendb.main, BridgeRavendb.create_namespace_if_not_exists.
  match goal with
  | |- context [BridgeRavendb.read_landing_zone ?s] => set (sp0 := s)
  end.
  assert (BridgeRavendb.landing_files sp0 = BridgeRavendb.landing_files sp) as Hl.
  { subst sp0. rewrite landing_files_print, (proj1 (setup_fields _)).
    by rewrite !landing_files_print. }
  assert (BridgeRavendb.orders_table sp0
            = Some (default [] (BridgeRavendb.orders_table sp))) as Ht.
  { subst sp0. rewrite orders_table_print, (proj1 (proj2 (setup_fields _))).
    by rewrite !orders_table_print. }
  assert (BridgeRavendb.stopped sp0 = BridgeRavendb.stopped sp) as Hs.
  { subst sp0. rewrite stopped_print, (proj2 (proj2 (setup_fields _))).
    by rewrite !stopped_print. }
  clearbody sp0.
  destruct (read_landing_zone_found sp0) as [line Hread]; [by rewrite Hl|].
  rewrite Hread, Hl. cbv beta iota zeta.
  set (df := concat (map_to_list (BridgeRavendb.landing_files sp)).*2).
  set (sp1 := BridgeRavendb.print "Merging into Iceberg table..."
                (BridgeRavendb.print line sp0)).
  assert (BridgeRavendb.orders_table sp1
            = Some (default [] (BridgeRavendb.orders_table sp))) as Ht1
    by (subst sp1; by rewrite !orders_table_print).
  assert (BridgeRavendb.stopped sp1 = BridgeRavendb.stopped sp) as Hs1
    by (subst sp1; by rewrite !stopped_print).
  clearbody sp1.
  pose proof (merge_into_iceberg_run sp1 _ df Ht1) as [Hmerge Hstop].
  destruct (BridgeRavendb.merge_sql (default [] (BridgeRavendb.orders_table sp)) df)
    as [target'|e].
  - destruct Hmerge as [Hok Htable].
    destruct (BridgeRavendb.merge_into_iceberg sp1 df) as [r sp2].
    cbn [fst snd] in *. subst r.
    unfold BridgeRavendb.show_table_stats. rewrite Htable. cbv beta iota zeta.
    cbn [fst snd]. split; [done|].
    destruct (BridgeRavendb.stop _) as [table files view out halted] eqn:Hfinal.
    apply (f_equal BridgeRavendb.orders_table) in Hfinal as Htab.
    apply (f_equal BridgeRavendb.stopped) in Hfinal as Hhalt.
    cbn [BridgeRavendb.orders_table BridgeRavendb.stopped] in Htab, Hhalt.
    rewrite <- Htab, <- Hhalt. split.
    + rewrite (proj1 (stop_fields _)), !orders_table_print, orders_table_prints.
      by rewrite orders_table_print.
    + by destruct (BridgeRavendb.print _ _).
  - destruct Hmerge as [Hraise Htable].
    destruct (BridgeRavendb.merge_into_iceberg sp1 df) as [r sp2].
    cbn [fst snd] in *. subst r. cbn [fst snd].
    split; [done|]. split; [done|]. split; [done|]. by rewrite Hstop.
Qed.
End Orders.

(** ** Worked examples *)

Lemma merge_refuses_double_match_witness :
  (BridgeRavendb.merge_into_iceberg
     (MergeExamples.session MergeExamples.table_A1 ∅) MergeExamples.batch_A1_A2).1
    = Raise (SparkError cardinality_violation)
  ∧ BridgeRavendb.orders_table
      (BridgeRavendb.merge_into_iceberg
         (MergeExamples.session MergeExamples.table_A1 ∅) MergeExamples.batch_A1_A2).2
    = Some MergeExamples.table_A1.
Proof.
  apply (merge_refuses_double_match
           (MergeExamples.session MergeExamples.table_A1 ∅)
           MergeExamples.table_A1 MergeExamples.batch_A1_A2
           (MergeExamples.order_row_of (Some "A") 1)
           (MergeExamples.order_row_of (Some "A") 1)
           (MergeExamples.order_row_of (Some "A") 2) 0 1);
    [reflexivity|apply list_elem_of_here|reflexivity|reflexivity|lia
    |discriminate|reflexivity|reflexivity].
Defined.

Lemma merge_keeps_rows_witness :
  length MergeExamples.table_A1 ≤ length MergeExamples.batch_A2_B3
  ∧ BridgeRavendb.OrderId <$> take (length MergeExamples.table_A1) MergeExamples.batch_A2_B3
    = BridgeRavendb.OrderId <$> MergeExamples.table_A1.
Proof.
  destruct (merge_keeps_rows MergeExamples.table_A1 MergeExamples.batch_A2_B3
              MergeExamples.batch_A2_B3 merge_A1_with_A2_B3) as [[Hlen _] Hkeys].
  split; [exact Hlen|exact Hkeys].
Defined.

Lemma one_file_not_empty : MergeExamples.one_file ≠ ∅.
Proof. apply insert_non_empty. Qed.

Lemma main_merges_landing_zone_witness :
  BridgeRavendb.exit_status
    (BridgeRavendb.main MergeExamples.show_output
       (MergeExamples.session MergeExamples.table_A1 MergeExamples.one_file)).1 = 0%Z
  ∧ BridgeRavendb.orders_table
      (BridgeRavendb.main MergeExamples.show_output
         (MergeExamples.session MergeExamples.table_A1 MergeExamples.one_file)).2
    = Some MergeExamples.batch_A2_B3.
Proof.
  pose proof (main_merges_landing_zone MergeExamples.show_output
                (MergeExamples.session MergeExamples.table_A1 MergeExamples.one_file)
                one_file_not_empty) as Hmain.
  assert (BridgeRavendb.merge_sql
            (default [] (BridgeRavendb.orders_table
               (MergeExamples.session MergeExamples.table_A1 MergeExamples.one_file)))
            (concat (map_to_list (BridgeRavendb.landing_files
               (MergeExamples.session MergeExamples.table_A1 MergeExamples.one_file))).*2)
          = Ok MergeExamples.batch_A2_B3) as Hmerge by (vm_compute; reflexivity).
  rewrite Hmerge in Hmain. destruct Hmain as (Hexit & Htable & _).
  split; [exact Hexit|exact Htable].
Defined.
End MergeExtras.

(* ===================================================================== *)
(** * Further properties of the file inventory                            *)
(* ===================================================================== *)

Module InventoryExtras.
Import Py InventoryFiles.

Section Facts.
Variable faults : call → option exn.
Variable merge_branch : list file_row → list file_row → result (list file_row).
Variable registry_output : list file_row → list string.

Abbreviation wap := (use_write_audit_publish faults merge_branch).
Abbreviation inventory := (main faults registry_output).

(** The run of the write-audit-publish function when the branch can be
    created, outcome by outcome; [b0] is what the branch holds once step 1
    is over: what it held when it existed, the table of [main] otherwise. *)
Lemma wap_outcomes (n : nessie) (df_files : list file_row) :
  faults CreateBranch = None →
  let b0 := default (main_registry n) (ingest_files n) in
  ∃ out,
    wap n df_files =
      match faults Append with
      | Some e => (Raise e, mk_nessie (main_registry n) (Some b0) "ingest_files" out)
      | None =>
          match faults MergeBranch with
          | Some e =>
              (Raise e, mk_nessie (main_registry n) (Some (b0 ++ df_files)) "main" out)
          | None =>
              match merge_branch (b0 ++ df_files) (main_registry n) with
              | Raise e =>
                  (Raise e, mk_nessie (main_registry n) (Some (b0 ++ df_files)) "main" out)
              | Ok m =>
                  match faults DropBranch with
                  | Some e => (Raise e, mk_nessie m (Some (b0 ++ df_files)) "main" out)
                  | None => (Ok (), mk_nessie m None "main" out)
                  end
              end
          end
      end.
Proof.
  intros Hc. destruct n as [m b r out0].
  unfold use_write_audit_publish, create_branch, append, merge_branch_into_main,
    drop_branch, print, set_ref.
  rewrite Hc. cbn [main_registry ingest_files ref stdout default].
  destruct b as [t|]; cbn [main_registry ingest_files ref stdout default];
    (destruct (faults Append) as [ea|]; [eexists; reflexivity|]);
    rewrite bool_decide_eq_false_2 by discriminate;
    rewrite bool_decide_eq_true_2 by reflexivity;
    cbn [main_registry ingest_files ref stdout];
    (destruct (faults MergeBranch) as [em|]; [eexists; reflexivity|]);
    (destruct (merge_branch _ _) as [m'|em]; [|eexists; reflexivity]);
    cbn [main_registry ingest_files ref stdout];
    (destruct (faults DropBranch) as [ed|]; eexists; reflexivity).
Qed.

(** X12.  When the write to the branch fails, the session is left on the
    reference [ingest_files]; in every other outcome of a run that got
    past the creation of the branch, the session is back on [main]. *)
Theorem wap_session_reference (n : nessie) (df_files : list file_row) :
  faults CreateBranch = None →
  (∀ e, faults Append = Some e →
        (wap n df_files).1 = Raise e ∧ ref (wap n df_files).2 = "ingest_files")
  ∧ (faults Append = None → ref (wap n df_files).2 = "main").
Proof.
  intros Hc. destruct (wap_outcomes n df_files Hc) as [out ->]. split.
  - by intros e ->.
  - intros ->. destruct (faults MergeBranch); [done|].
    destruct (merge_branch _ _); [|done]. by destruct (faults DropBranch).
Qed.

(** X13.  With no failure of a call, the run appends the batch to what the
    branch holds after step 1, which for a branch kept from an earlier
    run is what that run left there, merges that into [main] and drops
    the branch; when the catalog refuses the merge, the branch stays,
    with the batch in it, and [main] is as it was. *)
Theorem wap_without_faults (n : nessie) (df_files : list file_row) :
  (∀ c, faults c = None) →
  match merge_branch (default (main_registry n) (ingest_files n) ++ df_files)
          (main_registry n) with
  | Ok m =>
      (wap n df_files).1 = Ok ()
      ∧ main_registry (wap n df_files).2 = m
      ∧ ingest_files (wap n df_files).2 = None
  | Raise e =>
      (wap n df_files).1 = Raise e
      ∧ main_registry (wap n df_files).2 = main_registry n
      ∧ ingest_files (wap n df_files).2
        = Some (default (main_registry n) (ingest_files n) ++ df_files)
  end.
Proof.
  intros Hno. destruct (wap_outcomes n df_files (Hno _)) as [out ->].
  rewrite !Hno. by destruct (merge_branch _ _).
Qed.

(** [simple_append] and the steps around it, on a session that is on
    [main]. *)
Lemma inventory_run (listing : result (list file_row)) (n : nessie) :
  ref n = "main" →
  ∃ out,
    inventory listing n =
      match listing with
      | Ok [] => (Ok (), mk_nessie (main_registry n) (ingest_files n) "main" out)
      | Ok (f :: fs) =>
          match faults Append with
          | Some e => (Raise e, mk_nessie (main_registry n) (ingest_files n) "main" out)
          | None =>
              (Ok (), mk_nessie (main_registry n ++ f :: fs) (ingest_files n) "main" out)
          end
      | Raise e =>
          if contains "Path does not exist" (BridgeRavendb.exn_message e)
             || contains "No such file" (BridgeRavendb.exn_message e)
          then (Ok (), mk_nessie (main_registry n) (ingest_files n) "main" out)
          else (Raise e, mk_nessie (main_registry n) (ingest_files n) "main" out)
      end.
Proof.
  intros Href. destruct n as [m b r out0]. cbn in Href. subst r.
  unfold main, scan_bronze_files, simple_append, append, print.
  cbn [main_registry ingest_files ref stdout].
  destruct listing as [[|f fs]|e].
  - eexists. reflexivity.
  - destruct (faults Append) as [ea|]; [eexists; reflexivity|].
    rewrite bool_decide_eq_true_2 by reflexivity.
    cbn [main_registry ingest_files ref stdout].
    generalize (registry_output (m ++ f :: fs)). intros lines.
    match goal with
    | |- context [foldl _ (mk_nessie ?a ?c ?d ?o) lines] =>
        assert (∃ out, foldl (λ n line, mk_nessie (main_registry n) (ingest_files n)
                                          (ref n) (stdout n ++ [line]))
                         (mk_nessie a c d o) lines = mk_nessie a c d out) as [out ->]
    end.
    { match goal with |- ∃ out, foldl _ (mk_nessie _ _ _ ?o) _ = _ => generalize o end.
      induction lines as [|line lines IH]; intros o; [by eexists|]. apply IH. }
    eexists. reflexivity.
  - destruct (contains "Path does not exist" (BridgeRavendb.exn_message e)
              || contains "No such file" (BridgeRavendb.exn_message e));
      eexists; reflexivity.
Qed.

(** X15.  A bronze layer that is missing or has no file changes nothing in
    the registry and the run ends well; a listing that fails in another
    way ends the run with that exception. *)
Theorem inventory_nothing_to_register (listing : result (list file_row)) (n : nessie) :
  ref n = "main" →
  (listing = Ok [] → (inventory listing n).1 = Ok ())
  ∧ (∀ e, listing = Raise e →
       (inventory listing n).1 =
         if contains "Path does not exist" (BridgeRavendb.exn_message e)
            || contains "No such file" (BridgeRavendb.exn_message e)
         then Ok () else Raise e)
  ∧ (listing = Ok [] ∨ (∃ e, listing = Raise e) →
       main_registry (inventory listing n).2 = main_registry n).
Proof.
  intros Href. destruct (inventory_run listing n Href) as [out ->].
  split; [by intros ->|]. split.
  - intros e ->. by destruct (_ || _).
  - intros [->|[e ->]]; [done|]. by destruct (_ || _).
Qed.

(** X16.  The inventory appends what it finds and does not look at what the
    registry holds: a second run adds its listing after that of the
    first, so a file that both runs find is in the registry twice. *)
Theorem inventory_twice_registers_twice
    (f1 f2 : file_row) (fs1 fs2 : list file_row) (n : nessie) :
  ref n = "main" → faults Append = None →
  (inventory (Ok (f1 :: fs1)) n).1 = Ok ()
  ∧ main_registry (inventory (Ok (f1 :: fs1)) n).2 = main_registry n ++ f1 :: fs1
  ∧ main_registry (inventory (Ok (f2 :: fs2)) (inventory (Ok (f1 :: fs1)) n).2).2
    = main_registry n ++ (f1 :: fs1) ++ (f2 :: fs2).
Proof.
  intros Href Ha. destruct (inventory_run (Ok (f1 :: fs1)) n Href) as [out Hrun].
  rewrite Ha in Hrun. rewrite Hrun. cbn [fst snd main_registry].
  split; [done|]. split; [done|].
  destruct (inventory_run (Ok (f2 :: fs2))
              (mk_nessie (main_registry n ++ f1 :: fs1) (ingest_files n) "main" out) eq_refl)
    as [out' Hrun'].
  rewrite Ha in Hrun'. rewrite Hrun'. cbn [snd main_registry].
  by rewrite <- app_assoc.
Qed.
End Facts.

(** X14.  A run that is interrupted at the branch merge keeps the branch with
    the batch in it; the next run finds the branch, appends the batch to
    it again, and what it merges into [main] holds the batch twice. *)
Theorem wap_retry_appends_again
    (faults : call → option exn)
    (merge_branch : list file_row → list file_row → result (list file_row))
    (n : nessie) (df_files : list file_row) (e : exn) :
  ingest_files n = None →
  faults CreateBranch = None → faults Append = None → faults MergeBranch = Some e →
  (use_write_audit_publish faults merge_branch n df_files).1 = Raise e
  ∧ match merge_branch ((main_registry n ++ df_files) ++ df_files) (main_registry n) with
    | Ok m =>
        main_registry
          (use_write_audit_publish (λ _, None) merge_branch
             (use_write_audit_publish faults merge_branch n df_files).2 df_files).2 = m
    | Raise _ => True
    end.
Proof.
  intros Hb Hc Ha Hm.
  destruct (wap_outcomes faults merge_branch n df_files Hc) as [out Hrun].
  rewrite Ha, Hm, Hb in Hrun. cbn [default] in Hrun. rewrite Hrun.
  split; [done|]. cbn [snd].
  destruct (wap_outcomes (λ _, None) merge_branch
              (mk_nessie (main_registry n) (Some (main_registry n ++ df_files)) "main" out)
              df_files eq_refl) as [out' Hretry].
  cbn [main_registry ingest_files default] in Hretry. rewrite Hretry.
  by destruct (merge_branch _ _).
Qed.

(** ** Worked examples *)

Lemma wap_session_reference_witness :
  ref (use_write_audit_publish MergeExamples.interrupted_at_append
         MergeExamples.fast_forward MergeExamples.catalog [MergeExamples.new_file]).2
  = "ingest_files".
Proof.
  destruct (wap_session_reference MergeExamples.interrupted_at_append
              MergeExamples.fast_forward MergeExamples.catalog [MergeExamples.new_file]
              eq_refl) as [Hfail _].
  exact (proj2 (Hfail _ eq_refl)).
Defined.

Lemma wap_without_faults_witness :
  (use_write_audit_publish MergeExamples.no_fault MergeExamples.fast_forward
     MergeExamples.catalog [MergeExamples.new_file]).1 = Ok ()
  ∧ main_registry
      (use_write_audit_publish MergeExamples.no_fault MergeExamples.fast_forward
         MergeExamples.catalog [MergeExamples.new_file]).2
    = [MergeExamples.registered_file; MergeExamples.new_file]
  ∧ ingest_files
      (use_write_audit_publish MergeExamples.no_fault MergeExamples.fast_forward
         MergeExamples.catalog [MergeExamples.new_file]).2 = None.
Proof.
  exact (wap_without_faults MergeExamples.no_fault MergeExamples.fast_forward
           MergeExamples.catalog [MergeExamples.new_file] (λ _, eq_refl)).
Defined.

Lemma wap_retry_witness :
  main_registry
    (use_write_audit_publish (λ _, None) MergeExamples.fast_forward
       (use_write_audit_publish MergeExamples.interrupted_at_merge
          MergeExamples.fast_forward MergeExamples.catalog [MergeExamples.new_file]).2
       [MergeExamples.new_file]).2
  = [MergeExamples.registered_file; MergeExamples.new_file; MergeExamples.new_file].
Proof.
  exact (proj2 (wap_retry_appends_again MergeExamples.interrupted_at_merge
           MergeExamples.fast_forward MergeExamples.catalog [MergeExamples.new_file]
           (SparkError "interrupted") eq_refl eq_refl eq_refl eq_refl)).
Defined.

Lemma inventory_nothing_witness :
  (main MergeExamples.no_fault MergeExamples.registry_output
     (Raise MergeExamples.missing_bronze) MergeExamples.catalog).1 = Ok ()
  ∧ main_registry
      (main MergeExamples.no_fault MergeExamples.registry_output
         (Raise MergeExamples.missing_bronze) MergeExamples.catalog).2
    = [MergeExamples.registered_file].
Proof.
  destruct (inventory_nothing_to_register MergeExamples.no_fault
              MergeExamples.registry_output (Raise MergeExamples.missing_bronze)
              MergeExamples.catalog eq_refl) as (_ & Hmissing & Hsame).
  split.
  - exact (Hmissing _ eq_refl).
  - apply Hsame. right. by eexists.
Defined.

Lemma inventory_twice_witness :
  main_registry
    (main MergeExamples.no_fault MergeExamples.registry_output
       (Ok [MergeExamples.registered_file])
       (main MergeExamples.no_fault MergeExamples.registry_output
          (Ok [MergeExamples.registered_file]) MergeExamples.catalog).2).2
  = [MergeExamples.registered_file; MergeExamples.registered_file;
     MergeExamples.registered_file].
Proof.
  exact (proj2 (proj2 (inventory_twice_registers_twice MergeExamples.no_fault
           MergeExamples.registry_output MergeExamples.registered_file
           MergeExamples.registered_file [] [] MergeExamples.catalog
           eq_refl eq_refl))).
Defined.
End InventoryExtras.

(* ===================================================================== *)
(** * Further properties of the landing zone                              *)
(* ===================================================================== *)

Module LandingExtras.
Import Py RavendbSync Landing.

Lemma list_ascii_app (a b : string) :
  String.list_ascii_of_string (a +:+ b)
    = String.list_ascii_of_string a ++ String.list_ascii_of_string b.
Proof.
  induction a as [|c a IH]; [done|].
  change (String c a +:+ b) with (String c (a +:+ b)).
  cbn [String.list_ascii_of_string]. rewrite IH. reflexivity.
Qed.

Lemma append_inj_tail (a b t : string) : a +:+ t = b +:+ t → a = b.
Proof.
  intros Heq. apply (f_equal String.list_ascii_of_string) in Heq.
  rewrite !list_ascii_app in Heq. apply app_inv_tail in Heq.
  apply (f_equal String.string_of_list_ascii) in Heq.
  by rewrite !String.string_of_list_ascii_of_string in Heq.
Qed.

(** Different partitions have different paths. *)
Lemma landing_path_inj (zone dataset p1 p2 : string) :
  landing_path zone dataset p1 = landing_path zone dataset p2 → p1 = p2.
Proof.
  unfold landing_path. intros Heq.
  do 4 apply (inj (String.append _)) in Heq.
  by apply append_inj_tail in Heq.
Qed.

Lemma insertion_order_elem (k : string) (seen keys : list string) :
  k ∈ insertion_order seen keys ↔ k ∈ keys ∧ k ∉ seen.
Proof.
  revert seen. induction keys as [|k' keys IH]; intros seen; cbn [insertion_order].
  - split; [by intros ?%elem_of_nil|by intros [?%elem_of_nil _]].
  - case_bool_decide as Hseen.
    + rewrite IH, elem_of_cons. split; [by intros [? ?]; auto|].
      intros [[->|Hin] Hk]; [done|auto].
    + rewrite !elem_of_cons, IH, elem_of_cons. split.
      * intros [->|[Hin Hk]]; [auto|]. split; [auto|]. intros ?. apply Hk. auto.
      * intros [[->|Hin] Hk]; [auto|].
        destruct (decide (k = k')) as [->|Hne]; [auto|]. right. split; [done|].
        by intros [?|?].
Qed.

Lemma insertion_order_NoDup (seen keys : list string) :
  NoDup (insertion_order seen keys).
Proof.
  revert seen. induction keys as [|k keys IH]; intros seen; cbn [insertion_order].
  - constructor.
  - case_bool_decide; [apply IH|]. constructor; [|apply IH].
    rewrite insertion_order_elem. intros [_ Hk]. apply Hk, list_elem_of_here.
Qed.

Section Facts.
Context {float : Type}.
Variable to_parquet : list (dict float) → result (list Byte.byte).
Implicit Types (store : gmap (string * string) s3_object) (orders : list (dict float)).

Abbreviation write := (write_parquet_to_minio to_parquet).
Abbreviation path := (landing_path "silver/ravendb_landing" "orders").

Lemma write_run store orders (p : string) :
  write store orders p =
    match to_parquet orders with
    | Ok bytes =>
        (Ok (path p),
         <[("lakehouse", path p) := mk_object bytes "application/octet-stream"]> store)
    | Raise e => (Raise e, store)
    end.
Proof. unfold write_parquet_to_minio. by destruct (to_parquet orders). Qed.

(** X7.  An encoder failure writes nothing; writes to different partitions
    go to different objects, so neither overwrites the other and the
    order of the two writes does not matter for the store. *)
Theorem partition_writes_independent store (orders1 orders2 : list (dict float))
    (p1 p2 : string) :
  p1 ≠ p2 →
  (∀ e, (write_parquet_to_minio to_parquet store orders1 p1).1 = Raise e →
        (write_parquet_to_minio to_parquet store orders1 p1).2 = store)
  ∧ (∀ k1 k2, (write_parquet_to_minio to_parquet store orders1 p1).1 = Ok k1 →
       (write_parquet_to_minio to_parquet
          (write_parquet_to_minio to_parquet store orders1 p1).2 orders2 p2).1 = Ok k2 →
       k1 ≠ k2
       ∧ (write_parquet_to_minio to_parquet
            (write_parquet_to_minio to_parquet store orders1 p1).2 orders2 p2).2
           !! (BUCKET_NAME, k1)
         = (write_parquet_to_minio to_parquet store orders1 p1).2 !! (BUCKET_NAME, k1)
       ∧ (write_parquet_to_minio to_parquet
            (write_parquet_to_minio to_parquet store orders1 p1).2 orders2 p2).2
         = (write_parquet_to_minio to_parquet
              (write_parquet_to_minio to_parquet store orders2 p2).2 orders1 p1).2).
Proof.
  intros Hne.
  assert (path p1 ≠ path p2) as Hpath by (by intros ?%landing_path_inj).
  split.
  - intros e. rewrite write_run. by destruct (to_parquet orders1).
  - intros k1 k2. rewrite (write_run store orders1 p1).
    destruct (to_parquet orders1) as [b1|e1] eqn:H1; [|done]. cbn [fst snd].
    rewrite (write_run _ orders2 p2).
    destruct (to_parquet orders2) as [b2|e2] eqn:H2; [|done]. cbn [fst snd].
    intros [= <-] [= <-]. rewrite (write_run store orders2 p2), H2. cbn [snd].
    rewrite write_run, H1. cbn [snd].
    assert (("lakehouse", path p1) ≠ ("lakehouse", path p2)) as Hkey
      by (intros Heq; apply Hpath; exact (f_equal snd Heq)).
    split; [done|]. split.
    + by rewrite lookup_insert_ne.
    + by apply insert_insert_ne.
Qed.

(** The loop over partitions with pairwise distinct keys, each of which
    the encoder accepts: every partition is written, the files are
    listed in the order of the loop, nothing else changes. *)
Lemma write_partitions_run (rows_of : string → list (dict float))
    (keys : list string) store :
  NoDup keys →
  (∀ k, k ∈ keys → is_ok (to_parquet (rows_of k)) = true) →
  ∃ store',
    write_partitions to_parquet store ((λ k, (k, rows_of k)) <$> keys)
      = (Ok (path <$> keys), store')
    ∧ (∀ k, k ∈ keys → ∃ bytes, to_parquet (rows_of k) = Ok bytes
         ∧ store' !! ("lakehouse", path k)
           = Some (mk_object bytes "application/octet-stream"))
    ∧ (∀ key, (∀ k, k ∈ keys → key ≠ ("lakehouse", path k)) →
         store' !! key = store !! key).
Proof.
  revert store. induction keys as [|k keys IH]; intros store Hnd Henc.
  - exists store. split; [done|]. split; [by intros k ?%elem_of_nil|done].
  - apply NoDup_cons in Hnd as [Hk Hnd].
    rewrite fmap_cons. cbn [write_partitions]. rewrite write_run.
    pose proof (Henc k (list_elem_of_here _ _)) as Hok.
    destruct (to_parquet (rows_of k)) as [bytes|e] eqn:Hbytes; [|done].
    destruct (IH (<[("lakehouse", path k) := mk_object bytes "application/octet-stream"]> store)
                 Hnd) as (store' & Hrun & Hwritten & Hother).
    { intros k' Hk'. by apply Henc, list_elem_of_further. }
    exists store'. rewrite Hrun. split; [done|]. split.
    + intros k' [->|Hk']%elem_of_cons; [|by apply Hwritten].
      exists bytes. split; [done|]. rewrite Hother; [apply lookup_insert_eq|].
      intros k' Hk' Heq. apply Hk. apply (f_equal snd) in Heq. cbn [snd] in Heq.
      by apply landing_path_inj in Heq as ->.
    + intros key Hkey. rewrite Hother.
      * rewrite lookup_insert_ne; [done|]. intros <-. exact (Hkey k (list_elem_of_here _ _) eq_refl).
      * intros k' Hk'. by apply Hkey, list_elem_of_further.
Qed.

(** The entries of the dict in insertion order, for a dict that holds
    the rows of [orders] by key. *)
Lemma items_grouped (grouped : gmap string (list (dict float))) orders :
  grouped_as grouped orders →
  items grouped orders
    = (λ k, (k, rows_of_key k orders))
        <$> insertion_order [] (omap partition_key orders).
Proof.
  intros Hg. unfold items.
  assert (∀ k, k ∈ insertion_order [] (omap partition_key orders) →
            grouped !! k = Some (rows_of_key k orders)) as Hkeys.
  { intros k [Hk _]%insertion_order_elem.
    apply list_elem_of_omap in Hk as (o & Ho & Hkey).
    rewrite Hg. assert (o ∈ rows_of_key k orders) as Hin
      by (by apply list_elem_of_filter).
    destruct (rows_of_key k orders); [by apply elem_of_nil in Hin|done]. }
  induction (insertion_order [] (omap partition_key orders)) as [|k keys IH]; [done|].
  cbn [omap list_omap]. rewrite (Hkeys k) by apply list_elem_of_here.
  cbn [fmap option_fmap option_map]. rewrite fmap_cons. f_equal.
  apply IH. intros k' Hk'. by apply Hkeys, list_elem_of_further.
Qed.

(** X8.  The run of [main] from the fetched orders on.  When every order has
    a valid timestamp and the encoder accepts the rows of every day,
    there is one file per calendar day, listed in the order in which the
    days first occur among the orders; the object of a day holds the
    encoding of exactly the rows of that day; and no other object of the
    store is touched.  (For no order at all this is: nothing is
    written.) *)
Theorem sync_orders_writes_every_day store orders :
  Forall valid_timestamp orders →
  (∀ k, rows_of_key k orders ≠ [] → is_ok (to_parquet (rows_of_key k orders)) = true) →
  ∃ files store',
    sync_orders to_parquet store orders = (Ok files, store')
    ∧ files = path <$> insertion_order [] (omap partition_key orders)
    ∧ (∀ k, rows_of_key k orders ≠ [] →
         ∃ bytes, to_parquet (rows_of_key k orders) = Ok bytes
           ∧ store' !! ("lakehouse", path k)
             = Some (mk_object bytes "application/octet-stream"))
    ∧ (∀ key, (∀ k, rows_of_key k orders ≠ [] → key ≠ ("lakehouse", path k)) →
         store' !! key = store !! key).
Proof.
  intros Hvalid Henc.
  assert (∀ k, k ∈ insertion_order [] (omap partition_key orders)
               ↔ rows_of_key k orders ≠ []) as Hkeys.
  { intros k. rewrite insertion_order_elem, list_elem_of_omap. split.
    - intros [(o & Ho & Hk) _] Hnil.
      assert (o ∈ rows_of_key k orders) as Hin by (by apply list_elem_of_filter).
      rewrite Hnil in Hin. by apply elem_of_nil in Hin.
    - intros Hne. split; [|apply not_elem_of_nil].
      destruct (rows_of_key k orders) as [|o rest] eqn:Hrows; [done|].
      assert (o ∈ rows_of_key k orders) as Hin by (rewrite Hrows; apply list_elem_of_here).
      apply list_elem_of_filter in Hin as [Hk Ho]. eauto. }
  destruct (group_loop_run orders ∅ [] Hvalid) as (grouped & Hrun & Hg & _).
  { intros k. by rewrite lookup_empty. }
  { by rewrite map_to_list_empty. }
  rewrite app_nil_l in Hg.
  destruct (write_partitions_run (λ k, rows_of_key k orders)
              (insertion_order [] (omap partition_key orders)) store)
    as (store' & Hwrite & Hwritten & Hother).
  { apply insertion_order_NoDup. }
  { intros k Hk. by apply Henc, Hkeys. }
  exists (path <$> insertion_order [] (omap partition_key orders)), store'.
  split; [|split; [done|split]].
  - unfold sync_orders. destruct orders as [|o orders]; [by injection Hwrite as <-|].
    unfold sync_orders, group_by_date. rewrite Hrun. cbv beta iota.
    rewrite (items_grouped grouped _ Hg). exact Hwrite.
  - intros k Hk. by apply Hwritten, Hkeys.
  - intros key Hkey. apply Hother. intros k Hk. by apply Hkey, Hkeys.
Qed.
End Facts.

(** ** Worked examples *)

Lemma partition_writes_witness :
  (write_parquet_to_minio Examples.to_parquet
     (write_parquet_to_minio Examples.to_parquet ∅ Examples.three_orders "2024-01-01").2
     Examples.three_orders "2024-01-02").2
  = (write_parquet_to_minio Examples.to_parquet
       (write_parquet_to_minio Examples.to_parquet ∅ Examples.three_orders "2024-01-02").2
       Examples.three_orders "2024-01-01").2.
Proof.
  destruct (partition_writes_independent Examples.to_parquet ∅
              Examples.three_orders Examples.three_orders "2024-01-01" "2024-01-02")
    as [_ Hboth]; [discriminate|].
  by destruct (Hboth _ _ eq_refl eq_refl) as (_ & _ & Hcomm).
Defined.

Lemma sync_orders_witness :
  ∃ store',
    sync_orders Examples.to_parquet ∅ Examples.three_orders
      = (Ok ["silver/ravendb_landing/orders/2024-01-01/data.parquet";
             "silver/ravendb_landing/orders/2024-01-02/data.parquet"], store').
Proof.
  destruct (sync_orders_writes_every_day Examples.to_parquet ∅ Examples.three_orders
              three_orders_valid) as (files & store' & Hrun & Hfiles & _).
  { intros k _. reflexivity. }
  exists store'. rewrite Hrun, Hfiles. reflexivity.
Defined.
End LandingExtras.

(* ===================================================================== *)
(** * Further properties of the metadata normalizer                       *)
(* ===================================================================== *)

Module NormalizeExtras.
Import Py IngestHdf5 NormalizeFacts.

Section Facts.
Context {float frame : Type}.
Variable DataFrame : list (dict float) → frame.
Implicit Types (w : world float) (rs : list nat).

(** Two lists of rows that are determined record by record are equal. *)
Lemma rows_determined {A B} (P Q : A → B → Prop) (l : list A) (k1 k2 : list B) :
  (∀ a b1 b2, P a b1 → Q a b2 → b1 = b2) →
  Forall2 P l k1 → Forall2 Q l k2 → k1 = k2.
Proof.
  intros Hfun H1. revert k2.
  induction H1 as [|a b1 l k1 Hab _ IH]; intros k2 H2.
  - by apply Forall2_nil_inv_l in H2.
  - apply Forall2_cons_inv_l in H2 as (b2 & k2' & Hab2 & H2 & ->).
    f_equal; [by eapply Hfun|by apply IH].
Qed.

(** X17.  Normalizing again changes nothing: a second call on the records as
    the first call left them returns the same frame and leaves every
    record as it is. *)
Theorem metadata_to_dataframe_idempotent rs w :
  Forall (λ r, is_Some (heap w !! r)) rs →
  ∃ rows w',
    metadata_to_dataframe DataFrame rs w = (Ok rows, w')
    ∧ metadata_to_dataframe DataFrame rs w' = (Ok rows, w').
Proof.
  intros Hall.
  destruct (metadata_to_dataframe_spec DataFrame rs w Hall)
    as (rows & h' & Hrun & Hh' & Hrows).
  assert (Forall (λ r, is_Some (heap (mk_world h' (ticks w)) !! r)) rs) as Hall'.
  { apply Forall_forall. intros r Hr. cbn [heap]. rewrite Hh'.
    rewrite bool_decide_eq_true_2 by done.
    rewrite Forall_forall in Hall. destruct (Hall r Hr) as [d ->].
    cbn [fmap option_fmap option_map]. by eexists. }
  destruct (metadata_to_dataframe_spec DataFrame rs _ Hall')
    as (rows2 & h'' & Hrun2 & Hh'' & Hrows2).
  cbn [heap ticks] in Hh'', Hrows2, Hrun2.
  exists (DataFrame rows), (mk_world h' (ticks w)). split; [exact Hrun|].
  rewrite Hrun2.
  assert (h'' = h') as ->.
  { apply map_eq. intros l. rewrite Hh'', Hh'.
    destruct (bool_decide (l ∈ rs)); [|reflexivity].
    destruct (heap w !! l) as [d|]; [|reflexivity].
    cbn [fmap option_fmap option_map]. f_equal. apply filled_idemp. }
  assert (rows2 = rows) as ->; [|reflexivity].
  eapply rows_determined; [|exact Hrows2|exact Hrows].
  intros r row2 row (d2 & Hd2 & ->) (d & Hd & ->).
  rewrite Hh', Hd in Hd2. destruct (bool_decide (r ∈ rs));
    cbn [fmap option_fmap option_map] in Hd2.
  - assert (d2 = filled d) as -> by congruence. apply filled_idemp.
  - congruence.
Qed.
End Facts.

(** ** Worked example *)

Lemma metadata_to_dataframe_idempotent_witness :
  ∃ rows w',
    metadata_to_dataframe Examples.frame_of_records [1%nat] Examples.sample_world = (Ok rows, w')
    ∧ metadata_to_dataframe Examples.frame_of_records [1%nat] w' = (Ok rows, w').
Proof.
  exact (metadata_to_dataframe_idempotent Examples.frame_of_records [1%nat] Examples.sample_world
           Normalizer.sample_allocated).
Defined.
End NormalizeExtras.

(* ===================================================================== *)
(** * Further properties of the HDF5 bridge                               *)
(* ===================================================================== *)

Module Hdf5Extras.
Import Py BridgeHdf5.

Ltac decide_names := apply (bool_decide_unpack _); vm_compute; exact I.

(** The lists of column names of [merge_into_iceberg]: every expected
    column but [cataloged_at] is cast by exactly one of the three steps. *)
Lemma type_casts_NoDup : NoDup (type_casts.*1).
Proof. decide_names. Qed.

Lemma string_columns_NoDup : NoDup string_columns.
Proof. decide_names. Qed.

Lemma type_casts_names :
  Forall (λ c, c ∉ string_columns ∧ c ≠ "ingestion_time" ∧ c ≠ "cataloged_at"
               ∧ c ∈ expected_columns) (type_casts.*1).
Proof. decide_names. Qed.

Lemma string_columns_names :
  Forall (λ c, c ∉ (type_casts.*1) ∧ c ≠ "ingestion_time" ∧ c ≠ "cataloged_at"
               ∧ c ∈ expected_columns) string_columns.
Proof. decide_names. Qed.

Lemma expected_columns_names :
  Forall (λ c, c = "cataloged_at" ∨ c = "ingestion_time" ∨ c ∈ (type_casts.*1)
               ∨ c ∈ string_columns) expected_columns.
Proof. decide_names. Qed.

Lemma other_names :
  "ingestion_time" ∉ (type_casts.*1) ∧ "ingestion_time" ∉ string_columns
  ∧ "cataloged_at" ∉ (type_casts.*1) ∧ "cataloged_at" ∉ string_columns
  ∧ "ingestion_time" ∈ expected_columns ∧ "cataloged_at" ∈ expected_columns
  ∧ "ingestion_time" ≠ "cataloged_at".
Proof. decide_names. Qed.

Section Facts.
Context {float : Type}.
Variable cast : sqltype → cell (float:=float) → cell (float:=float).
Variable to_timestamp : cell (float:=float) → cell (float:=float).
Implicit Types (df : dataframe (float:=float)) (r m : gmap string (cell (float:=float)))
  (k c : string).

Lemma foldl_pointwise {A B} (f g : B → A → B) (b : B) (l : list A) :
  (∀ b a, f b a = g b a) → foldl f b l = foldl g b l.
Proof. intros Hfg. revert b. induction l as [|a l IH]; intros b; [done|]. cbn. by rewrite Hfg. Qed.

(** A loop that casts the columns of a list that the frame has: the
    columns stay, every row is changed in the same way, a column that is
    not in the list or not in the frame is left alone, and a column that
    is in both holds the cast of what it held. *)
Lemma cast_loop {A} (name : A → string) (tr : A → cell (float:=float) → cell (float:=float))
    (l : list A) df :
  NoDup (name <$> l) →
  ∃ g : gmap string cell → gmap string cell,
    columns (foldl (λ df a, if bool_decide (name a ∈ columns df)
                            then withColumn (name a) (λ r, tr a (col (name a) r)) df
                            else df) df l) = columns df
    ∧ rows (foldl (λ df a, if bool_decide (name a ∈ columns df)
                           then withColumn (name a) (λ r, tr a (col (name a) r)) df
                           else df) df l) = g <$> rows df
    ∧ (∀ r k, k ∉ name <$> l ∨ k ∉ columns df → g r !! k = r !! k)
    ∧ (∀ r a, a ∈ l → name a ∈ columns df →
         g r !! name a = Some (tr a (col (name a) r))).
Proof.
  revert df. induction l as [|a0 l IH]; intros df Hnd.
  - exists id. split; [done|]. split; [by rewrite list_fmap_id|]. split; [done|].
    by intros r a ?%elem_of_nil.
  - rewrite fmap_cons in Hnd. apply NoDup_cons in Hnd as [Hnew Hnd].
    cbn [foldl]. case_bool_decide as Hin.
    + destruct (IH (withColumn (name a0) (λ r, tr a0 (col (name a0) r)) df) Hnd)
        as (g & Hcols & Hrows & Hkeep & Hcast).
      assert (columns (withColumn (name a0) (λ r, tr a0 (col (name a0) r)) df)
              = columns df) as Hsame.
      { unfold withColumn. cbn [columns]. by rewrite bool_decide_eq_true_2. }
      rewrite Hsame in Hcols, Hkeep, Hcast.
      exists (g ∘ (λ r, <[name a0 := tr a0 (col (name a0) r)]> r)).
      split; [exact Hcols|]. split; [by rewrite Hrows, list_fmap_compose|]. split.
      * intros r k Hk. cbn [compose]. rewrite Hkeep.
        -- apply lookup_insert_ne. intros <-. destruct Hk as [Hk|Hk]; [|done].
           apply Hk. rewrite fmap_cons. apply list_elem_of_here.
        -- destruct Hk as [Hk|Hk]; [left|by right].
           intros Hk'. apply Hk. rewrite fmap_cons. by apply list_elem_of_further.
      * intros r a [->|Ha]%elem_of_cons Hcol; cbn [compose].
        -- rewrite Hkeep by (by left). apply lookup_insert_eq.
        -- rewrite (Hcast _ a Ha Hcol). do 2 f_equal. unfold col.
           rewrite lookup_insert_ne; [done|]. intros Heq. apply Hnew.
           rewrite Heq. by apply list_elem_of_fmap_2.
    + destruct (IH df Hnd) as (g & Hcols & Hrows & Hkeep & Hcast).
      exists g. split; [exact Hcols|]. split; [exact Hrows|]. split.
      * intros r k Hk. apply Hkeep. destruct Hk as [Hk|Hk]; [left|by right].
        intros Hk'. apply Hk. rewrite fmap_cons. by apply list_elem_of_further.
      * intros r a [->|Ha]%elem_of_cons Hcol; [done|]. by apply Hcast.
Qed.

(** The loop that adds the columns the frame lacks. *)
Lemma fill_loop (l : list string) df :
  ∃ g : gmap string cell → gmap string cell,
    (∀ k, k ∈ columns (foldl (λ df c, if bool_decide (c ∈ columns df) then df
                                      else withColumn c (λ _, CNull) df) df l)
          ↔ k ∈ columns df ∨ k ∈ l)
    ∧ rows (foldl (λ df c, if bool_decide (c ∈ columns df) then df
                           else withColumn c (λ _, CNull) df) df l) = g <$> rows df
    ∧ (∀ r k, g r !! k = if bool_decide (k ∈ l ∧ k ∉ columns df)
                         then Some CNull else r !! k).
Proof.
  revert df. induction l as [|c l IH]; intros df.
  - exists id. split; [|split].
    + intros k. cbn [foldl]. split; [by left|]. by intros [?|?%elem_of_nil].
    + by rewrite list_fmap_id.
    + intros r k. rewrite bool_decide_eq_false_2; [done|]. by intros [?%elem_of_nil _].
  - cbn [foldl]. case_bool_decide as Hin.
    + destruct (IH df) as (g & Hcols & Hrows & Hlook).
      exists g. split; [|split; [exact Hrows|]].
      * intros k. rewrite Hcols, elem_of_cons. split; [tauto|].
        intros [?|[->|?]]; tauto.
      * intros r k. rewrite Hlook.
        rewrite (bool_decide_ext (k ∈ l ∧ k ∉ columns df) (k ∈ c :: l ∧ k ∉ columns df));
          [done|].
        rewrite elem_of_cons. split; [tauto|]. intros [[->|?] ?]; tauto.
    + destruct (IH (withColumn c (λ _, CNull) df)) as (g & Hcols & Hrows & Hlook).
      assert (columns (withColumn c (λ _ : gmap string cell, CNull) df)
              = columns df ++ [c]) as Hmore.
      { unfold withColumn. cbn [columns]. by rewrite bool_decide_eq_false_2. }
      exists (g ∘ (λ r, <[c := CNull]> r)). split; [|split].
      * intros k. rewrite Hcols, Hmore, elem_of_app, list_elem_of_singleton, elem_of_cons.
        tauto.
      * by rewrite Hrows, list_fmap_compose.
      * intros r k. cbn [compose]. rewrite Hlook, Hmore.
        destruct (decide (k = c)) as [->|Hne].
        -- rewrite bool_decide_eq_false_2.
           2:{ intros [_ Hc]. apply Hc, elem_of_app. right. apply list_elem_of_here. }
           rewrite bool_decide_eq_true_2 by (split; [apply list_elem_of_here|done]).
           apply lookup_insert_eq.
        -- rewrite lookup_insert_ne by done.
           rewrite (bool_decide_ext (k ∈ l ∧ k ∉ columns df ++ [c])
                      (k ∈ c :: l ∧ k ∉ columns df)); [done|].
           rewrite elem_of_cons, elem_of_app, list_elem_of_singleton. tauto.
Qed.

Lemma type_casts_loop df :
  ∃ g : gmap string cell → gmap string cell,
    columns (foldl (λ df '(c, ty),
               if bool_decide (c ∈ columns df)
               then withColumn c (λ r, cast ty (col c r)) df else df) df type_casts)
      = columns df
    ∧ rows (foldl (λ df '(c, ty),
               if bool_decide (c ∈ columns df)
               then withColumn c (λ r, cast ty (col c r)) df else df) df type_casts)
      = g <$> rows df
    ∧ (∀ r k, k ∉ (type_casts.*1) ∨ k ∉ columns df → g r !! k = r !! k)
    ∧ (∀ r c ty, (c, ty) ∈ type_casts → c ∈ columns df →
         g r !! c = Some (cast ty (col c r))).
Proof.
  rewrite (foldl_pointwise _
             (λ df a, if bool_decide (a.1 ∈ columns df)
                      then withColumn a.1 (λ r, cast a.2 (col a.1 r)) df else df))
    by (by intros ? [? ?]).
  destruct (cast_loop fst (λ a, cast a.2) type_casts df type_casts_NoDup)
    as (g & Hcols & Hrows & Hkeep & Hcast).
  exists g. split; [exact Hcols|]. split; [exact Hrows|]. split; [exact Hkeep|].
  intros r c ty Hin Hcol. exact (Hcast r (c, ty) Hin Hcol).
Qed.

Lemma string_columns_loop df :
  ∃ g : gmap string cell → gmap string cell,
    columns (foldl (λ df c,
               if bool_decide (c ∈ columns df)
               then withColumn c (λ r, cast StringType (col c r)) df else df)
               df string_columns)
      = columns df
    ∧ rows (foldl (λ df c,
               if bool_decide (c ∈ columns df)
               then withColumn c (λ r, cast StringType (col c r)) df else df)
               df string_columns)
      = g <$> rows df
    ∧ (∀ r k, k ∉ string_columns ∨ k ∉ columns df → g r !! k = r !! k)
    ∧ (∀ r c, c ∈ string_columns → c ∈ columns df →
         g r !! c = Some (cast StringType (col c r))).
Proof.
  destruct (cast_loop id (λ _, cast StringType) string_columns df)
    as (g & Hcols & Hrows & Hkeep & Hcast).
  { rewrite list_fmap_id. apply string_columns_NoDup. }
  rewrite list_fmap_id in Hkeep.
  exists g. split; [exact Hcols|]. split; [exact Hrows|]. split; [exact Hkeep|].
  intros r c. exact (Hcast r c).
Qed.

(** The frame [merge_into_iceberg] registers as [hdf5_source], row for
    row with the source. *)
Lemma prepare_rows (now : Z) df :
  columns (prepare cast to_timestamp now df) = expected_columns
  ∧ Forall2 (λ r r',
        (∀ k, is_Some (r' !! k) ↔ k ∈ expected_columns)
      ∧ r' !! "cataloged_at" = Some (CTimestamp now)
      ∧ (∀ c ty, (c, ty) ∈ type_casts → c ∈ columns df →
           r' !! c = Some (cast ty (col c r)))
      ∧ ("ingestion_time" ∈ columns df →
           r' !! "ingestion_time" = Some (to_timestamp (col "ingestion_time" r)))
      ∧ (∀ c, c ∈ string_columns → c ∈ columns df →
           r' !! c = Some (cast StringType (col c r)))
      ∧ (∀ c, c ∈ expected_columns → c ∉ columns df → c ≠ "cataloged_at" →
           r' !! c = Some CNull))
      (rows df) (rows (prepare cast to_timestamp now df)).
Proof.
  split; [reflexivity|].
  destruct other_names as (Hi1 & Hi3 & Hc1 & Hc3 & Hie & Hce & Hic).
  unfold prepare. cbv zeta.
  set (df0 := withColumn "cataloged_at" (λ _, CTimestamp now) df).
  assert (∀ k, k ∈ columns df0 ↔ k ∈ columns df ∨ k = "cataloged_at") as Hcol0.
  { intros k. unfold df0, withColumn. cbn [columns]. case_bool_decide as Hin.
    - split; [by left|]. by intros [?| ->].
    - by rewrite elem_of_app, list_elem_of_singleton. }
  assert (rows df0 = (λ r, <["cataloged_at" := CTimestamp now]> r) <$> rows df) as Hrows0
    by reflexivity.
  destruct (type_casts_loop df0) as (g1 & Hcol1 & Hrows1 & K1 & S1).
  set (df1 := foldl _ df0 type_casts) in *.
  set (g2 := λ r : gmap string cell,
         if bool_decide ("ingestion_time" ∈ columns df1)
         then <["ingestion_time" := to_timestamp (col "ingestion_time" r)]> r else r).
  set (df2 := if bool_decide ("ingestion_time" ∈ columns df1) then _ else df1).
  assert (columns df2 = columns df1 ∧ rows df2 = g2 <$> rows df1) as [Hcol2 Hrows2].
  { unfold df2, g2. case_bool_decide as Hin.
    - unfold withColumn. cbn [columns rows]. by rewrite bool_decide_eq_true_2.
    - by rewrite list_fmap_id. }
  destruct (string_columns_loop df2) as (g3 & Hcol3 & Hrows3 & K3 & S3).
  set (df3 := foldl _ df2 string_columns) in *.
  destruct (fill_loop expected_columns df3) as (g4 & _ & Hrows4 & L4).
  set (df4 := foldl _ df3 expected_columns) in *.
  unfold select. cbn [rows].
  rewrite Hrows4, Hrows3, Hrows2, Hrows1, Hrows0, <- !list_fmap_compose.
  apply Forall2_fmap_r, Forall_Forall2_diag, Forall_forall. intros r _.
  cbn [compose].
  clearbody df0 df1 df2 df3 df4. clear Hrows0 Hrows1 Hrows2 Hrows3 Hrows4.
  assert (∀ k, k ∈ columns df3 ↔ k ∈ columns df ∨ k = "cataloged_at") as Hcol.
  { intros k. by rewrite Hcol3, Hcol2, Hcol1. }
  rewrite Hcol2, Hcol1 in K3, S3.
  assert (∀ m k, k ∈ expected_columns →
            filter (λ kv, kv.1 ∈ expected_columns) m !! k = m !! k) as F.
  { intros m k Hk. apply option_eq. intros x. rewrite map_lookup_filter_Some.
    cbn [fst]. tauto. }
  assert (∀ m k, k ∈ columns df ∨ k = "cataloged_at" →
            g4 m !! k = m !! k) as A4.
  { intros m k Hk. rewrite L4. rewrite bool_decide_eq_false_2; [done|].
    intros [_ Hno]. by apply Hno, Hcol. }
  assert (∀ m k, k ≠ "ingestion_time" → g2 m !! k = m !! k) as A2.
  { intros m k Hk. unfold g2. case_bool_decide; [|done]. by rewrite lookup_insert_ne. }
  assert (∀ m k, k ≠ "cataloged_at" →
            col k (<["cataloged_at" := CTimestamp now]> m) = col k m) as A0.
  { intros m k Hk. unfold col. by rewrite lookup_insert_ne. }
  set (r0 := <["cataloged_at" := CTimestamp now]> r) in *.
  (* the stamp *)
  assert (filter (λ kv, kv.1 ∈ expected_columns) (g4 (g3 (g2 (g1 r0)))) !! "cataloged_at"
          = Some (CTimestamp now)) as Hstamp.
  { rewrite F by done. rewrite A4 by (by right). rewrite K3 by (by left).
    rewrite A2 by done. rewrite K1 by (by left). apply lookup_insert_eq. }
  (* the numeric columns *)
  assert (∀ c ty, (c, ty) ∈ type_casts → c ∈ columns df →
            filter (λ kv, kv.1 ∈ expected_columns) (g4 (g3 (g2 (g1 r0)))) !! c
            = Some (cast ty (col c r))) as Hnum.
  { intros c ty Hin Hc.
    assert (c ∈ (type_casts.*1)) as Hname by (by apply (list_elem_of_fmap_2 fst _ (c, ty))).
    pose proof type_casts_names as Hall. rewrite Forall_forall in Hall.
    destruct (Hall c Hname) as (Hs & Hi & Hca & He).
    rewrite F by done. rewrite A4 by (by left). rewrite K3 by (by left).
    rewrite A2 by done. rewrite (S1 r0 c ty Hin) by (apply Hcol0; by left).
    unfold r0. by rewrite A0. }
  (* the time of the ingestion *)
  assert ("ingestion_time" ∈ columns df →
            filter (λ kv, kv.1 ∈ expected_columns) (g4 (g3 (g2 (g1 r0)))) !! "ingestion_time"
            = Some (to_timestamp (col "ingestion_time" r))) as Hing.
  { intros Hc. rewrite F by done. rewrite A4 by (by left). rewrite K3 by (by left).
    unfold g2. rewrite bool_decide_eq_true_2 by (rewrite Hcol1; apply Hcol0; by left).
    rewrite lookup_insert_eq. do 2 f_equal. unfold col at 1.
    rewrite K1 by (by left). fold (col "ingestion_time" r0). unfold r0. by rewrite A0. }
  (* the string columns *)
  assert (∀ c, c ∈ string_columns → c ∈ columns df →
            filter (λ kv, kv.1 ∈ expected_columns) (g4 (g3 (g2 (g1 r0)))) !! c
            = Some (cast StringType (col c r))) as Hstr.
  { intros c Hin Hc.
    pose proof string_columns_names as Hall. rewrite Forall_forall in Hall.
    destruct (Hall c Hin) as (Ht & Hi & Hca & He).
    rewrite F by done. rewrite A4 by (by left).
    rewrite (S3 _ c Hin) by (apply Hcol0; by left). do 2 f_equal. unfold col at 1.
    rewrite A2 by done. rewrite K1 by (by left). fold (col c r0). unfold r0. by rewrite A0. }
  (* the columns that are filled *)
  assert (∀ c, c ∈ expected_columns → c ∉ columns df → c ≠ "cataloged_at" →
            filter (λ kv, kv.1 ∈ expected_columns) (g4 (g3 (g2 (g1 r0)))) !! c
            = Some CNull) as Hnull.
  { intros c He Hc Hca. rewrite F by done. rewrite L4.
    rewrite bool_decide_eq_true_2; [done|]. split; [done|].
    rewrite Hcol. by intros [?|?]. }
  split; [|by repeat split].
  intros k. split.
  - intros [x Hx]. apply map_lookup_filter_Some in Hx as [_ Hk]. exact Hk.
  - intros Hk. pose proof expected_columns_names as Hall. rewrite Forall_forall in Hall.
    destruct (decide (k = "cataloged_at")) as [->|Hca]; [by rewrite Hstamp|].
    destruct (decide (k ∈ columns df)) as [Hc|Hc]; [|by rewrite Hnull].
    destruct (Hall k Hk) as [->|[->|[Hname|Hname]]].
    + by rewrite Hstamp.
    + by rewrite Hing.
    + apply list_elem_of_fmap in Hname as ([c ty] & -> & Hin).
      cbn [fst] in *. by rewrite (Hnum c ty Hin Hc).
    + by rewrite Hstr.
Qed.

(** X18.  What [merge_into_iceberg] hands to the [MERGE]: a frame with the
    expected columns and nothing else, row for row with the source.
    Every row is stamped with the time of this run, whatever the source
    held in [cataloged_at]; a column that the source has is cast by the
    one step that names it; a column that the source lacks is null. *)
Theorem prepare_schema (now : Z) df :
  columns (prepare cast to_timestamp now df) = expected_columns
  ∧ Forall2 (λ r r',
        (∀ k, is_Some (r' !! k) ↔ k ∈ expected_columns)
      ∧ r' !! "cataloged_at" = Some (CTimestamp now)
      ∧ (∀ c ty, (c, ty) ∈ type_casts → c ∈ columns df →
           r' !! c = Some (cast ty (col c r)))
      ∧ ("ingestion_time" ∈ columns df →
           r' !! "ingestion_time" = Some (to_timestamp (col "ingestion_time" r)))
      ∧ (∀ c, c ∈ string_columns → c ∈ columns df →
           r' !! c = Some (cast StringType (col c r)))
      ∧ (∀ c, c ∈ expected_columns → c ∉ columns df → c ≠ "cataloged_at" →
           r' !! c = Some CNull))
      (rows df) (rows (prepare cast to_timestamp now df)).
Proof. exact (prepare_rows now df). Qed.

(** [merge_into_iceberg] on a session that has the catalog table. *)
Lemma merge_into_iceberg_catalog (now : Z) files src out st df target :
  merge_into_iceberg cast to_timestamp now (mk_spark (Some target) files src out st) df
  = match merge_sql target (rows (prepare cast to_timestamp now df)) with
    | Ok target' =>
        (Ok (), print ("✓ Merged data into Iceberg table. Total records: "
                         +:+ pretty (length target'))
                  (set_table target' (mk_spark (Some target) files
                      (rows (prepare cast to_timestamp now df)) out st)))
    | Raise e => (Raise e, mk_spark (Some target) files
                      (rows (prepare cast to_timestamp now df)) out st)
    end.
Proof. reflexivity. Qed.

(** X19.  Cataloguing a file again replaces its row: after a merge that went
    through, the row of the catalog whose path a prepared row has is
    that prepared row, with the time of this run in [cataloged_at], so
    the time of the first cataloguing is gone; a row whose path no
    prepared row has stays as it was; and a prepared row without a path
    is added to the catalog, at this run as at any other. *)
Theorem recatalog_replaces_row (now : Z) (sp sp' : spark) df target :
  hdf5_catalog sp = Some target →
  merge_into_iceberg cast to_timestamp now sp df = (Ok (), sp') →
  ∃ target',
    hdf5_catalog sp' = Some target'
    ∧ (∀ i t s p, target !! i = Some t →
         s ∈ rows (prepare cast to_timestamp now df) →
         file_path t = Some p → file_path s = Some p →
         target' !! i = Some s ∧ s !! "cataloged_at" = Some (CTimestamp now))
    ∧ (∀ i t, target !! i = Some t →
         (∀ s, s ∈ rows (prepare cast to_timestamp now df) →
               file_path s = None ∨ file_path s ≠ file_path t) →
         target' !! i = Some t)
    ∧ (∀ s, s ∈ rows (prepare cast to_timestamp now df) → file_path s = None →
         s ∈ target').
Proof.
  intros Hcat Hrun. destruct sp as [cat files src out st]. cbn [hdf5_catalog] in Hcat.
  subst cat. rewrite merge_into_iceberg_catalog in Hrun.
  destruct (prepare_rows now df) as [_ Hrows].
  set (prepared := prepare cast to_timestamp now df) in *. clearbody prepared.
  assert (∀ s, s ∈ rows prepared → s !! "cataloged_at" = Some (CTimestamp now)) as Hstamp.
  { intros s [j Hj]%list_elem_of_lookup.
    by destruct (Forall2_lookup_r _ _ _ _ _ Hrows Hj) as (r & _ & _ & ? & _). }
  clear Hrows.
  destruct (merge_sql target (rows prepared)) as [target'|e] eqn:Hmerge;
    [|apply (f_equal fst) in Hrun; discriminate Hrun].
  apply (f_equal snd) in Hrun. cbn [snd] in Hrun. subst sp'.
  exists target'. split; [reflexivity|].
  destruct (MergeFacts.merge_into_upsert_spec file_path (λ _ s, s) (λ s, s)
              (λ _ _ _, eq_refl) (λ _, eq_refl) target (rows prepared)) as [Hok _].
  destruct (Hok target' Hmerge) as (Hupd & Hkeep & Hins & _).
  split; [|split].
  - intros i t s p Hi Hs Ht Hp. split; [|by apply Hstamp].
    apply (Hupd i t s Hi Hs). apply MergeFacts.matched_keys. by exists p.
  - intros i t Hi Hno. apply (Hkeep i t Hi). intros s Hs Hm.
    apply MergeFacts.matched_keys in Hm as (p & Ht & Hp).
    destruct (Hno s Hs) as [Hnone|Hne]; congruence.
  - intros s Hs Hnone. apply (Hins s Hs). intros Hm.
    apply Exists_exists in Hm as (t & _ & Hm).
    apply MergeFacts.matched_keys in Hm as (p & _ & Hp). congruence.
Qed.
End Facts.

(** ** Worked example *)

Lemma recatalog_witness :
  ∃ target' s,
    hdf5_catalog
      (merge_into_iceberg MergeExamples.cast MergeExamples.to_timestamp 2
         MergeExamples.cataloged_session MergeExamples.metadata_frame).2 = Some target'
    ∧ target' !! 0%nat = Some s ∧ s !! "cataloged_at" = Some (CTimestamp 2).
Proof.
  destruct (recatalog_replaces_row MergeExamples.cast MergeExamples.to_timestamp 2
              MergeExamples.cataloged_session
              (merge_into_iceberg MergeExamples.cast MergeExamples.to_timestamp 2
                 MergeExamples.cataloged_session MergeExamples.metadata_frame).2
              MergeExamples.metadata_frame _ eq_refl)
    as (target' & Hcat & Hupd & _).
  { vm_compute. reflexivity. }
  destruct (prepare_rows MergeExamples.cast MergeExamples.to_timestamp 2
              MergeExamples.metadata_frame) as [_ Hrows].
  apply Forall2_cons_inv_l in Hrows as (s & rest & (_ & _ & _ & _ & Hstr & _) & _ & Heq).
  exists target', s. split; [exact Hcat|].
  apply (Hupd 0%nat _ s "/data/run1.h5" eq_refl).
  - rewrite Heq. apply list_elem_of_here.
  - reflexivity.
  - unfold file_path. rewrite (Hstr "file_path"); [reflexivity| |apply list_elem_of_here].
    apply list_elem_of_here.
Defined.

Section Main.
Context {float : Type}.
Variable cast : sqltype → cell (float:=float) → cell (float:=float).
Variable to_timestamp : cell (float:=float) → cell (float:=float).
Variable union_files : gmap string (dataframe (float:=float)) → dataframe (float:=float).
Variable summary_output : list (gmap string (cell (float:=float))) → list string.
Implicit Types (sp : spark (float:=float)) (line : string).

Lemma hdf5_print_fields line sp :
  hdf5_catalog (print line sp) = hdf5_catalog sp
  ∧ metadata_files (print line sp) = metadata_files sp
  ∧ stopped (print line sp) = stopped sp.
Proof. by destruct sp. Qed.

Lemma hdf5_prints_fields (lines : list string) sp :
  hdf5_catalog (foldl (λ sp line, print line sp) sp lines) = hdf5_catalog sp
  ∧ stopped (foldl (λ sp line, print line sp) sp lines) = stopped sp.
Proof.
  revert sp. induction lines as [|line lines IH]; intros sp; [done|].
  cbn [foldl]. destruct (IH (print line sp)) as [-> ->]. by destruct sp.
Qed.

Lemma hdf5_stop_fields sp :
  hdf5_catalog (stop sp) = hdf5_catalog sp ∧ stopped (stop sp) = true.
Proof. by destruct sp. Qed.

Lemma hdf5_setup_fields sp :
  hdf5_catalog (create_hdf5_catalog_table sp) = Some (default [] (hdf5_catalog sp))
  ∧ metadata_files (create_hdf5_catalog_table sp) = metadata_files sp
  ∧ stopped (create_hdf5_catalog_table sp) = stopped sp.
Proof. by destruct sp as [[t|] files view out halted]. Qed.

Lemma read_hdf5_metadata_found sp :
  metadata_files sp ≠ ∅ →
  ∃ line, read_hdf5_metadata union_files sp
          = (Some (union_files (metadata_files sp)), print line sp).
Proof.
  intros Hfiles. unfold read_hdf5_metadata, read_parquet.
  rewrite bool_decide_eq_false_2 by done. eauto.
Qed.

Lemma hdf5_merge_run (now : Z) sp df target :
  hdf5_catalog sp = Some target →
  match merge_sql target (rows (prepare cast to_timestamp now df)) with
  | Ok target' =>
      (merge_into_iceberg cast to_timestamp now sp df).1 = Ok ()
      ∧ hdf5_catalog (merge_into_iceberg cast to_timestamp now sp df).2 = Some target'
  | Raise e =>
      (merge_into_iceberg cast to_timestamp now sp df).1 = Raise e
      ∧ hdf5_catalog (merge_into_iceberg cast to_timestamp now sp df).2 = Some target
  end
  ∧ stopped (merge_into_iceberg cast to_timestamp now sp df).2 = stopped sp.
Proof.
  intros Hcat. destruct sp as [cat files src out st]. cbn [hdf5_catalog] in Hcat.
  subst cat. rewrite merge_into_iceberg_catalog.
  by destruct (merge_sql target _).
Qed.

(** X20.  [main] of the HDF5 bridge when the silver layer has metadata files.
    The catalog table is created when it does not exist.  Files without
    a record end the run with status 1 and Spark stopped, and nothing is
    merged.  Otherwise the prepared records are merged: when the merge
    goes through, the run ends with status 0 and Spark stopped; when it
    is refused, the exception leaves [main], the exit status is 1, the
    catalog is as it was and Spark is not stopped. *)
Theorem hdf5_main_outcomes (now : Z) sp :
  metadata_files sp ≠ ∅ →
  match rows (union_files (metadata_files sp)) with
  | [] =>
      (main cast to_timestamp union_files summary_output now sp).1 = Ok 1
      ∧ hdf5_catalog (main cast to_timestamp union_files summary_output now sp).2
        = Some (default [] (hdf5_catalog sp))
      ∧ stopped (main cast to_timestamp union_files summary_output now sp).2 = true
  | _ =>
      match merge_sql (default [] (hdf5_catalog sp))
              (rows (prepare cast to_timestamp now (union_files (metadata_files sp)))) with
      | Ok target' =>
          (main cast to_timestamp union_files summary_output now sp).1 = Ok 0
          ∧ hdf5_catalog (main cast to_timestamp union_files summary_output now sp).2
            = Some target'
          ∧ stopped (main cast to_timestamp union_files summary_output now sp).2 = true
      | Raise e =>
          (main cast to_timestamp union_files summary_output now sp).1 = Raise e
          ∧ exit_status (main cast to_timestamp union_files summary_output now sp).1 = 1
          ∧ hdf5_catalog (main cast to_timestamp union_files summary_output now sp).2
            = Some (default [] (hdf5_catalog sp))
          ∧ stopped (main cast to_timestamp union_files summary_output now sp).2
            = stopped sp
      end
  end.
Proof.
  intros Hfiles. unfold main, create_namespace_if_not_exists.
  match goal with
  | |- context [read_hdf5_metadata _ ?s] => set (sp0 := s)
  end.
  assert (metadata_files sp0 = metadata_files sp
          ∧ hdf5_catalog sp0 = Some (default [] (hdf5_catalog sp))
          ∧ stopped sp0 = stopped sp) as (Hl & Ht & Hs).
  { subst sp0. destruct (hdf5_setup_fields
      (print "✓ Namespace 'nessie.scientific_data' ready"
         (print "✓ Spark session created"
            (print "HDF5 CATALOG BRIDGE - Registering in Nessie/Iceberg" sp))))
      as (-> & -> & ->).
    by destruct sp. }
  clearbody sp0.
  destruct (read_hdf5_metadata_found sp0) as [line Hread]; [by rewrite Hl|].
  rewrite Hread, Hl. cbv beta iota zeta.
  set (df := union_files (metadata_files sp)).
  set (sp1 := print line sp0).
  assert (hdf5_catalog sp1 = Some (default [] (hdf5_catalog sp))
          ∧ stopped sp1 = stopped sp) as [Ht1 Hs1].
  { subst sp1. by destruct sp0. }
  clearbody sp1 df.
  destruct (rows df) as [|r rs] eqn:Hrows.
  - rewrite bool_decide_eq_true_2 by done. cbn [fst snd].
    split; [done|].
    destruct (hdf5_stop_fields (print "⚠ No HDF5 metadata found in silver layer." sp1))
      as [-> ->].
    split; [|done]. by rewrite (proj1 (hdf5_print_fields _ _)).
  - rewrite bool_decide_eq_false_2 by done.
    pose proof (hdf5_merge_run now sp1 df _ Ht1) as [Hmerge Hstop].
    destruct (merge_sql (default [] (hdf5_catalog sp)) _) as [target'|e].
    + destruct Hmerge as [Hok Htable].
      destruct (merge_into_iceberg cast to_timestamp now sp1 df) as [res sp2].
      cbn [fst snd] in *. subst res.
      unfold show_catalog_summary. rewrite Htable. cbv beta iota zeta. cbn [fst snd].
      split; [done|].
      rewrite (proj1 (hdf5_print_fields _ _)).
      destruct (hdf5_stop_fields (foldl (λ sp line, print line sp) sp2
                                    (summary_output target'))) as [Hc Hst].
      rewrite Hc, (proj1 (hdf5_prints_fields _ _)). split; [done|].
      by rewrite (proj2 (proj2 (hdf5_print_fields _ _))).
    + destruct Hmerge as [Hraise Htable].
      destruct (merge_into_iceberg cast to_timestamp now sp1 df) as [res sp2].
      cbn [fst snd] in *. subst res. cbn [fst snd].
      split; [done|]. split; [done|]. split; [done|]. by rewrite Hstop.
Qed.
End Main.

(** ** Worked example: a first run over one metadata file *)

Lemma metadata_session_files : metadata_files MergeExamples.metadata_session ≠ ∅.
Proof. apply insert_non_empty. Qed.

Lemma hdf5_main_witness :
  (main MergeExamples.cast MergeExamples.to_timestamp MergeExamples.union_files
     MergeExamples.summary_output 2 MergeExamples.metadata_session).1 = Ok 0
  ∧ stopped
      (main MergeExamples.cast MergeExamples.to_timestamp MergeExamples.union_files
         MergeExamples.summary_output 2 MergeExamples.metadata_session).2 = true.
Proof.
  pose proof (hdf5_main_outcomes MergeExamples.cast MergeExamples.to_timestamp
                MergeExamples.union_files MergeExamples.summary_output 2
                MergeExamples.metadata_session metadata_session_files) as Hmain.
  destruct (rows _) as [|r rs] eqn:Hrows in Hmain.
  { apply (f_equal length) in Hrows. vm_compute in Hrows. discriminate Hrows. }
  destruct (merge_sql _ _) as [target'|e] eqn:Hmerge in Hmain.
  - destruct Hmain as (Hexit & _ & Hstop). split; [exact Hexit|exact Hstop].
  - apply (f_equal is_ok) in Hmerge. vm_compute in Hmerge. discriminate Hmerge.
Defined.
End Hdf5Extras.
